(** * AlgoGameSim: agents, content and the base-match scorer

    A shallow embedding of [agent.py], [content.py] and [logic.py].

    Conventions of the embedding.
    - The arguments of the constructors of [Agent] and [Content] are Python
      numbers: [Z] for [int] and [Q] (the exact value) for a finite [float].
    - In the scorer a Python [int] is a [Z] (unbounded), a [float] and a
      numpy [float64] are binary64 floats ([PrimFloat.float], with their
      rounding, infinities and not-a-number), and a numpy [int64] or
      [uint64] is a [Z] that wraps around.
    - A Python [str] is a [string] whose characters are the code points
      below 256.
    - A pandas [DataFrame] is an index length together with an ordered
      association list from column labels to columns (lists of cells);
      labels may repeat, as pandas allows.
    - Objects that the caller may share ([DataFrame]s, mappings) live in a
      store and are referred to by location; the scorer runs in a
      state-and-exception monad over the store, and the statements that
      work on its own copy of the table run in the same monad over that
      one frame.
    - Where the result of pandas or numpy is not fixed by what this
      development models (text that is not a plain decimal integer, mixed
      numpy and Python integers that do not fit the numpy type, the text of
      a float, ...), a computation ends in [Raise Undetermined]: no handler
      catches it and nothing is concluded from it. *)

From Stdlib Require Import Floats.
From Stdlib Require Import ZArith QArith Qabs Qround Lqa String Ascii List Lia.
From Stdlib Require Import DecimalString.
From stdpp Require Import base option list gmap strings.
Import ListNotations.

Local Open Scope Z_scope.
Local Open Scope string_scope.
Local Open Scope list_scope.

(** ** Python strings: [str.strip] and [str.lower] on code points below 256 *)

Module PyStr.

(** Whitespace as [str.strip()] sees it below 256: space, TAB..CR, the
    separators FS..US, NEL (U+0085) and the no-break space (U+00A0). *)
Definition is_space (a : ascii) : bool :=
  let n := nat_of_ascii a in
  (n =? 32)%nat || ((9 <=? n)%nat && (n <=? 13)%nat)
                || ((28 <=? n)%nat && (n <=? 31)%nat)
                || (n =? 133)%nat || (n =? 160)%nat.

(** [str.lower()] on one character: A..Z and the Latin-1 capitals
    U+00C0..U+00DE (the multiplication sign U+00D7 apart) move up by 32. *)
Definition lower_char (a : ascii) : ascii :=
  let n := nat_of_ascii a in
  if ((65 <=? n)%nat && (n <=? 90)%nat)
     || ((192 <=? n)%nat && (n <=? 222)%nat && negb (n =? 215)%nat)
  then ascii_of_nat (n + 32) else a.

Fixpoint lstrip_chars (l : list ascii) : list ascii :=
  match l with
  | [] => []
  | a :: l' => if is_space a then lstrip_chars l' else l
  end.

Definition strip_chars (l : list ascii) : list ascii :=
  rev (lstrip_chars (rev (lstrip_chars l))).

Definition strip (s : string) : string :=
  string_of_list_ascii (strip_chars (list_ascii_of_string s)).

Definition lower (s : string) : string :=
  string_of_list_ascii (List.map lower_char (list_ascii_of_string s)).

(** [str(n)] for an [int]: its decimal numeral. *)
Definition str_of_int (z : Z) : string := NilZero.string_of_int (Z.to_int z).

End PyStr.

(** ** Values held by table cells and mappings *)

(** A Python value as the scorer can meet it in a cell of the agent table or
    in the content mapping. [VNaN] is the float not-a-number; [VTag] is an
    object exposing a [.value] attribute (an enum member); the attribute is
    its string tag. *)
Inductive value : Type :=
| VNone
| VNaN
| VInt (z : Z)
| VFloat (f : float)
| VStr (s : string)
| VTag (tag : string).

(** A float stored into a cell. *)
Definition of_float (x : float) : value :=
  if is_nan x then VNaN else VFloat x.

(** [pd.isna] on a cell. *)
Definition value_isna (v : value) : bool :=
  match v with
  | VNone | VNaN => true
  | VFloat f => is_nan f
  | _ => false
  end.

(** ** Exceptions and results *)

(** The exceptions of Python that the program can meet, and [Undetermined],
    which is not one of them: it ends a computation whose result this
    development does not fix. *)
Inductive exn : Type :=
| KeyError (key : string)
| TypeError
| ValueError (subject : string)
| OverflowError
| AttributeError
| Undetermined.

Inductive result (A : Type) : Type :=
| Ok (a : A)
| Raise (e : exn).

Arguments Ok {A} a.
Arguments Raise {A} e.

(** Sequencing of results: the first exception aborts what follows. *)
Definition rbind {A B : Type} (r : result A) (k : A -> result B) : result B :=
  match r with
  | Ok a => k a
  | Raise e => Raise e
  end.

Declare Scope py_scope.
Delimit Scope py_scope with py.
Notation "'try' x <- r ; k" := (rbind r (fun x => k))
  (at level 10, x name, r at level 100, k at level 200) : py_scope.

Local Open Scope py_scope.

(** [try: r  except Exception: handler] *)
Definition except_ {A : Type} (r : result A) (handler : A) : result A :=
  match r with
  | Ok x => Ok x
  | Raise Undetermined => Raise Undetermined
  | Raise _ => Ok handler
  end.

(** The test [p(a) or q(b)] for two values whose computation may have been
    left undetermined; both tests are total and without effect, so the
    test is true as soon as one side is known to make it true. *)
Definition either {A B : Type} (p : A -> bool) (q : B -> bool)
           (ra : result A) (rb : result B) : result bool :=
  match ra, rb with
  | Ok a, Ok b => Ok (p a || q b)
  | Ok a, Raise e => if p a then Ok true else Raise e
  | Raise e, Ok b => if q b then Ok true else Raise e
  | Raise e, Raise _ => Raise e
  end.

(** [[f(x) for x in l]]: the first exception aborts the rest. *)
Fixpoint map_result {A B : Type} (f : A -> result B) (l : list A) : result (list B) :=
  match l with
  | [] => Ok []
  | x :: l' =>
      try y <- f x;
      try ys <- map_result f l';
      Ok (y :: ys)
  end.

(** ** Numbers of Python and numpy *)

(** What [pd.to_numeric] returns for a scalar: the Python number it was
    given, or the numpy scalar read from a text. *)
Inductive number : Type :=
| PyInt (z : Z)
| PyFloat (f : float)
| NpInt64 (z : Z)
| NpUint64 (z : Z)
| NpFloat64 (f : float).

(** [pd.isna] on a number. *)
Definition number_isna (n : number) : bool :=
  match n with
  | PyFloat f | NpFloat64 f => is_nan f
  | _ => false
  end.

(** The float nearest to an integer, ties to even (infinite beyond the
    largest float). *)
Definition float_of_Z (z : Z) : float :=
  SF2Prim (binary_normalize prec emax z 0 false).

(** The least integer that rounds beyond the largest finite float. *)
Definition float_overflow : Z := 2 ^ 1024 - 2 ^ 970.

(** [float(n)] for a Python [int], also when an [int] meets a [float] in
    an arithmetic operation. *)
Definition float_of_int (z : Z) : result float :=
  if (Z.abs z <? float_overflow)%Z then Ok (float_of_Z z) else Raise OverflowError.

Definition int64_ok (z : Z) : bool := (- 2 ^ 63 <=? z)%Z && (z <? 2 ^ 63)%Z.

Definition uint64_ok (z : Z) : bool := (0 <=? z)%Z && (z <? 2 ^ 64)%Z.

(** Arithmetic of [int64] and [uint64] wraps around. *)
Definition wrap_int64 (z : Z) : Z := (z + 2 ^ 63) mod 2 ^ 64 - 2 ^ 63.

Definition wrap_uint64 (z : Z) : Z := z mod 2 ^ 64.

(** [x - y]. Two Python numbers subtract as Python does (an [int] that
    meets a [float] is converted first, and may be too large for it); a
    numpy scalar with a number that its type takes subtracts in that type;
    a [float64] or a mixture of [int64] and [uint64] subtracts in
    [float64]. A Python [int] that does not fit the type of the numpy
    integer it meets is converted differently by different versions of
    numpy. *)
Definition num_sub (x y : number) : result number :=
  match x, y with
  | PyInt a, PyInt b => Ok (PyInt (a - b))
  | PyInt a, PyFloat g => try f <- float_of_int a; Ok (PyFloat (f - g))
  | PyFloat f, PyInt b => try g <- float_of_int b; Ok (PyFloat (f - g))
  | PyFloat f, PyFloat g => Ok (PyFloat (f - g))
  | NpInt64 a, NpInt64 b => Ok (NpInt64 (wrap_int64 (a - b)))
  | NpInt64 a, PyInt b =>
      if int64_ok b then Ok (NpInt64 (wrap_int64 (a - b))) else Raise Undetermined
  | PyInt a, NpInt64 b =>
      if int64_ok a then Ok (NpInt64 (wrap_int64 (a - b))) else Raise Undetermined
  | NpUint64 a, NpUint64 b => Ok (NpUint64 (wrap_uint64 (a - b)))
  | NpUint64 a, PyInt b =>
      if uint64_ok b && negb (int64_ok b)
      then Ok (NpUint64 (wrap_uint64 (a - b))) else Raise Undetermined
  | PyInt a, NpUint64 b =>
      if uint64_ok a && negb (int64_ok a)
      then Ok (NpUint64 (wrap_uint64 (a - b))) else Raise Undetermined
  | NpInt64 a, NpUint64 b | NpUint64 a, NpInt64 b =>
      Ok (NpFloat64 (float_of_Z a - float_of_Z b))
  | NpInt64 a, PyFloat g | NpInt64 a, NpFloat64 g
  | NpUint64 a, PyFloat g | NpUint64 a, NpFloat64 g =>
      Ok (NpFloat64 (float_of_Z a - g))
  | PyFloat f, NpInt64 b | NpFloat64 f, NpInt64 b
  | PyFloat f, NpUint64 b | NpFloat64 f, NpUint64 b =>
      Ok (NpFloat64 (f - float_of_Z b))
  | PyFloat f, NpFloat64 g | NpFloat64 f, PyFloat g | NpFloat64 f, NpFloat64 g =>
      Ok (NpFloat64 (f - g))
  | NpFloat64 f, PyInt b =>
      if int64_ok b || uint64_ok b
      then Ok (NpFloat64 (f - float_of_Z b)) else Raise Undetermined
  | PyInt a, NpFloat64 g =>
      if int64_ok a || uint64_ok a
      then Ok (NpFloat64 (float_of_Z a - g)) else Raise Undetermined
  end.

(** [abs(x)]; the least [int64] has no positive counterpart and stays as it
    is. *)
Definition num_abs (x : number) : number :=
  match x with
  | PyInt z => PyInt (Z.abs z)
  | PyFloat f => PyFloat (abs f)
  | NpInt64 z => NpInt64 (wrap_int64 (Z.abs z))
  | NpUint64 z => NpUint64 z
  | NpFloat64 f => NpFloat64 (abs f)
  end.

(** [float(x)] *)
Definition to_float (x : number) : result float :=
  match x with
  | PyInt z => float_of_int z
  | PyFloat f | NpFloat64 f => Ok f
  | NpInt64 z | NpUint64 z => Ok (float_of_Z z)
  end.

(** ** What the scorer takes from pandas and the Python runtime

    [parse_number s] is the numpy scalar that
    [pd.to_numeric(s, errors="coerce")] reads from the text [s]
    (not-a-number when [s] is no number); [str_of_float] is [str] on a
    float. *)
Class Runtime : Type := {
  parse_number : string -> result number;
  str_of_float : float -> result string
}.

(** A runtime for evaluating the definitions on concrete inputs. It reads
    the plain decimal integers that fit [int64] or [uint64], knows the
    empty text and any text with a character that no numeral has (such as
    ["n/a"]) to be no number, and leaves every other text, and the text of
    every float, undetermined. *)
Fixpoint parse_digits (l : list ascii) (acc : Z) : option Z :=
  match l with
  | [] => Some acc
  | a :: l' =>
      let n := nat_of_ascii a in
      if ((48 <=? n)%nat && (n <=? 57)%nat)%bool
      then parse_digits l' (10 * acc + Z.of_nat (n - 48))
      else None
  end.

(** A plain decimal integer: digits, after an optional minus sign. *)
Definition parse_integer (l : list ascii) : option Z :=
  match l with
  | [] => None
  | "-"%char :: [] => None
  | "-"%char :: l' => option_map Z.opp (parse_digits l' 0)
  | _ => parse_digits l 0
  end.

(** The characters that occur in some numeral that pandas reads: digits,
    signs, the point, the underscore, whitespace, and the letters of
    exponents, hexadecimal digits, [inf], [infinity] and [nan]. *)
Definition numeral_char (a : ascii) : bool :=
  let n := nat_of_ascii a in
  ((48 <=? n)%nat && (n <=? 57)%nat)
  || PyStr.is_space a
  || existsb (Ascii.eqb (PyStr.lower_char a))
       (list_ascii_of_string "+-._abcdefxintypjl").

Definition parse_decimal (s : string) : result number :=
  let l := list_ascii_of_string s in
  match parse_integer l with
  | Some z =>
      if int64_ok z then Ok (NpInt64 z)
      else if uint64_ok z then Ok (NpUint64 z)
      else Raise Undetermined
  | None =>
      if forallb numeral_char l && negb (Nat.eqb (List.length l) 0)
      then Raise Undetermined
      else Ok (NpFloat64 nan)
  end.

Definition decimal_runtime : Runtime := {|
  parse_number := parse_decimal;
  str_of_float := fun _ => Raise Undetermined
|}.

(** ** DataFrames *)

Definition column : Type := list value.

Record DataFrame : Type := mkDataFrame {
  index_len : nat;                       (* number of rows *)
  data : list (string * column)          (* columns, in order *)
}.

Definition columns (df : DataFrame) : list string := List.map fst (data df).

(** [name in df.columns] *)
Definition has_column (df : DataFrame) (name : string) : bool :=
  existsb (String.eqb name) (columns df).

(** The first column labelled [name]. *)
Fixpoint assoc_get (name : string) (d : list (string * column)) : option column :=
  match d with
  | [] => None
  | (n, c) :: d' => if String.eqb n name then Some c else assoc_get name d'
  end.

(** All the columns labelled [name], in order. *)
Fixpoint select (name : string) (d : list (string * column)) : list column :=
  match d with
  | [] => []
  | (n, c) :: d' => if String.eqb n name then c :: select name d' else select name d'
  end.

(** The label [name] is carried by at most one column. *)
Definition single_label (df : DataFrame) (name : string) : Prop :=
  (List.length (select name (data df)) <= 1)%nat.

(** What [df[name]] is: a [Series] when one column carries the label, a
    [DataFrame] of all the columns that carry it when several do. *)
Inductive selection : Type :=
| Series (col : column)
| Frame (cols : list column).

(** [df[name]] *)
Definition getitem (df : DataFrame) (name : string) : result selection :=
  match select name (data df) with
  | [] => Raise (KeyError name)
  | [c] => Ok (Series c)
  | cs => Ok (Frame cs)
  end.

(** [df[names]]: for each name asked for, the columns that carry it. *)
Fixpoint getitems (df : DataFrame) (names : list string) : result (list column) :=
  match names with
  | [] => Ok []
  | n :: names' =>
      match select n (data df) with
      | [] => Raise (KeyError n)
      | cs => try rest <- getitems df names'; Ok (cs ++ rest)
      end
  end.

(** Every column labelled [name] becomes [col]. *)
Definition replace_all (name : string) (col : column) (d : list (string * column))
  : list (string * column) :=
  List.map (fun nc => if String.eqb (fst nc) name then (fst nc, col) else nc) d.

(** [df[name] = col]: the columns that carry the label are replaced where
    they stand; when there is none, a new column is appended after the
    others. *)
Definition setitem (df : DataFrame) (name : string) (col : column) : DataFrame :=
  mkDataFrame (index_len df)
    (if has_column df name then replace_all name col (data df)
     else data df ++ [(name, col)]).

(** [df[name] = v] for a scalar [v]: broadcast over the index. *)
Definition setitem_scalar (df : DataFrame) (name : string) (v : value) : DataFrame :=
  setitem df name (repeat v (index_len df)).

(** The cell at row [i] of the first column labelled [name], when both
    exist. *)
Definition cell_at (df : DataFrame) (name : string) (i : nat) : option value :=
  match assoc_get name (data df) with
  | Some c => nth_error c i
  | None => None
  end.

(** Every column spans the index. *)
Definition well_formed (df : DataFrame) : Prop :=
  Forall (fun nc => List.length (snd nc) = index_len df) (data df).

Definition well_formedb (df : DataFrame) : bool :=
  forallb (fun nc => Nat.eqb (List.length (snd nc)) (index_len df)) (data df).

(** [series.apply(func)] on what [df[name]] gave. On a [DataFrame] the
    function is handed whole columns, and both functions the scorer applies
    test the truth of a [Series] then, which pandas refuses; without rows
    the function is only probed, and what happens next is left open. *)
Definition series_apply (n : nat) (func : value -> result value) (sel : selection)
  : result column :=
  match sel with
  | Series col => map_result func col
  | Frame _ => if Nat.eqb n 0 then Raise Undetermined else Raise (ValueError "Series")
  end.

(** ** The store and the monad of the scorer

    [DataFrame]s are mutable objects and mappings may be shared with the
    caller: both are kept in a store and named by their location. A
    computation threads a state (the store, or the one frame it works on)
    and may raise. *)

Definition loc : Type := nat.

Record store : Type := mkStore {
  frames : list DataFrame;
  mappings : list (gmap string value)
}.

Definition state_exn (S A : Type) : Type := S -> result A * S.

Definition M (A : Type) : Type := state_exn store A.

(** Computations on the scorer's own copy of the table. *)
Definition FM (A : Type) : Type := state_exn DataFrame A.

Definition ret {S A : Type} (a : A) : state_exn S A := fun s => (Ok a, s).

Definition bind {S A B : Type} (m : state_exn S A) (k : A -> state_exn S B)
  : state_exn S B :=
  fun s =>
    match m s with
    | (Ok a, s') => k a s'
    | (Raise e, s') => (Raise e, s')
    end.

Notation "'do' x <- m ; k" := (bind m (fun x => k))
  (at level 10, x name, m at level 100, k at level 200) : py_scope.
Notation "'do_' m ; k" := (bind m (fun _ => k))
  (at level 10, m at level 100, k at level 200) : py_scope.

(** A result computed without touching the state. *)
Definition lift {S A : Type} (r : result A) : state_exn S A := fun s => (r, s).

(** [for x in l: body x] *)
Fixpoint for_each {S A : Type} (l : list A) (body : A -> state_exn S unit)
  : state_exn S unit :=
  match l with
  | [] => ret tt
  | x :: l' => do_ body x; for_each l' body
  end.

(** [df.copy()]: a new frame with the same index and data. A location that
    holds no frame is an argument that is not a table. *)
Definition frame_copy (l : loc) : M loc :=
  fun s =>
    match nth_error (frames s) l with
    | Some df => (Ok (List.length (frames s)), mkStore (frames s ++ [df]) (mappings s))
    | None => (Raise AttributeError, s)
    end.

(** Running statements that work on the frame at [l]; what they did to it
    stays done when they raise. *)
Definition with_frame {A : Type} (l : loc) (m : FM A) : M A :=
  fun s =>
    match nth_error (frames s) l with
    | Some df =>
        let (r, df') := m df in
        (r, mkStore (<[l := df']> (frames s)) (mappings s))
    | None => (Raise AttributeError, s)
    end.

Definition df_has_column (name : string) : FM bool :=
  fun df => (Ok (has_column df name), df).

Definition df_index_len : FM nat :=
  fun df => (Ok (index_len df), df).

Definition df_getitem (name : string) : FM selection :=
  fun df => (getitem df name, df).

Definition df_getitems (names : list string) : FM (list column) :=
  fun df => (getitems df names, df).

Definition df_setitem (name : string) (col : column) : FM unit :=
  fun df => (Ok tt, setitem df name col).

Definition df_setitem_scalar (name : string) (v : value) : FM unit :=
  fun df => (Ok tt, setitem_scalar df name v).

(** ** Row means *)

(** A cell of a float column as a float. *)
Definition cell_float (v : value) : float :=
  match v with
  | VFloat f => f
  | VInt z => float_of_Z z
  | _ => nan
  end.

(** The floats that are numbers, in order. *)
Definition available (xs : list float) : list float :=
  List.filter (fun x => negb (is_nan x)) xs.

(** The sum of floats, added from left to right. *)
Definition fsum (xs : list float) : float := fold_left PrimFloat.add xs 0%float.

(** [mean(skipna=True)] of one row: the sum of the numbers divided by
    their count. *)
Definition mean_skipna (xs : list float) : float :=
  match available xs with
  | [] => nan
  | ys => (fsum ys / float_of_Z (Z.of_nat (List.length ys)))%float
  end.

(** [frame.mean(axis=1, skipna=True)] over the index [0 .. n-1]. *)
Definition mean_axis1 (n : nat) (cols : list column) : list float :=
  List.map (fun i => mean_skipna (List.map (fun c => cell_float (nth i c VNaN)) cols))
           (seq 0 n).

(** ** logic.py *)

Module Logic.

(** The [content] argument of the scorer: [None], a [Mapping] held in the
    store, an object with a [to_dict()] method (given by what the method
    returns), or any other object. *)
Inductive content_arg : Type :=
| CNone
| CMapping (l : loc)
| CToDict (d : gmap string value)
| COther.

(** [_as_dict]; [dict(obj)] reads the caller's mapping and builds a copy,
    which the scorer only ever reads. A location that holds no mapping
    stands for no argument at all. *)
Definition _as_dict (obj : content_arg) : M (gmap string value) :=
  match obj with
  | CNone => ret ∅
  | CMapping l =>
      fun s =>
        match nth_error (mappings s) l with
        | Some d => (Ok d, s)
        | None => (Raise Undetermined, s)
        end
  | CToDict d => ret d
  | COther => ret ∅
  end.

Definition attrs : list string :=
  ["tiered_income"; "ethics"; "politics"; "cultural"; "age"; "sex"].

(** [cval]: [content_dict.get(attr, None)] *)
Definition cval (content_dict : gmap string value) (attr : string) : value :=
  default VNone (content_dict !! attr).

Section WithRuntime.
Context {RT : Runtime}.

(** [pd.to_numeric(arg, errors="coerce")] on a scalar: numbers pass as they
    are, [None] becomes not-a-number, text is read, and an object that is
    neither a scalar nor array-like is refused. *)
Definition to_numeric (arg : value) : result number :=
  match arg with
  | VNone | VNaN => Ok (PyFloat nan)
  | VInt z => Ok (PyInt z)
  | VFloat f => Ok (PyFloat f)
  | VStr s => parse_number s
  | VTag _ => Raise TypeError
  end.

(** One element of [pd.to_numeric(series, errors="coerce") - c] for a float
    [c], before the subtraction: the element as a [float64]. An [int]
    outside both 64-bit types takes a path of pandas that is not modelled. *)
Definition series_element (v : value) : result float :=
  match v with
  | VNone | VNaN | VTag _ => Ok nan
  | VInt z => if int64_ok z || uint64_ok z then Ok (float_of_Z z) else Raise Undetermined
  | VFloat f => Ok f
  | VStr s => try x <- except_ (parse_number s) (NpFloat64 nan);
              match x with
              | PyInt z | NpInt64 z | NpUint64 z => Ok (float_of_Z z)
              | PyFloat f | NpFloat64 f => Ok f
              end
  end.

(** [pd.to_numeric(df[name], errors="coerce")]: a [DataFrame] is refused. *)
Definition to_numeric_series (sel : selection) : result (list float) :=
  match sel with
  | Series col => map_result series_element col
  | Frame _ => Raise TypeError
  end.

(** The inner [_diff_numeric] of the loop, closed over [c_num]. *)
Definition _diff_numeric (c_num : result number) (x : value) : result value :=
  let x_num := except_ (to_numeric x) (PyFloat nan) in
  try missing <- either number_isna number_isna x_num c_num;
  if missing then Ok VNaN
  else
    try x_num <- x_num;
    try c_num <- c_num;
    try d <- num_sub x_num c_num;
    try f <- to_float (num_abs d);
    Ok (of_float f).

(** [str(base)] for the values a label can be. The text of an object with
    a [.value] is never asked for: [_normalize_cultural] takes the
    attribute first. *)
Definition py_str (base : value) : result string :=
  match base with
  | VNone => Ok "None"
  | VNaN => Ok "nan"
  | VInt z => Ok (PyStr.str_of_int z)
  | VFloat f => str_of_float f
  | VStr s => Ok s
  | VTag _ => Raise Undetermined
  end.

(** [hasattr(val, "value")] and [val.value] *)
Definition has_value_attr (val : value) : bool :=
  match val with
  | VTag _ => true
  | _ => false
  end.

Definition value_attr (val : value) : value :=
  match val with
  | VTag t => VStr t
  | _ => val
  end.

Definition _normalize_cultural (val : value) : result (option string) :=
  if value_isna val then Ok None
  else
    except_
      (let base := if has_value_attr val then value_attr val else val in
       try s <- py_str base;
       Ok (Some (PyStr.lower (PyStr.strip s))))
      None.

(** [o is None] and [a == b] on labels. *)
Definition is_none (o : option string) : bool :=
  match o with
  | None => true
  | Some _ => false
  end.

Definition label_eqb (a b : option string) : bool :=
  match a, b with
  | Some x, Some y => String.eqb x y
  | None, None => true
  | _, _ => false
  end.

(** The inner [_diff_cultural], closed over [norm_c]. *)
Definition _diff_cultural (norm_c : result (option string)) (x : value)
  : result value :=
  let nx := _normalize_cultural x in
  try missing <- either is_none is_none nx norm_c;
  if missing then Ok VNaN
  else
    try nx <- nx;
    try norm_c <- norm_c;
    Ok (if label_eqb nx norm_c then VFloat 0 else VFloat 1).

(** The block that assigns [diff_tiered_income], on the whole column at
    once. *)
Definition tiered_block (content_dict : gmap string value) : FM unit :=
  let content_tier :=
    except_ (try n <- to_numeric (cval content_dict "tiered_income"); to_float n)
            nan in
  do has_tier <- df_has_column "tiered_income";
  do usable <- lift (if has_tier
                     then try c <- content_tier; Ok (negb (is_nan c))
                     else Ok false);
  if usable
  then
    do c <- lift content_tier;
    do sel <- df_getitem "tiered_income";
    do xs <- lift (to_numeric_series sel);
    df_setitem "diff_tiered_income"
      (List.map (fun x => of_float (abs (x - c))) xs)
  else df_setitem_scalar "diff_tiered_income" VNaN.

(** The body of the loop over the numeric attributes. *)
Definition numeric_diff_body (content_dict : gmap string value) (attr : string)
  : FM unit :=
  let c_num := except_ (to_numeric (cval content_dict attr)) (PyFloat nan) in
  do has_attr <- df_has_column attr;
  if has_attr
  then
    do sel <- df_getitem attr;
    do n <- df_index_len;
    do col <- lift (series_apply n (_diff_numeric c_num) sel);
    df_setitem ("diff_" +:+ attr) col
  else df_setitem_scalar ("diff_" +:+ attr) VNaN.

(** The block that assigns [diff_cultural]. *)
Definition cultural_block (content_dict : gmap string value) : FM unit :=
  let norm_c := _normalize_cultural (cval content_dict "cultural") in
  do sel <- df_getitem "cultural";
  do n <- df_index_len;
  do col <- lift (series_apply n (_diff_cultural norm_c) sel);
  df_setitem "diff_cultural" col.

(** The block that assigns [base_score]: one minus the row mean of the
    available diffs. *)
Definition base_score_block : FM unit :=
  let diff_cols := List.map (fun a => "diff_" +:+ a) attrs in
  do sub <- df_getitems diff_cols;
  do n <- df_index_len;
  df_setitem "base_score"
    (List.map (fun m => of_float (1 - m)) (mean_axis1 n sub)).

(** The statements of [compute_base_match_df] that follow
    [df = agents_df.copy()]; they work on [df] alone. *)
Definition score (content_dict : gmap string value) : FM unit :=
  do_ tiered_block content_dict;
  do_ for_each ["ethics"; "politics"; "age"; "sex"] (numeric_diff_body content_dict);
  do_ cultural_block content_dict;
  base_score_block.

Definition compute_base_match_df (agents_df : loc) (content : content_arg) : M loc :=
  do content_dict <- _as_dict content;
  do df <- frame_copy agents_df;
  do_ with_frame df (score content_dict);
  ret df.

End WithRuntime.

End Logic.

(** The store [s] with one more frame, [d], allocated after the others. *)
Definition top (s : store) (d : DataFrame) : store :=
  mkStore (frames s ++ [d]) (mappings s).

(** The call [compute_base_match_df(agents_df, content)] in store [s]
    returns the frame [out] (a reference to it, in the store the call
    leaves). *)
Definition returns {RT : Runtime} (s : store) (agents_df : loc)
           (content : Logic.content_arg) (out : DataFrame) : Prop :=
  exists (l : loc) (s' : store),
    Logic.compute_base_match_df agents_df content s = (Ok l, s') /\
    nth_error (frames s') l = Some out.

(** *** The columns the scorer assigns, as functions of the input frame

    Each block of [score] reads columns of the table the scorer was given
    and assigns one column; these are the assigned columns, and [scored]
    is the frame the copy ends as when no block raises (see
    [score_scored]). *)

Section Assigned.
Context {RT : Runtime}.

Definition tiered_diff_column (cd : gmap string value) (df : DataFrame)
  : result column :=
  let content_tier :=
    except_ (try n <- Logic.to_numeric (Logic.cval cd "tiered_income"); to_float n)
            nan in
  if has_column df "tiered_income"
  then
    try c <- content_tier;
    if negb (is_nan c)
    then
      try sel <- getitem df "tiered_income";
      try xs <- Logic.to_numeric_series sel;
      Ok (List.map (fun x => of_float (abs (x - c))) xs)
    else Ok (repeat VNaN (index_len df))
  else Ok (repeat VNaN (index_len df)).

Definition numeric_diff_column (cd : gmap string value) (df : DataFrame)
           (attr : string) : result column :=
  let c_num := except_ (Logic.to_numeric (Logic.cval cd attr)) (PyFloat nan) in
  if has_column df attr
  then
    try sel <- getitem df attr;
    series_apply (index_len df) (Logic._diff_numeric c_num) sel
  else Ok (repeat VNaN (index_len df)).

Definition cultural_diff_column (cd : gmap string value) (df : DataFrame)
  : result column :=
  let norm_c := Logic._normalize_cultural (Logic.cval cd "cultural") in
  try sel <- getitem df "cultural";
  series_apply (index_len df) (Logic._diff_cultural norm_c) sel.

Definition base_score_column (n : nat) (diffs : list column) : column :=
  List.map (fun m => of_float (1 - m)) (mean_axis1 n diffs).

(** Assignments to column labels, one after the other. *)
Definition assign_columns (df : DataFrame) (assigns : list (string * column))
  : DataFrame :=
  fold_left (fun d nc => setitem d (fst nc) (snd nc)) assigns df.

Definition scored (cd : gmap string value) (df : DataFrame) : result DataFrame :=
  try t <- tiered_diff_column cd df;
  try e <- numeric_diff_column cd df "ethics";
  try p <- numeric_diff_column cd df "politics";
  try a <- numeric_diff_column cd df "age";
  try x <- numeric_diff_column cd df "sex";
  try c <- cultural_diff_column cd df;
  let d := assign_columns df
             [("diff_tiered_income", t); ("diff_ethics", e); ("diff_politics", p);
              ("diff_age", a); ("diff_sex", x); ("diff_cultural", c)] in
  try sub <- getitems d ["diff_tiered_income"; "diff_ethics"; "diff_politics";
                         "diff_cultural"; "diff_age"; "diff_sex"];
  Ok (setitem d "base_score" (base_score_column (index_len df) sub)).

End Assigned.

(** ** The rules in the words of the specification *)

Module Rules.

(** The six tracked attributes and the names of their distance columns. *)
Definition tracked : list string :=
  ["tiered_income"; "ethics"; "politics"; "cultural"; "age"; "sex"].

Definition distance_columns : list string :=
  ["diff_tiered_income"; "diff_ethics"; "diff_politics"; "diff_cultural";
   "diff_age"; "diff_sex"].

(** The mapping a content argument stands for: the mapping itself, the
    dictionary projection of an object that has one, and the empty mapping
    for a null argument (or an object without a projection). *)
Definition content_mapping (s : store) (content : Logic.content_arg)
  : option (gmap string value) :=
  match content with
  | Logic.CNone | Logic.COther => Some ∅
  | Logic.CMapping l => nth_error (mappings s) l
  | Logic.CToDict d => Some d
  end.

(** Blank characters, by code point. *)
Definition blank_codes : list nat :=
  [9; 10; 11; 12; 13; 28; 29; 30; 31; 32; 133; 160]%nat.

Definition is_blank (a : ascii) : bool :=
  existsb (Nat.eqb (nat_of_ascii a)) blank_codes.

(** Trimming: the blanks at both ends are removed. *)
Fixpoint trim_left (s : string) : string :=
  match s with
  | EmptyString => EmptyString
  | String a s' => if is_blank a then trim_left s' else s
  end.

Fixpoint trim_right (s : string) : string :=
  match s with
  | EmptyString => EmptyString
  | String a s' =>
      match trim_right s' with
      | EmptyString => if is_blank a then EmptyString else String a EmptyString
      | r => String a r
      end
  end.

Definition trim (s : string) : string := trim_right (trim_left s).

(** The capital letters and their small letters, by code point. *)
Definition capitals : list (nat * nat) :=
  [(65, 97); (66, 98); (67, 99); (68, 100); (69, 101); (70, 102); (71, 103);
   (72, 104); (73, 105); (74, 106); (75, 107); (76, 108); (77, 109); (78, 110);
   (79, 111); (80, 112); (81, 113); (82, 114); (83, 115); (84, 116); (85, 117);
   (86, 118); (87, 119); (88, 120); (89, 121); (90, 122); (192, 224); (193, 225);
   (194, 226); (195, 227); (196, 228); (197, 229); (198, 230); (199, 231);
   (200, 232); (201, 233); (202, 234); (203, 235); (204, 236); (205, 237);
   (206, 238); (207, 239); (208, 240); (209, 241); (210, 242); (211, 243);
   (212, 244); (213, 245); (214, 246); (216, 248); (217, 249); (218, 250);
   (219, 251); (220, 252); (221, 253); (222, 254)]%nat.

Definition small (a : ascii) : ascii :=
  match List.find (fun p => Nat.eqb (fst p) (nat_of_ascii a)) capitals with
  | Some p => ascii_of_nat (snd p)
  | None => a
  end.

Fixpoint lowercase (s : string) : string :=
  match s with
  | EmptyString => EmptyString
  | String a s' => String (small a) (lowercase s')
  end.

(** A missing value. *)
Definition missing (v : value) : bool :=
  match v with
  | VNone | VNaN => true
  | VFloat f => is_nan f
  | VInt _ | VStr _ | VTag _ => false
  end.

Section WithRuntime.
Context {RT : Runtime}.

(** The text of a value: the tag of an object that exposes one, else the
    raw value, stringified. *)
Definition text (v : value) : result string :=
  match v with
  | VTag t => Ok t
  | VStr t => Ok t
  | VInt z => Ok (NilZero.string_of_int (Z.to_int z))
  | VFloat f => str_of_float f
  | VNone => Ok "None"
  | VNaN => Ok "nan"
  end.

(** The label of a categorical value: its text, trimmed and lower-cased.
    A missing value has no label, nor has a value without a text. *)
Definition label (v : value) : result (option string) :=
  if missing v then Ok None
  else
    match text v with
    | Ok t => Ok (Some (lowercase (trim t)))
    | Raise Undetermined => Raise Undetermined
    | Raise _ => Ok None
    end.

(** Categorical attribute: 0.0 for equal labels, 1.0 for different ones,
    undefined when either side has no label. *)
Definition categorical_distance (agent content : value) : result value :=
  match label agent, label content with
  | Ok None, _ | _, Ok None => Ok VNaN
  | Ok (Some a), Ok (Some c) => Ok (if String.eqb a c then VFloat 0 else VFloat 1)
  | Raise e, _ | _, Raise e => Raise e
  end.

End WithRuntime.

(** The distances of a row that are defined. *)
Fixpoint defined (ds : list value) : list float :=
  match ds with
  | [] => []
  | VFloat f :: ds' => if is_nan f then defined ds' else f :: defined ds'
  | _ :: ds' => defined ds'
  end.

(** The arithmetic mean of floats: their sum, added in order, divided by
    their number. *)
Definition mean (fs : list float) : float :=
  (fold_left PrimFloat.add fs 0 / float_of_Z (Z.of_nat (List.length fs)))%float.

(** One minus the arithmetic mean of the defined distances; undefined
    when none is. *)
Definition base_score (ds : list value) : value :=
  match defined ds with
  | [] => VNaN
  | fs => of_float (1 - mean fs)
  end.

End Rules.

(** The cells of row [i] in the listed columns (a cell that does not exist
    reads as not-a-number). *)
Definition row_cells (df : DataFrame) (names : list string) (i : nat) : list value :=
  List.map (fun n => default VNaN (cell_at df n i)) names.

(** The names other than [a]. *)
Definition others (a : string) (among : list string) : list string :=
  List.filter (fun b => negb (String.eqb b a)) among.

(** A distance cell: not-a-number or a float that is a number. *)
Definition is_distance_cell (v : value) : Prop :=
  v = VNaN \/ exists f, v = VFloat f /\ is_nan f = false.

(** ** Numbers given to the constructors *)

(** A Python number: an [int], a finite [float] or the float not-a-number.
    The constructors are given numbers for their numeric parameters, as
    their annotations ask; whether a number is an [int] is still tested at
    run time, as the validators do. *)
Inductive num : Type :=
| NInt (z : Z)
| NFloat (q : Q)
| NNaN.

Definition num_val (n : num) : option Q :=
  match n with
  | NInt z => Some (inject_Z z)
  | NFloat q => Some q
  | NNaN => None
  end.

(** [a <= b]: false as soon as a side is not-a-number. *)
Definition num_le (a b : num) : bool :=
  match num_val a, num_val b with
  | Some x, Some y => Qle_bool x y
  | _, _ => false
  end.

(** [a == b] *)
Definition num_eqb (a b : num) : bool :=
  match num_val a, num_val b with
  | Some x, Some y => Qeq_bool x y
  | _, _ => false
  end.

(** [isinstance(value, int)] *)
Definition is_int (n : num) : bool :=
  match n with
  | NInt _ => true
  | _ => false
  end.

(** [min_val <= value <= max_val] with integer bounds. *)
Definition between (min_val max_val : Z) (value : num) : bool :=
  num_le (NInt min_val) value && num_le value (NInt max_val).

(** [round(x)] of a float to an [int]: to the nearest integer, a tie going to
    the even neighbour. *)
Definition py_round (x : Q) : Z :=
  let f := Qfloor x in
  match (x - inject_Z f ?= 1 # 2)%Q with
  | Lt => f
  | Gt => f + 1
  | Eq => if Z.even f then f else f + 1
  end.

(** The float nearest to a rational, ties to even: the float itself when
    the rational is the exact value of one. *)
Definition float_of_Q (q : Q) : float :=
  match Qnum q with
  | Z0 => 0%float
  | Zpos n =>
      SF2Prim (SFdiv prec emax (S754_finite false n 0) (S754_finite false (Qden q) 0))
  | Zneg n =>
      SF2Prim (SFdiv prec emax (S754_finite true n 0) (S754_finite false (Qden q) 0))
  end.

(** A number as a value of a mapping or of a cell; an absent attribute is
    [None]. *)
Definition value_of_num (n : num) : value :=
  match n with
  | NInt z => VInt z
  | NFloat q => VFloat (float_of_Q q)
  | NNaN => VNaN
  end.

Definition value_of_opt (x : option num) : value :=
  match x with
  | Some n => value_of_num n
  | None => VNone
  end.

(** ** agent.py *)

Module Agent.

Inductive CulturalEnum : Type :=
| WESTERN | EASTERN | AFRICAN | INDIGENOUS | MULTICULTURAL.

Definition enum_value (c : CulturalEnum) : string :=
  match c with
  | WESTERN => "western"
  | EASTERN => "eastern"
  | AFRICAN => "african"
  | INDIGENOUS => "indigenous"
  | MULTICULTURAL => "multicultural"
  end.

Definition members : list CulturalEnum :=
  [WESTERN; EASTERN; AFRICAN; INDIGENOUS; MULTICULTURAL].

(** [CulturalEnum(x)]: the member whose value is [x]; the enum's own
    [ValueError] names the class, not a field. *)
Definition enum_of_value (x : string) : result CulturalEnum :=
  match List.find (fun c => String.eqb (enum_value c) x) members with
  | Some c => Ok c
  | None => Raise (ValueError "CulturalEnum")
  end.

(** What a caller passes as [cultural]: a member, or a value to look up. *)
Inductive cultural_arg : Type :=
| Member (c : CulturalEnum)
| Plain (x : string).

Record args : Type := mkArgs {
  arg_agent_id : option string;
  arg_education : num;
  arg_economic_status : num;
  arg_ethics : num;
  arg_politics : num;
  arg_cultural : cultural_arg;
  arg_age : num;
  arg_sex : num;
  arg_novelty : num;
  arg_conscientiousness : num;
  arg_impulsivity : num;
  arg_tech_affinity : num;
  arg_social_trust : num
}.

Record Agent : Type := mkAgent {
  agent_id : string;
  education : num;
  economic_status : num;
  ethics : num;
  politics : num;
  cultural : CulturalEnum;
  age : num;
  sex : num;
  novelty : num;
  conscientiousness : num;
  impulsivity : num;
  tech_affinity : num;
  social_trust : num
}.

Definition _validate_range (value : num) (min_val max_val : Z) (name : string)
  : result num :=
  if negb (between min_val max_val value) then Raise (ValueError name)
  else Ok value.

Definition _validate_education (value : num) : result num :=
  if negb (is_int value) || negb (between 1 5 value)
  then Raise (ValueError "education")
  else Ok value.

(** Every [num] is an [int] or a [float], so the [isinstance] test of the
    source always passes here; not-a-number fails the range test, so the
    division always has a number to divide. *)
Definition _validate_economic_status (value : num) : result num :=
  if negb (between 10000 500000 value) then Raise (ValueError "economic_status")
  else
    match num_val value with
    | Some v => Ok (NInt (py_round (v / 5000) * 5000))
    | None => Raise (ValueError "economic_status")
    end.

Definition _validate_politics (value : num) : result num :=
  if negb (is_int value) || negb (between (-2) 2 value)
  then Raise (ValueError "politics")
  else Ok value.

Definition _validate_age (value : num) : result num :=
  if negb (is_int value) || negb (between 5 90 value)
  then Raise (ValueError "age")
  else Ok value.

(** [value not in (0, 1, 2)] *)
Definition _validate_sex (value : num) : result num :=
  if negb (existsb (num_eqb value) [NInt 0; NInt 1; NInt 2])
  then Raise (ValueError "sex")
  else Ok value.

(** [Agent.__init__]; [uuid4] is the identifier [uuid.uuid4()] draws. The
    attributes are validated in the order of the assignments and the first
    exception leaves no object behind. *)
Definition __init__ (uuid4 : string) (a : args) : result Agent :=
  let agent_id :=
    match arg_agent_id a with
    | Some s => if String.eqb s "" then uuid4 else s
    | None => uuid4
    end in
  try education <- _validate_education (arg_education a);
  try economic_status <- _validate_economic_status (arg_economic_status a);
  try ethics <- _validate_range (arg_ethics a) 0 1 "ethics";
  try politics <- _validate_politics (arg_politics a);
  try cultural <- match arg_cultural a with
                  | Member c => Ok c
                  | Plain x => enum_of_value x
                  end;
  try age <- _validate_age (arg_age a);
  try sex <- _validate_sex (arg_sex a);
  try novelty <- _validate_range (arg_novelty a) 0 1 "novelty";
  try conscientiousness <-
    _validate_range (arg_conscientiousness a) 0 1 "conscientiousness";
  try impulsivity <- _validate_range (arg_impulsivity a) 0 1 "impulsivity";
  try tech_affinity <- _validate_range (arg_tech_affinity a) 0 1 "tech_affinity";
  try social_trust <- _validate_range (arg_social_trust a) 0 1 "social_trust";
  Ok (mkAgent agent_id education economic_status ethics politics cultural age sex
              novelty conscientiousness impulsivity tech_affinity social_trust).

(** The default values of the parameters of [__init__]. *)
Definition defaults : args :=
  mkArgs None (NInt 1) (NFloat (1 # 2)) (NFloat (1 # 2)) (NInt 0) (Member WESTERN)
         (NInt 30) (NInt 0) (NFloat (1 # 2)) (NFloat (1 # 2)) (NFloat (1 # 2))
         (NFloat (1 # 2)) (NFloat (1 # 2)).

(** [Agent.to_dict]: the attributes under their names, [cultural] as the
    tag of the member. *)
Definition to_dict (self : Agent) : gmap string value :=
  list_to_map
    [("agent_id", VStr (agent_id self));
     ("education", value_of_num (education self));
     ("economic_status", value_of_num (economic_status self));
     ("ethics", value_of_num (ethics self));
     ("politics", value_of_num (politics self));
     ("cultural", VStr (enum_value (cultural self)));
     ("age", value_of_num (age self));
     ("sex", value_of_num (sex self));
     ("novelty", value_of_num (novelty self));
     ("conscientiousness", value_of_num (conscientiousness self));
     ("impulsivity", value_of_num (impulsivity self));
     ("tech_affinity", value_of_num (tech_affinity self));
     ("social_trust", value_of_num (social_trust self))].

End Agent.

(** ** content.py *)

Module Content.

Inductive CulturalEnum : Type :=
| WESTERN | EASTERN | AFRICAN | INDIGENOUS | MULTICULTURAL.

Definition enum_value (c : CulturalEnum) : string :=
  match c with
  | WESTERN => "western"
  | EASTERN => "eastern"
  | AFRICAN => "african"
  | INDIGENOUS => "indigenous"
  | MULTICULTURAL => "multicultural"
  end.

Definition members : list CulturalEnum :=
  [WESTERN; EASTERN; AFRICAN; INDIGENOUS; MULTICULTURAL].

Definition enum_of_value (x : string) : result CulturalEnum :=
  match List.find (fun c => String.eqb (enum_value c) x) members with
  | Some c => Ok c
  | None => Raise (ValueError "CulturalEnum")
  end.

Inductive cultural_arg : Type :=
| Member (c : CulturalEnum)
| Plain (x : string).

(** Every attribute may be [None]. *)
Record args : Type := mkArgs {
  arg_content_id : option string;
  arg_education : option num;
  arg_economic_status : option num;
  arg_ethics : option num;
  arg_politics : option num;
  arg_cultural : option cultural_arg;
  arg_age : option num;
  arg_sex : option num;
  arg_novelty : option num;
  arg_conscientiousness : option num;
  arg_impulsivity : option num;
  arg_tech_affinity : option num;
  arg_social_trust : option num
}.

Record Content : Type := mkContent {
  content_id : string;
  education : option num;
  economic_status : option num;
  ethics : option num;
  politics : option num;
  cultural : option CulturalEnum;
  age : option num;
  sex : option num;
  novelty : option num;
  conscientiousness : option num;
  impulsivity : option num;
  tech_affinity : option num;
  social_trust : option num
}.

Definition _validate_range (value : option num) (min_val max_val : Z) (name : string)
  : result (option num) :=
  match value with
  | None => Ok None
  | Some v =>
      if negb (between min_val max_val v) then Raise (ValueError name)
      else Ok (Some v)
  end.

Definition _validate_education (value : option num) : result (option num) :=
  match value with
  | None => Ok None
  | Some v =>
      if negb (is_int v) || negb (between 1 5 v)
      then Raise (ValueError "education")
      else Ok (Some v)
  end.

Definition _validate_economic_status (value : option num) : result (option num) :=
  match value with
  | None => Ok None
  | Some v =>
      if negb (between 10000 500000 v) then Raise (ValueError "economic_status")
      else
        match num_val v with
        | Some q => Ok (Some (NInt (py_round (q / 5000) * 5000)))
        | None => Raise (ValueError "economic_status")
        end
  end.

Definition _validate_politics (value : option num) : result (option num) :=
  match value with
  | None => Ok None
  | Some v =>
      if negb (is_int v) || negb (between (-2) 2 v)
      then Raise (ValueError "politics")
      else Ok (Some v)
  end.

Definition _validate_age (value : option num) : result (option num) :=
  match value with
  | None => Ok None
  | Some v =>
      if negb (is_int v) || negb (between 5 90 v)
      then Raise (ValueError "age")
      else Ok (Some v)
  end.

(** [value not in (0, 1)] *)
Definition _validate_sex (value : option num) : result (option num) :=
  match value with
  | None => Ok None
  | Some v =>
      if negb (existsb (num_eqb v) [NInt 0; NInt 1])
      then Raise (ValueError "sex")
      else Ok (Some v)
  end.

(** [validate(x) if x is not None else None] *)
Definition if_present (validate : option num -> result (option num))
           (x : option num) : result (option num) :=
  match x with
  | Some _ => validate x
  | None => Ok None
  end.

Definition __init__ (uuid4 : string) (a : args) : result Content :=
  let content_id :=
    match arg_content_id a with
    | Some s => if String.eqb s "" then uuid4 else s
    | None => uuid4
    end in
  try education <- if_present _validate_education (arg_education a);
  try economic_status <-
    if_present _validate_economic_status (arg_economic_status a);
  try ethics <-
    if_present (fun v => _validate_range v 0 1 "ethics") (arg_ethics a);
  try politics <- if_present _validate_politics (arg_politics a);
  try cultural <- match arg_cultural a with
                  | None => Ok None
                  | Some (Member c) => Ok (Some c)
                  | Some (Plain x) => try c <- enum_of_value x; Ok (Some c)
                  end;
  try age <- if_present _validate_age (arg_age a);
  try sex <- if_present _validate_sex (arg_sex a);
  try novelty <-
    if_present (fun v => _validate_range v 0 1 "novelty") (arg_novelty a);
  try conscientiousness <-
    if_present (fun v => _validate_range v 0 1 "conscientiousness")
               (arg_conscientiousness a);
  try impulsivity <-
    if_present (fun v => _validate_range v 0 1 "impulsivity") (arg_impulsivity a);
  try tech_affinity <-
    if_present (fun v => _validate_range v 0 1 "tech_affinity")
               (arg_tech_affinity a);
  try social_trust <-
    if_present (fun v => _validate_range v 0 1 "social_trust")
               (arg_social_trust a);
  Ok (mkContent content_id education economic_status ethics politics cultural
                age sex novelty conscientiousness impulsivity tech_affinity
                social_trust).

(** The default values of the parameters of [__init__]: all [None]. *)
Definition defaults : args :=
  mkArgs None None None None None None None None None None None None None.

(** [Content.to_dict]: the attributes under their names, absent ones as
    [None], [cultural] as the tag of the member. *)
Definition to_dict (self : Content) : gmap string value :=
  list_to_map
    [("content_id", VStr (content_id self));
     ("education", value_of_opt (education self));
     ("economic_status", value_of_opt (economic_status self));
     ("ethics", value_of_opt (ethics self));
     ("politics", value_of_opt (politics self));
     ("cultural", match cultural self with
                  | Some c => VStr (enum_value c)
                  | None => VNone
                  end);
     ("age", value_of_opt (age self));
     ("sex", value_of_opt (sex self));
     ("novelty", value_of_opt (novelty self));
     ("conscientiousness", value_of_opt (conscientiousness self));
     ("impulsivity", value_of_opt (impulsivity self));
     ("tech_affinity", value_of_opt (tech_affinity self));
     ("social_trust", value_of_opt (social_trust self))].

End Content.

(** ** The bounds of the attributes

    The bounds as the validators test them, on an argument and on a stored
    attribute ([AgentBounds], [ContentBounds]), and the bounds as the class
    docstrings and the validators' messages declare them ([Declared]); the
    two differ on [sex], which is declared an integer and tested for
    equality with the listed integers only. *)

Inductive field : Type :=
| F_education | F_economic_status | F_ethics | F_politics | F_cultural | F_age
| F_sex | F_novelty | F_conscientiousness | F_impulsivity | F_tech_affinity
| F_social_trust.

(** The attributes in the order [__init__] validates them. *)
Definition fields : list field :=
  [F_education; F_economic_status; F_ethics; F_politics; F_cultural; F_age; F_sex;
   F_novelty; F_conscientiousness; F_impulsivity; F_tech_affinity; F_social_trust].

(** What the message of a validation error names: the attribute, or the enum
    class when the enum itself refuses a [cultural] value. *)
Definition subject (f : field) : string :=
  match f with
  | F_education => "education"
  | F_economic_status => "economic_status"
  | F_ethics => "ethics"
  | F_politics => "politics"
  | F_cultural => "CulturalEnum"
  | F_age => "age"
  | F_sex => "sex"
  | F_novelty => "novelty"
  | F_conscientiousness => "conscientiousness"
  | F_impulsivity => "impulsivity"
  | F_tech_affinity => "tech_affinity"
  | F_social_trust => "social_trust"
  end.

(** The first attribute, in validation order, that fails a test. *)
Definition first_bad (ok : field -> bool) : option field :=
  List.find (fun f => negb (ok f)) fields.

(** An integer in [lo, hi]. *)
Definition int_in (lo hi : Z) (n : num) : bool := is_int n && between lo hi n.

(** One of the listed integers. *)
Definition one_of (choices : list Z) (n : num) : bool :=
  existsb (fun z => num_eqb n (NInt z)) choices.

(** A stored income: in range and a multiple of 5000. *)
Definition income_stored (n : num) : bool :=
  match n with
  | NInt z => between 10000 500000 n && Z.eqb (z mod 5000) 0
  | _ => false
  end.

(** The five tags of [CulturalEnum]. *)
Definition cultural_tags : list string :=
  ["western"; "eastern"; "african"; "indigenous"; "multicultural"].

Definition is_tag (x : string) : bool := existsb (String.eqb x) cultural_tags.

Module AgentBounds.

(** [sex] compares equal to 0, 1 or 2, as [value not in (0, 1, 2)] tests. *)
Definition sex_ok (n : num) : bool := one_of [0; 1; 2] n.

(** The argument given for [f] satisfies the declared bound of [f]. *)
Definition arg_ok (f : field) (a : Agent.args) : bool :=
  match f with
  | F_education => int_in 1 5 (Agent.arg_education a)
  | F_economic_status => between 10000 500000 (Agent.arg_economic_status a)
  | F_ethics => between 0 1 (Agent.arg_ethics a)
  | F_politics => int_in (-2) 2 (Agent.arg_politics a)
  | F_cultural =>
      match Agent.arg_cultural a with
      | Agent.Member _ => true
      | Agent.Plain x => is_tag x
      end
  | F_age => int_in 5 90 (Agent.arg_age a)
  | F_sex => sex_ok (Agent.arg_sex a)
  | F_novelty => between 0 1 (Agent.arg_novelty a)
  | F_conscientiousness => between 0 1 (Agent.arg_conscientiousness a)
  | F_impulsivity => between 0 1 (Agent.arg_impulsivity a)
  | F_tech_affinity => between 0 1 (Agent.arg_tech_affinity a)
  | F_social_trust => between 0 1 (Agent.arg_social_trust a)
  end.

(** The stored attribute [f] satisfies the declared bound of [f]; a stored
    [cultural] is a member of the enum by its type. *)
Definition attr_ok (f : field) (ag : Agent.Agent) : bool :=
  match f with
  | F_education => int_in 1 5 (Agent.education ag)
  | F_economic_status => income_stored (Agent.economic_status ag)
  | F_ethics => between 0 1 (Agent.ethics ag)
  | F_politics => int_in (-2) 2 (Agent.politics ag)
  | F_cultural => is_tag (Agent.enum_value (Agent.cultural ag))
  | F_age => int_in 5 90 (Agent.age ag)
  | F_sex => sex_ok (Agent.sex ag)
  | F_novelty => between 0 1 (Agent.novelty ag)
  | F_conscientiousness => between 0 1 (Agent.conscientiousness ag)
  | F_impulsivity => between 0 1 (Agent.impulsivity ag)
  | F_tech_affinity => between 0 1 (Agent.tech_affinity ag)
  | F_social_trust => between 0 1 (Agent.social_trust ag)
  end.

End AgentBounds.

Module ContentBounds.

(** [sex] compares equal to 0 or 1, as [value not in (0, 1)] tests. *)
Definition sex_ok (n : num) : bool := one_of [0; 1] n.

(** An absent value satisfies every bound. *)
Definition when_present {A : Type} (ok : A -> bool) (x : option A) : bool :=
  match x with
  | Some v => ok v
  | None => true
  end.

Definition arg_ok (f : field) (a : Content.args) : bool :=
  match f with
  | F_education => when_present (int_in 1 5) (Content.arg_education a)
  | F_economic_status =>
      when_present (between 10000 500000) (Content.arg_economic_status a)
  | F_ethics => when_present (between 0 1) (Content.arg_ethics a)
  | F_politics => when_present (int_in (-2) 2) (Content.arg_politics a)
  | F_cultural =>
      when_present (fun c => match c with
                             | Content.Member _ => true
                             | Content.Plain x => is_tag x
                             end) (Content.arg_cultural a)
  | F_age => when_present (int_in 5 90) (Content.arg_age a)
  | F_sex => when_present sex_ok (Content.arg_sex a)
  | F_novelty => when_present (between 0 1) (Content.arg_novelty a)
  | F_conscientiousness =>
      when_present (between 0 1) (Content.arg_conscientiousness a)
  | F_impulsivity => when_present (between 0 1) (Content.arg_impulsivity a)
  | F_tech_affinity => when_present (between 0 1) (Content.arg_tech_affinity a)
  | F_social_trust => when_present (between 0 1) (Content.arg_social_trust a)
  end.

Definition attr_ok (f : field) (c : Content.Content) : bool :=
  match f with
  | F_education => when_present (int_in 1 5) (Content.education c)
  | F_economic_status => when_present income_stored (Content.economic_status c)
  | F_ethics => when_present (between 0 1) (Content.ethics c)
  | F_politics => when_present (int_in (-2) 2) (Content.politics c)
  | F_cultural =>
      when_present (fun m => is_tag (Content.enum_value m)) (Content.cultural c)
  | F_age => when_present (int_in 5 90) (Content.age c)
  | F_sex => when_present sex_ok (Content.sex c)
  | F_novelty => when_present (between 0 1) (Content.novelty c)
  | F_conscientiousness => when_present (between 0 1) (Content.conscientiousness c)
  | F_impulsivity => when_present (between 0 1) (Content.impulsivity c)
  | F_tech_affinity => when_present (between 0 1) (Content.tech_affinity c)
  | F_social_trust => when_present (between 0 1) (Content.social_trust c)
  end.

End ContentBounds.

Module Declared.

(** The name of the attribute. *)
Definition field_name (f : field) : string :=
  match f with
  | F_education => "education"
  | F_economic_status => "economic_status"
  | F_ethics => "ethics"
  | F_politics => "politics"
  | F_cultural => "cultural"
  | F_age => "age"
  | F_sex => "sex"
  | F_novelty => "novelty"
  | F_conscientiousness => "conscientiousness"
  | F_impulsivity => "impulsivity"
  | F_tech_affinity => "tech_affinity"
  | F_social_trust => "social_trust"
  end.

(** The declared bound of [f] on the argument given for it to [Agent]:
    education an integer in 1..5, the income in 10000..500000, politics an
    integer in -2..2, cultural a member of the enum or one of its tags, age
    an integer in 5..90, sex an integer in 0..2, the others in 0..1. *)
Definition agent_arg_ok (f : field) (a : Agent.args) : bool :=
  match f with
  | F_education => int_in 1 5 (Agent.arg_education a)
  | F_economic_status => between 10000 500000 (Agent.arg_economic_status a)
  | F_ethics => between 0 1 (Agent.arg_ethics a)
  | F_politics => int_in (-2) 2 (Agent.arg_politics a)
  | F_cultural =>
      match Agent.arg_cultural a with
      | Agent.Member _ => true
      | Agent.Plain x => is_tag x
      end
  | F_age => int_in 5 90 (Agent.arg_age a)
  | F_sex => int_in 0 2 (Agent.arg_sex a)
  | F_novelty => between 0 1 (Agent.arg_novelty a)
  | F_conscientiousness => between 0 1 (Agent.arg_conscientiousness a)
  | F_impulsivity => between 0 1 (Agent.arg_impulsivity a)
  | F_tech_affinity => between 0 1 (Agent.arg_tech_affinity a)
  | F_social_trust => between 0 1 (Agent.arg_social_trust a)
  end.

(** The declared bound of [f] on the attribute an [Agent] stores. *)
Definition agent_attr_ok (f : field) (ag : Agent.Agent) : bool :=
  match f with
  | F_education => int_in 1 5 (Agent.education ag)
  | F_economic_status => income_stored (Agent.economic_status ag)
  | F_ethics => between 0 1 (Agent.ethics ag)
  | F_politics => int_in (-2) 2 (Agent.politics ag)
  | F_cultural => is_tag (Agent.enum_value (Agent.cultural ag))
  | F_age => int_in 5 90 (Agent.age ag)
  | F_sex => int_in 0 2 (Agent.sex ag)
  | F_novelty => between 0 1 (Agent.novelty ag)
  | F_conscientiousness => between 0 1 (Agent.conscientiousness ag)
  | F_impulsivity => between 0 1 (Agent.impulsivity ag)
  | F_tech_affinity => between 0 1 (Agent.tech_affinity ag)
  | F_social_trust => between 0 1 (Agent.social_trust ag)
  end.

(** The same for [Content]: an absent value satisfies every bound, and
    [sex] is an integer in 0..1. *)
Definition content_arg_ok (f : field) (a : Content.args) : bool :=
  match f with
  | F_education => ContentBounds.when_present (int_in 1 5) (Content.arg_education a)
  | F_economic_status =>
      ContentBounds.when_present (between 10000 500000) (Content.arg_economic_status a)
  | F_ethics => ContentBounds.when_present (between 0 1) (Content.arg_ethics a)
  | F_politics => ContentBounds.when_present (int_in (-2) 2) (Content.arg_politics a)
  | F_cultural =>
      ContentBounds.when_present
        (fun c => match c with
                  | Content.Member _ => true
                  | Content.Plain x => is_tag x
                  end) (Content.arg_cultural a)
  | F_age => ContentBounds.when_present (int_in 5 90) (Content.arg_age a)
  | F_sex => ContentBounds.when_present (int_in 0 1) (Content.arg_sex a)
  | F_novelty => ContentBounds.when_present (between 0 1) (Content.arg_novelty a)
  | F_conscientiousness =>
      ContentBounds.when_present (between 0 1) (Content.arg_conscientiousness a)
  | F_impulsivity => ContentBounds.when_present (between 0 1) (Content.arg_impulsivity a)
  | F_tech_affinity =>
      ContentBounds.when_present (between 0 1) (Content.arg_tech_affinity a)
  | F_social_trust =>
      ContentBounds.when_present (between 0 1) (Content.arg_social_trust a)
  end.

Definition content_attr_ok (f : field) (c : Content.Content) : bool :=
  match f with
  | F_education => ContentBounds.when_present (int_in 1 5) (Content.education c)
  | F_economic_status =>
      ContentBounds.when_present income_stored (Content.economic_status c)
  | F_ethics => ContentBounds.when_present (between 0 1) (Content.ethics c)
  | F_politics => ContentBounds.when_present (int_in (-2) 2) (Content.politics c)
  | F_cultural =>
      ContentBounds.when_present (fun m => is_tag (Content.enum_value m))
                                 (Content.cultural c)
  | F_age => ContentBounds.when_present (int_in 5 90) (Content.age c)
  | F_sex => ContentBounds.when_present (int_in 0 1) (Content.sex c)
  | F_novelty => ContentBounds.when_present (between 0 1) (Content.novelty c)
  | F_conscientiousness =>
      ContentBounds.when_present (between 0 1) (Content.conscientiousness c)
  | F_impulsivity => ContentBounds.when_present (between 0 1) (Content.impulsivity c)
  | F_tech_affinity => ContentBounds.when_present (between 0 1) (Content.tech_affinity c)
  | F_social_trust => ContentBounds.when_present (between 0 1) (Content.social_trust c)
  end.

(** What the message of the error names when the bound of [f] is violated:
    the attribute, or, for a [cultural] string that is no tag, the enum
    class (the error is the enum's own). *)
Definition error_names (f : field) : string :=
  match f with
  | F_cultural => "CulturalEnum"
  | _ => field_name f
  end.

End Declared.

(** Constructor arguments used to evaluate the constructors: a valid agent,
    the same with an age out of range, a content with some attributes
    absent, and the same with [sex = 2] (legal for an agent only). *)
Definition sample_agent_args : Agent.args :=
  Agent.mkArgs (Some "a-1") (NInt 3) (NInt 52300) (NFloat (1 # 2)) (NInt (-1))
               (Agent.Plain "eastern") (NInt 30) (NInt 2) (NFloat (1 # 4))
               (NInt 1) (NInt 0) (NFloat (3 # 4)) (NFloat (1 # 2)).

Definition sample_agent_args_bad_age : Agent.args :=
  Agent.mkArgs (Some "a-2") (NInt 3) (NInt 52300) (NFloat (1 # 2)) (NInt (-1))
               (Agent.Plain "eastern") (NInt 3) (NInt 7) (NFloat (1 # 4))
               (NInt 1) (NInt 0) (NFloat (3 # 4)) (NFloat (1 # 2)).

Definition sample_content_args : Content.args :=
  Content.mkArgs None None (Some (NFloat 12500)) (Some (NFloat (3 # 5))) None
                 (Some (Content.Member Content.WESTERN)) (Some (NInt 40))
                 (Some (NInt 1)) None None None None None.

Definition sample_content_args_bad_sex : Content.args :=
  Content.mkArgs None None (Some (NFloat 12500)) (Some (NFloat (3 # 5))) None
                 (Some (Content.Member Content.WESTERN)) (Some (NInt 40))
                 (Some (NInt 2)) None None None None None.

(** A valid agent but for a [sex] given as the float 1.0, and one whose
    [cultural] string is no tag of the enum. *)
Definition sample_agent_args_float_sex : Agent.args :=
  Agent.mkArgs (Some "a-3") (NInt 3) (NInt 52300) (NFloat (1 # 2)) (NInt (-1))
               (Agent.Plain "eastern") (NInt 30) (NFloat 1) (NFloat (1 # 4))
               (NInt 1) (NInt 0) (NFloat (3 # 4)) (NFloat (1 # 2)).

Definition sample_agent_args_bad_cultural : Agent.args :=
  Agent.mkArgs (Some "a-4") (NInt 3) (NInt 52300) (NFloat (1 # 2)) (NInt (-1))
               (Agent.Plain "martian") (NInt 30) (NInt 2) (NFloat (1 # 4))
               (NInt 1) (NInt 0) (NFloat (3 # 4)) (NFloat (1 # 2)).

(** ** Sample calls

    A table of three agents with a passthrough column, and a content
    mapping; the second agent has a value that does not parse and values that
    are missing, the third holds numbers as text and its culture as an enum
    member. The ethics are the floats 0.4 and 0.6. *)
Definition sample_frame : DataFrame :=
  mkDataFrame 3
    [("name", [VStr "ana"; VStr "bo"; VStr "cy"]);
     ("tiered_income", [VInt 3; VStr "n/a"; VStr "5"]);
     ("ethics", [VFloat 0x1.999999999999ap-2; VNone; VFloat 0x1.3333333333333p-1]);
     ("politics", [VInt 1; VInt 2; VStr "1"]);
     ("cultural", [VStr "western"; VNaN; VTag " Western"]);
     ("age", [VInt 30; VStr "41"; VInt 40]);
     ("sex", [VInt 0; VNaN; VInt 1])].

Definition sample_content : gmap string value :=
  list_to_map
    [("tiered_income", VInt 3); ("ethics", VFloat 0x1.3333333333333p-1);
     ("politics", VInt 1); ("cultural", VStr "Western "); ("age", VInt 40);
     ("sex", VInt 1)].

Definition sample_store : store := mkStore [sample_frame] [sample_content].

(** A content without [politics], and a table whose second row has nothing
    usable in any tracked column. *)
Definition partial_content : gmap string value :=
  list_to_map
    [("tiered_income", VInt 3); ("ethics", VFloat 0.5); ("cultural", VStr "Western ");
     ("age", VInt 40); ("sex", VInt 1)].

Definition partial_frame : DataFrame :=
  mkDataFrame 2
    [("tiered_income", [VInt 5; VNone]);
     ("ethics", [VFloat 0.5; VNone]);
     ("politics", [VInt 1; VInt 2]);
     ("cultural", [VStr "eastern"; VNone]);
     ("age", [VInt 29; VStr "n/a"]);
     ("sex", [VInt 0; VNaN])].

Definition partial_store : store := mkStore [partial_frame] [partial_content].

(** A table that was scored before: it already has a [base_score] column. *)
Definition rescored_frame : DataFrame :=
  mkDataFrame 1 [("cultural", [VStr "western"]); ("base_score", [VFloat 1])].

Definition rescored_store : store := mkStore [rescored_frame] [].

(** A table without a [cultural] column. *)
Definition frame_without_cultural : DataFrame :=
  mkDataFrame 1 [("tiered_income", [VInt 3]); ("ethics", [VFloat 0x1.999999999999ap-2]);
                 ("politics", [VInt 1]); ("age", [VInt 30]); ("sex", [VInt 0])].

Definition store_without_cultural : store :=
  mkStore [frame_without_cultural] [sample_content].

(** A table whose first agent has the age [10**400], an [int] beyond the
    floats, scored against a content of age 40. *)
Definition huge_age_frame : DataFrame :=
  mkDataFrame 2 [("cultural", [VStr "western"; VStr "eastern"]);
                 ("age", [VInt (10 ^ 400); VInt 30])].

Definition huge_age_store : store :=
  mkStore [huge_age_frame] [{["age" := VInt 40]}].

(** A table with the income [2**53 + 1], scored against the income 1. *)
Definition large_income_frame : DataFrame :=
  mkDataFrame 1 [("tiered_income", [VInt (2 ^ 53 + 1)]); ("cultural", [VStr "western"])].

Definition large_income_store : store :=
  mkStore [large_income_frame] [{["tiered_income" := VInt 1]}].

(** A table whose age is the text of the largest [int64], scored against
    the age -1. *)
Definition wrapping_age_frame : DataFrame :=
  mkDataFrame 1 [("cultural", [VStr "western"]);
                 ("age", [VStr "9223372036854775807"])].

Definition wrapping_age_store : store :=
  mkStore [wrapping_age_frame] [{["age" := VInt (-1)]}].

(** A table with two passthrough columns that are both labelled
    [diff_age]. *)
Definition repeated_diff_frame : DataFrame :=
  mkDataFrame 1 [("cultural", [VStr "western"]); ("age", [VInt 34]);
                 ("diff_age", [VInt 0]); ("diff_age", [VInt 0])].

Definition repeated_diff_store : store :=
  mkStore [repeated_diff_frame]
          [list_to_map [("cultural", VStr "western"); ("age", VInt 40)]].

(** A table with two columns labelled [ethics]. *)
Definition repeated_ethics_frame : DataFrame :=
  mkDataFrame 1 [("ethics", [VFloat 0.5]); ("ethics", [VFloat 0.25]);
                 ("cultural", [VStr "western"])].

Definition repeated_ethics_store : store := mkStore [repeated_ethics_frame] [].

(** The sample table without its passthrough column and with its columns
    in another order, and the sample content with keys the scorer does not
    look at. *)
Definition sample_frame_bare : DataFrame :=
  mkDataFrame 3
    [("sex", [VInt 0; VNaN; VInt 1]);
     ("tiered_income", [VInt 3; VStr "n/a"; VStr "5"]);
     ("ethics", [VFloat 0x1.999999999999ap-2; VNone; VFloat 0x1.3333333333333p-1]);
     ("politics", [VInt 1; VInt 2; VStr "1"]);
     ("cultural", [VStr "western"; VNaN; VTag " Western"]);
     ("age", [VInt 30; VStr "41"; VInt 40])].

Definition sample_content_extra : gmap string value :=
  <["content_id" := VStr "c-7"]> (<["novelty" := VFloat 0.5]> sample_content).

Definition two_tables_store : store :=
  mkStore [sample_frame; sample_frame_bare] [sample_content; sample_content_extra].

(** A table without an [ethics] column. *)
Definition frame_without_ethics : DataFrame :=
  mkDataFrame 2 [("cultural", [VStr "western"; VStr "eastern"]);
                 ("age", [VInt 30; VInt 50])].

Definition store_without_ethics : store :=
  mkStore [frame_without_ethics] [sample_content].

(** A table whose first row is the first row of the sample and whose
    second row holds nothing usable. *)
Definition sample_frame_other_rows : DataFrame :=
  mkDataFrame 2
    [("tiered_income", [VInt 3; VStr "?"]);
     ("ethics", [VFloat 0x1.999999999999ap-2; VStr "high"]);
     ("politics", [VInt 1; VNone]);
     ("cultural", [VStr "western"; VInt 7]);
     ("age", [VInt 30; VTag "old"]);
     ("sex", [VInt 0; VNaN])].

Definition row_tables_store : store :=
  mkStore [sample_frame; sample_frame_other_rows] [sample_content].

(** ** Constructed records used again

    The arguments that hand an agent's (a content's) own attributes to the
    constructor again, [cultural] being given as [c]. *)
Definition agent_attributes_as_args (ag : Agent.Agent) (c : Agent.cultural_arg)
  : Agent.args :=
  Agent.mkArgs (Some (Agent.agent_id ag)) (Agent.education ag)
               (Agent.economic_status ag) (Agent.ethics ag) (Agent.politics ag) c
               (Agent.age ag) (Agent.sex ag) (Agent.novelty ag)
               (Agent.conscientiousness ag) (Agent.impulsivity ag)
               (Agent.tech_affinity ag) (Agent.social_trust ag).

Definition content_attributes_as_args (c : Content.Content)
           (cult : option Content.cultural_arg) : Content.args :=
  Content.mkArgs (Some (Content.content_id c)) (Content.education c)
                 (Content.economic_status c) (Content.ethics c) (Content.politics c)
                 cult (Content.age c) (Content.sex c) (Content.novelty c)
                 (Content.conscientiousness c) (Content.impulsivity c)
                 (Content.tech_affinity c) (Content.social_trust c).

(** The agent and the content that the sample arguments construct. *)
Definition sample_agent : Agent.Agent :=
  Agent.mkAgent "a-1" (NInt 3) (NInt 50000) (NFloat (1 # 2)) (NInt (-1))
                Agent.EASTERN (NInt 30) (NInt 2) (NFloat (1 # 4))
                (NInt 1) (NInt 0) (NFloat (3 # 4)) (NFloat (1 # 2)).

Definition sample_content_object : Content.Content :=
  Content.mkContent "u-2" None (Some (NInt 10000)) (Some (NFloat (3 # 5))) None
                    (Some Content.WESTERN) (Some (NInt 40)) (Some (NInt 1))
                    None None None None None.

(** The result of a validator of [Agent] as a validator of [Content] gives
    it for a present value. *)
Definition as_present (r : result num) : result (option num) :=
  match r with
  | Ok v => Ok (Some v)
  | Raise e => Raise e
  end.

(** * Properties *)

(** ** Income rounding *)

Lemma between_spec (lo hi : Z) (value : num) (v : Q) :
  num_val value = Some v ->
  between lo hi value = true <-> (inject_Z lo <= v /\ v <= inject_Z hi)%Q.
Proof.
  intros Hv. unfold between, num_le. rewrite Hv. simpl.
  rewrite andb_true_iff, !Qle_bool_iff. reflexivity.
Qed.

(** [round] lands within one half of its argument. *)
Lemma py_round_near (x : Q) : (Qabs (inject_Z (py_round x) - x) <= 1 # 2)%Q.
Proof.
  unfold py_round.
  pose proof (Qfloor_le x) as Hlo.
  pose proof (Qlt_floor x) as Hhi.
  rewrite inject_Z_plus in Hhi.
  set (f := Qfloor x) in *.
  change (inject_Z 1) with 1%Q in Hhi.
  destruct (x - inject_Z f ?= 1 # 2)%Q eqn:Hc.
  - apply Qeq_alt in Hc.
    destruct (Z.even f); [| rewrite inject_Z_plus; change (inject_Z 1) with 1%Q];
      apply Qabs_case; intros; lra.
  - apply Qlt_alt in Hc. apply Qabs_case; intros; lra.
  - apply Qgt_alt in Hc. rewrite inject_Z_plus. change (inject_Z 1) with 1%Q.
    apply Qabs_case; intros; lra.
Qed.

(** Rounding the quotient by 5000 and scaling back stays within 2500. *)
Lemma round_to_5000_near (v : Q) :
  (Qabs (inject_Z (py_round (v / 5000) * 5000) - v) <= 2500)%Q.
Proof.
  pose proof (py_round_near (v / 5000)) as H.
  rewrite inject_Z_mult.
  set (r := inject_Z (py_round (v / 5000))) in *.
  change (inject_Z 5000) with 5000%Q.
  assert (Hv : (v == (v / 5000) * 5000)%Q) by (field; discriminate).
  set (w := (v / 5000)%Q) in *.
  assert (Hb : (- (1 # 2) <= r - w /\ r - w <= 1 # 2)%Q).
  { revert H. apply Qabs_case; intros; lra. }
  apply Qabs_case; intros; lra.
Qed.

Lemma py_round_ge (n : Z) (x : Q) : (inject_Z n <= x)%Q -> n <= py_round x.
Proof.
  intros H. apply Qfloor_resp_le in H. rewrite Qfloor_Z in H.
  unfold py_round. destruct (x - inject_Z (Qfloor x) ?= 1 # 2)%Q; [| lia | lia].
  destruct (Z.even (Qfloor x)); lia.
Qed.

Lemma py_round_le (n : Z) (x : Q) : (x <= inject_Z n)%Q -> py_round x <= n.
Proof.
  intros H.
  pose proof (Qfloor_le x) as Hlo.
  assert (Hfn : Qfloor x <= n).
  { apply Qfloor_resp_le in H. now rewrite Qfloor_Z in H. }
  destruct (Z.eq_dec (Qfloor x) n) as [E | NE].
  - (* the floor is [n] itself: [x] is the integer [n] and its round is [n] *)
    unfold py_round. rewrite E in *.
    replace (x - inject_Z n ?= 1 # 2)%Q with Lt; [lia |].
    symmetry. apply (proj1 (Qlt_alt _ _)). lra.
  - unfold py_round. destruct (x - inject_Z (Qfloor x) ?= 1 # 2)%Q; [| lia | lia].
    destruct (Z.even (Qfloor x)); lia.
Qed.

Lemma round_to_5000_in_range (v : Q) :
  (10000 <= v <= 500000)%Q ->
  10000 <= py_round (v / 5000) * 5000 <= 500000.
Proof.
  intros [Hlo Hhi].
  assert (H2 : 2 <= py_round (v / 5000)).
  { apply py_round_ge. apply Qle_shift_div_l; [reflexivity |].
    change (inject_Z 2 * 5000)%Q with 10000%Q. exact Hlo. }
  assert (H100 : py_round (v / 5000) <= 100).
  { apply py_round_le. apply Qle_shift_div_r; [reflexivity |].
    change (inject_Z 100 * 5000)%Q with 500000%Q. exact Hhi. }
  lia.
Qed.

Lemma Agent_validate_economic_status_ok (value : num) (v : Q) :
  num_val value = Some v -> (10000 <= v <= 500000)%Q ->
  Agent._validate_economic_status value = Ok (NInt (py_round (v / 5000) * 5000)).
Proof.
  intros Hv Hr. unfold Agent._validate_economic_status.
  assert (Hb : between 10000 500000 value = true)
    by (apply (between_spec _ _ _ _ Hv); exact Hr).
  rewrite Hb, Hv. reflexivity.
Qed.

Lemma Content_validate_economic_status_ok (value : num) (v : Q) :
  num_val value = Some v -> (10000 <= v <= 500000)%Q ->
  Content._validate_economic_status (Some value)
  = Ok (Some (NInt (py_round (v / 5000) * 5000))).
Proof.
  intros Hv Hr. unfold Content._validate_economic_status.
  assert (Hb : between 10000 500000 value = true)
    by (apply (between_spec _ _ _ _ Hv); exact Hr).
  rewrite Hb, Hv. reflexivity.
Qed.

(** What a successful [Agent.__init__] stored, validator by validator. *)
Lemma Agent_init_inv (u : string) (a : Agent.args) (ag : Agent.Agent) :
  Agent.__init__ u a = Ok ag ->
  Agent._validate_education (Agent.arg_education a) = Ok (Agent.education ag) /\
  Agent._validate_economic_status (Agent.arg_economic_status a)
    = Ok (Agent.economic_status ag) /\
  Agent._validate_range (Agent.arg_ethics a) 0 1 "ethics" = Ok (Agent.ethics ag) /\
  Agent._validate_politics (Agent.arg_politics a) = Ok (Agent.politics ag) /\
  match Agent.arg_cultural a with
  | Agent.Member c => Ok c
  | Agent.Plain x => Agent.enum_of_value x
  end = Ok (Agent.cultural ag) /\
  Agent._validate_age (Agent.arg_age a) = Ok (Agent.age ag) /\
  Agent._validate_sex (Agent.arg_sex a) = Ok (Agent.sex ag) /\
  Agent._validate_range (Agent.arg_novelty a) 0 1 "novelty" = Ok (Agent.novelty ag) /\
  Agent._validate_range (Agent.arg_conscientiousness a) 0 1 "conscientiousness"
    = Ok (Agent.conscientiousness ag) /\
  Agent._validate_range (Agent.arg_impulsivity a) 0 1 "impulsivity"
    = Ok (Agent.impulsivity ag) /\
  Agent._validate_range (Agent.arg_tech_affinity a) 0 1 "tech_affinity"
    = Ok (Agent.tech_affinity ag) /\
  Agent._validate_range (Agent.arg_social_trust a) 0 1 "social_trust"
    = Ok (Agent.social_trust ag).
Proof.
  unfold Agent.__init__, rbind. intros H.
  repeat match type of H with
         | match ?r with Ok _ => _ | Raise _ => _ end = _ =>
             destruct r eqn:?; [| discriminate H]
         end.
  injection H as <-. simpl. repeat split; reflexivity.
Qed.

(** What a successful [Content.__init__] stored, for the income. *)
Lemma Content_init_income (u : string) (a : Content.args) (c : Content.Content) :
  Content.__init__ u a = Ok c ->
  Content.if_present Content._validate_economic_status (Content.arg_economic_status a)
  = Ok (Content.economic_status c).
Proof.
  unfold Content.__init__, rbind. intros H.
  repeat match type of H with
         | match ?r with Ok _ => _ | Raise _ => _ end = _ =>
             destruct r eqn:?; [| discriminate H]
         end.
  injection H as <-. reflexivity.
Qed.

(** C8. For every number [v] in [10000, 500000] given as [economic_status],
    the validators of [Agent] and of [Content] return (and the constructors
    store) an [int] that is an exact multiple of 5000 and lies within 2500
    of [v]. *)
Theorem income_rounding (value : num) (v : Q) :
  num_val value = Some v -> (10000 <= v <= 500000)%Q ->
  exists k : Z,
    (Qabs (inject_Z (5000 * k) - v) <= 2500)%Q /\
    Agent._validate_economic_status value = Ok (NInt (5000 * k)) /\
    Content._validate_economic_status (Some value) = Ok (Some (NInt (5000 * k))) /\
    (forall u a ag,
        Agent.arg_economic_status a = value -> Agent.__init__ u a = Ok ag ->
        Agent.economic_status ag = NInt (5000 * k)) /\
    (forall u a c,
        Content.arg_economic_status a = Some value -> Content.__init__ u a = Ok c ->
        Content.economic_status c = Some (NInt (5000 * k))).
Proof.
  intros Hv Hr. exists (py_round (v / 5000)).
  rewrite (Z.mul_comm 5000).
  pose proof (Agent_validate_economic_status_ok value v Hv Hr) as HA.
  pose proof (Content_validate_economic_status_ok value v Hv Hr) as HC.
  split; [apply round_to_5000_near |].
  split; [exact HA |]. split; [exact HC |]. split.
  - intros u a ag Ha Hinit.
    apply Agent_init_inv in Hinit. destruct Hinit as (_ & He & _).
    rewrite Ha, HA in He. now injection He as <-.
  - intros u a c Ha Hinit.
    apply Content_init_income in Hinit.
    rewrite Ha in Hinit. unfold Content.if_present in Hinit. rewrite HC in Hinit.
    now injection Hinit as <-.
Qed.

Lemma income_rounding_witness :
  exists k : Z,
    (Qabs (inject_Z (5000 * k) - 12345) <= 2500)%Q /\
    Agent._validate_economic_status (NInt 12345) = Ok (NInt (5000 * k)) /\
    Content._validate_economic_status (Some (NInt 12345)) = Ok (Some (NInt (5000 * k))) /\
    (forall u a ag,
        Agent.arg_economic_status a = NInt 12345 -> Agent.__init__ u a = Ok ag ->
        Agent.economic_status ag = NInt (5000 * k)) /\
    (forall u a c,
        Content.arg_economic_status a = Some (NInt 12345) ->
        Content.__init__ u a = Ok c ->
        Content.economic_status c = Some (NInt (5000 * k))).
Proof.
  apply (income_rounding (NInt 12345) 12345).
  - reflexivity.
  - split; vm_compute; discriminate.
Defined.

(** Ties go to the even multiple: 12500 is stored as 10000, 17500 as 20000. *)
Example rounding_ties :
  Agent._validate_economic_status (NInt 12500) = Ok (NInt 10000) /\
  Agent._validate_economic_status (NFloat 17500) = Ok (NInt 20000).
Proof. split; reflexivity. Qed.

(** ** Validation at construction *)

Lemma fields_complete (f : field) : In f fields.
Proof. destruct f; simpl; tauto. Qed.

Lemma first_bad_none (ok : field -> bool) :
  first_bad ok = None <-> forall f, ok f = true.
Proof.
  unfold first_bad. split.
  - intros H f. pose proof (find_none _ _ H f (fields_complete f)) as Hf.
    now apply negb_false_iff in Hf.
  - intros H. destruct (List.find _ fields) as [g |] eqn:E; [| reflexivity].
    apply find_some in E. destruct E as [_ E]. rewrite H in E. discriminate.
Qed.

Lemma first_bad_some (ok : field -> bool) (g : field) :
  first_bad ok = Some g -> ok g = false.
Proof.
  unfold first_bad. intros E. apply find_some in E.
  destruct E as [_ E]. now apply negb_true_iff in E.
Qed.

Lemma income_stored_round (value : num) (v : Q) :
  num_val value = Some v -> between 10000 500000 value = true ->
  income_stored (NInt (py_round (v / 5000) * 5000)) = true.
Proof.
  intros Hv Hb. apply (between_spec _ _ _ _ Hv) in Hb.
  pose proof (round_to_5000_in_range v Hb) as [Hlo Hhi].
  unfold income_stored. apply andb_true_iff. split.
  - apply (between_spec _ _ (NInt _) _ eq_refl). rewrite <- !Zle_Qle. lia.
  - apply Z.eqb_eq. apply Z_mod_mult.
Qed.

Section ValidatorShapes.

Local Ltac by_cases :=
  repeat match goal with
         | |- context [between ?lo ?hi ?v] => destruct (between lo hi v)
         | |- context [is_int ?v] => destruct (is_int v)
         | |- context [num_eqb ?a ?b] => destruct (num_eqb a b)
         | |- context [num_val ?v] => destruct (num_val v)
         end; reflexivity.

Lemma Agent_validate_range_spec (v : num) (name : string) :
  Agent._validate_range v 0 1 name
  = if between 0 1 v then Ok v else Raise (ValueError name).
Proof. unfold Agent._validate_range. by_cases. Qed.

Lemma Agent_validate_education_spec (v : num) :
  Agent._validate_education v
  = if int_in 1 5 v then Ok v else Raise (ValueError "education").
Proof. unfold Agent._validate_education, int_in. by_cases. Qed.

Lemma Agent_validate_politics_spec (v : num) :
  Agent._validate_politics v
  = if int_in (-2) 2 v then Ok v else Raise (ValueError "politics").
Proof. unfold Agent._validate_politics, int_in. by_cases. Qed.

Lemma Agent_validate_age_spec (v : num) :
  Agent._validate_age v
  = if int_in 5 90 v then Ok v else Raise (ValueError "age").
Proof. unfold Agent._validate_age, int_in. by_cases. Qed.

Lemma Agent_validate_sex_spec (v : num) :
  Agent._validate_sex v
  = if AgentBounds.sex_ok v then Ok v else Raise (ValueError "sex").
Proof.
  unfold Agent._validate_sex, AgentBounds.sex_ok, one_of. simpl. by_cases.
Qed.

Lemma Agent_validate_economic_status_spec (v : num) :
  Agent._validate_economic_status v
  = if between 10000 500000 v
    then match num_val v with
         | Some q => Ok (NInt (py_round (q / 5000) * 5000))
         | None => Raise (ValueError "economic_status")
         end
    else Raise (ValueError "economic_status").
Proof. unfold Agent._validate_economic_status. by_cases. Qed.

Lemma Agent_enum_of_value_spec (x : string) :
  if is_tag x
  then exists c, Agent.enum_of_value x = Ok c
  else Agent.enum_of_value x = Raise (ValueError "CulturalEnum").
Proof.
  unfold is_tag, Agent.enum_of_value, cultural_tags, Agent.members.
  cbn [existsb List.find Agent.enum_value].
  rewrite !(String.eqb_sym x).
  repeat (destruct (String.eqb _ x); cbn [orb]; [eexists; reflexivity |]).
  reflexivity.
Qed.

Lemma Agent_enum_value_is_tag (c : Agent.CulturalEnum) :
  is_tag (Agent.enum_value c) = true.
Proof. destruct c; reflexivity. Qed.

End ValidatorShapes.

Lemma between_true_val (lo hi : Z) (v : num) :
  between lo hi v = true -> exists q, num_val v = Some q.
Proof.
  unfold between, num_le. destruct (num_val v) as [q |]; [eauto |].
  simpl. discriminate.
Qed.

(** One validation step: the test passes and construction goes on, or the
    test fails and the goal (the exception of this very step) is closed. *)
Local Ltac validation_step :=
  match goal with
  | |- context [rbind (if ?b then _ else _) _] =>
      let E := fresh "Hok" in
      destruct b eqn:E; cbn [negb rbind]; [| reflexivity]
  end.

(** [Agent.__init__] raises for the first attribute out of bounds, naming it,
    and otherwise returns an agent whose attributes are all within bounds. *)
Lemma Agent_init_cases (u : string) (a : Agent.args) :
  match first_bad (fun f => AgentBounds.arg_ok f a) with
  | Some g => Agent.__init__ u a = Raise (ValueError (subject g))
  | None =>
      exists ag, Agent.__init__ u a = Ok ag /\
                 forall f, AgentBounds.attr_ok f ag = true
  end.
Proof.
  unfold Agent.__init__, first_bad, fields.
  cbn [List.find AgentBounds.arg_ok subject].
  rewrite Agent_validate_education_spec, Agent_validate_economic_status_spec,
    Agent_validate_politics_spec, Agent_validate_age_spec, Agent_validate_sex_spec,
    !Agent_validate_range_spec.
  validation_step.
  validation_step.
  destruct (between_true_val _ _ _ Hok0) as [q Hq]. rewrite Hq. cbn [rbind].
  validation_step.
  validation_step.
  assert (Hcult :
    if match Agent.arg_cultural a with
       | Agent.Member _ => true
       | Agent.Plain x => is_tag x
       end
    then exists c, match Agent.arg_cultural a with
                   | Agent.Member c => Ok c
                   | Agent.Plain x => Agent.enum_of_value x
                   end = Ok c
    else match Agent.arg_cultural a with
         | Agent.Member c => Ok c
         | Agent.Plain x => Agent.enum_of_value x
         end = Raise (ValueError "CulturalEnum")).
  { destruct (Agent.arg_cultural a) as [c | x];
      [eexists; reflexivity | apply Agent_enum_of_value_spec]. }
  destruct (match Agent.arg_cultural a with
            | Agent.Member _ => true
            | Agent.Plain x => is_tag x
            end); cbn [negb];
    [destruct Hcult as [c Hc]; rewrite Hc; cbn [rbind]
    | rewrite Hcult; reflexivity].
  repeat validation_step.
  eexists. split; [reflexivity |].
  intros f; destruct f; cbn; try assumption.
  - exact (income_stored_round _ _ Hq Hok0).
  - apply Agent_enum_value_is_tag.
Qed.

Section ContentValidatorShapes.

Import ContentBounds.

Local Ltac by_cases :=
  repeat match goal with
         | |- context [between ?lo ?hi ?v] => destruct (between lo hi v)
         | |- context [is_int ?v] => destruct (is_int v)
         | |- context [num_eqb ?a ?b] => destruct (num_eqb a b)
         end; reflexivity.

Lemma Content_validate_range_spec (x : option num) (name : string) :
  Content.if_present (fun v => Content._validate_range v 0 1 name) x
  = if when_present (between 0 1) x then Ok x else Raise (ValueError name).
Proof.
  destruct x as [v |]; [| reflexivity].
  unfold Content.if_present, Content._validate_range, when_present. by_cases.
Qed.

Lemma Content_validate_education_spec (x : option num) :
  Content.if_present Content._validate_education x
  = if when_present (int_in 1 5) x then Ok x else Raise (ValueError "education").
Proof.
  destruct x as [v |]; [| reflexivity].
  unfold Content.if_present, Content._validate_education, when_present, int_in.
  by_cases.
Qed.

Lemma Content_validate_politics_spec (x : option num) :
  Content.if_present Content._validate_politics x
  = if when_present (int_in (-2) 2) x then Ok x else Raise (ValueError "politics").
Proof.
  destruct x as [v |]; [| reflexivity].
  unfold Content.if_present, Content._validate_politics, when_present, int_in.
  by_cases.
Qed.

Lemma Content_validate_age_spec (x : option num) :
  Content.if_present Content._validate_age x
  = if when_present (int_in 5 90) x then Ok x else Raise (ValueError "age").
Proof.
  destruct x as [v |]; [| reflexivity].
  unfold Content.if_present, Content._validate_age, when_present, int_in.
  by_cases.
Qed.

Lemma Content_validate_sex_spec (x : option num) :
  Content.if_present Content._validate_sex x
  = if when_present sex_ok x then Ok x else Raise (ValueError "sex").
Proof.
  destruct x as [v |]; [| reflexivity].
  unfold Content.if_present, Content._validate_sex, when_present, sex_ok, one_of.
  cbn [existsb]. by_cases.
Qed.

Lemma Content_validate_economic_status_spec (x : option num) :
  Content.if_present Content._validate_economic_status x
  = if when_present (between 10000 500000) x
    then match x with
         | Some v =>
             match num_val v with
             | Some q => Ok (Some (NInt (py_round (q / 5000) * 5000)))
             | None => Raise (ValueError "economic_status")
             end
         | None => Ok None
         end
    else Raise (ValueError "economic_status").
Proof.
  destruct x as [v |]; [| reflexivity].
  unfold Content.if_present, Content._validate_economic_status, when_present.
  by_cases.
Qed.

Lemma Content_enum_of_value_spec (x : string) :
  if is_tag x
  then exists c, Content.enum_of_value x = Ok c
  else Content.enum_of_value x = Raise (ValueError "CulturalEnum").
Proof.
  unfold is_tag, Content.enum_of_value, cultural_tags, Content.members.
  cbn [existsb List.find Content.enum_value].
  rewrite !(String.eqb_sym x).
  repeat (destruct (String.eqb _ x); cbn [orb]; [eexists; reflexivity |]).
  reflexivity.
Qed.

Lemma Content_enum_value_is_tag (c : Content.CulturalEnum) :
  is_tag (Content.enum_value c) = true.
Proof. destruct c; reflexivity. Qed.

(** [Content.__init__] raises for the first present attribute out of
    bounds, naming it, and otherwise returns a content whose present
    attributes are all within bounds. *)
Lemma Content_init_cases (u : string) (a : Content.args) :
  match first_bad (fun f => arg_ok f a) with
  | Some g => Content.__init__ u a = Raise (ValueError (subject g))
  | None =>
      exists c, Content.__init__ u a = Ok c /\ forall f, attr_ok f c = true
  end.
Proof.
  unfold Content.__init__, first_bad, fields.
  cbn [List.find arg_ok subject].
  rewrite Content_validate_education_spec, Content_validate_economic_status_spec,
    Content_validate_politics_spec, Content_validate_age_spec,
    Content_validate_sex_spec, !Content_validate_range_spec.
  validation_step.
  validation_step.
  assert (Hinc : exists r,
             match Content.arg_economic_status a with
             | Some v =>
                 match num_val v with
                 | Some q => Ok (Some (NInt (py_round (q / 5000) * 5000)))
                 | None => Raise (ValueError "economic_status")
                 end
             | None => Ok None
             end = Ok r /\ when_present income_stored r = true).
  { destruct (Content.arg_economic_status a) as [v |]; [| eexists; split; reflexivity].
    cbn [when_present] in Hok0.
    destruct (between_true_val _ _ _ Hok0) as [q Hq]. rewrite Hq.
    eexists; split; [reflexivity |]. exact (income_stored_round _ _ Hq Hok0). }
  destruct Hinc as (r & -> & Hr). cbn [rbind].
  validation_step.
  validation_step.
  destruct (Content.arg_cultural a) as [[m | x] |]; cbn [when_present negb rbind].
  - repeat validation_step.
    eexists. split; [reflexivity |].
    intros f; destruct f; cbn; try assumption. apply Content_enum_value_is_tag.
  - pose proof (Content_enum_of_value_spec x) as Hx.
    destruct (is_tag x); cbn [negb];
      [destruct Hx as [m ->]; cbn [rbind] | rewrite Hx; reflexivity].
    repeat validation_step.
    eexists. split; [reflexivity |].
    intros f; destruct f; cbn; try assumption. apply Content_enum_value_is_tag.
  - repeat validation_step.
    eexists. split; [reflexivity |].
    intros f; destruct f; cbn; try assumption. reflexivity.
Qed.

End ContentValidatorShapes.

(** ** The declared bounds and the tests of the validators *)

Lemma int_in_sex_agent (n : num) :
  is_int n = true -> int_in 0 2 n = AgentBounds.sex_ok n.
Proof.
  destruct n as [z | q |]; try discriminate. intros _.
  unfold int_in, between, num_le, AgentBounds.sex_ok, one_of, num_eqb.
  cbn [is_int num_val existsb andb]. apply Bool.eq_iff_eq_true.
  rewrite andb_true_iff, !orb_true_iff, !Qle_bool_iff, !Qeq_bool_iff,
    <- !Zle_Qle, !inject_Z_injective.
  split; [intros [H0 H2]; lia | intros [-> | [-> | [-> | H]]]; [lia | lia | lia |]].
  discriminate H.
Qed.

Lemma int_in_sex_content (n : num) :
  is_int n = true -> int_in 0 1 n = ContentBounds.sex_ok n.
Proof.
  destruct n as [z | q |]; try discriminate. intros _.
  unfold int_in, between, num_le, ContentBounds.sex_ok, one_of, num_eqb.
  cbn [is_int num_val existsb andb]. apply Bool.eq_iff_eq_true.
  rewrite andb_true_iff, !orb_true_iff, !Qle_bool_iff, !Qeq_bool_iff,
    <- !Zle_Qle, !inject_Z_injective.
  split; [intros [H0 H2]; lia | intros [-> | [-> | H]]; [lia | lia |]].
  discriminate H.
Qed.

Lemma agent_declared_arg (a : Agent.args) (f : field) :
  is_int (Agent.arg_sex a) = true ->
  Declared.agent_arg_ok f a = AgentBounds.arg_ok f a.
Proof. intros H. destruct f; try reflexivity. now apply int_in_sex_agent. Qed.

Lemma agent_declared_attr (ag : Agent.Agent) (f : field) :
  is_int (Agent.sex ag) = true ->
  Declared.agent_attr_ok f ag = AgentBounds.attr_ok f ag.
Proof. intros H. destruct f; try reflexivity. now apply int_in_sex_agent. Qed.

Lemma content_declared_arg (a : Content.args) (f : field) :
  ContentBounds.when_present is_int (Content.arg_sex a) = true ->
  Declared.content_arg_ok f a = ContentBounds.arg_ok f a.
Proof.
  intros H. destruct f; try reflexivity. cbn.
  destruct (Content.arg_sex a) as [n |]; [| reflexivity]. now apply int_in_sex_content.
Qed.

Lemma content_declared_attr (c : Content.Content) (f : field) :
  ContentBounds.when_present is_int (Content.sex c) = true ->
  Declared.content_attr_ok f c = ContentBounds.attr_ok f c.
Proof.
  intros H. destruct f; try reflexivity. cbn.
  destruct (Content.sex c) as [n |]; [| reflexivity]. now apply int_in_sex_content.
Qed.

Lemma Agent_init_sex (u : string) (a : Agent.args) (ag : Agent.Agent) :
  Agent.__init__ u a = Ok ag -> Agent.sex ag = Agent.arg_sex a.
Proof.
  intros H. apply Agent_init_inv in H.
  destruct H as (_ & _ & _ & _ & _ & _ & Hs & _).
  rewrite Agent_validate_sex_spec in Hs.
  destruct (AgentBounds.sex_ok _); congruence.
Qed.

Lemma Content_init_sex (u : string) (a : Content.args) (c : Content.Content) :
  Content.__init__ u a = Ok c -> Content.sex c = Content.arg_sex a.
Proof.
  unfold Content.__init__, rbind. intros H.
  repeat match type of H with
         | match ?r with Ok _ => _ | Raise _ => _ end = _ =>
             destruct r eqn:?; [| discriminate H]
         end.
  injection H as <-. cbn [Content.sex].
  match goal with
  | E : Content.if_present Content._validate_sex _ = Ok _ |- _ =>
      rewrite Content_validate_sex_spec in E;
      destruct (ContentBounds.when_present ContentBounds.sex_ok _); congruence
  end.
Qed.

Lemma first_bad_ext (ok ok' : field -> bool) :
  (forall f, ok f = ok' f) -> first_bad ok = first_bad ok'.
Proof.
  intros H. unfold first_bad. induction fields as [| f l IH]; [reflexivity |].
  simpl. rewrite H, IH. reflexivity.
Qed.

Lemma subject_error_names (f : field) : subject f = Declared.error_names f.
Proof. now destruct f. Qed.

(** C7. For numbers given as the numeric parameters, [sex] being given as
    an [int] (an absent one also being allowed for [Content]): when every
    argument satisfies its declared bound, the constructor returns a record
    all of whose attributes satisfy their declared bounds; when some
    argument violates its declared bound, the constructor raises a
    [ValueError] and returns no record, and the error is that of the first
    attribute, in validation order, that is out of bounds: its message
    names that attribute, except for a [cultural] string that is no tag,
    where the error is the enum's own and names the enum class. *)
Theorem constructors_validate :
  (forall (u : string) (a : Agent.args),
      is_int (Agent.arg_sex a) = true ->
      ((forall f, Declared.agent_arg_ok f a = true) ->
       exists ag, Agent.__init__ u a = Ok ag /\
                  forall f, Declared.agent_attr_ok f ag = true) /\
      (forall f, Declared.agent_arg_ok f a = false ->
       exists g, first_bad (fun f => Declared.agent_arg_ok f a) = Some g /\
                 Declared.agent_arg_ok g a = false /\
                 Agent.__init__ u a = Raise (ValueError (Declared.error_names g)) /\
                 forall ag, Agent.__init__ u a <> Ok ag)) /\
  (forall (u : string) (a : Content.args),
      ContentBounds.when_present is_int (Content.arg_sex a) = true ->
      ((forall f, Declared.content_arg_ok f a = true) ->
       exists c, Content.__init__ u a = Ok c /\
                 forall f, Declared.content_attr_ok f c = true) /\
      (forall f, Declared.content_arg_ok f a = false ->
       exists g, first_bad (fun f => Declared.content_arg_ok f a) = Some g /\
                 Declared.content_arg_ok g a = false /\
                 Content.__init__ u a = Raise (ValueError (Declared.error_names g)) /\
                 forall c, Content.__init__ u a <> Ok c)).
Proof.
  split; intros u a Hint.
  - pose proof (Agent_init_cases u a) as H.
    rewrite <- (first_bad_ext _ _ (fun f => agent_declared_arg a f Hint)) in H.
    split.
    + intros Hall. apply first_bad_none in Hall. rewrite Hall in H.
      destruct H as (ag & Hag & Hok). exists ag. split; [exact Hag |].
      intros f. rewrite agent_declared_attr; [apply Hok |].
      now rewrite (Agent_init_sex u a ag Hag).
    + intros f Hf.
      destruct (first_bad (fun f => Declared.agent_arg_ok f a)) as [g |] eqn:E.
      * exists g. split; [reflexivity |]. split; [now apply first_bad_some in E |].
        rewrite <- subject_error_names.
        split; [exact H |]. intros ag. rewrite H. discriminate.
      * rewrite first_bad_none in E. rewrite E in Hf. discriminate.
  - pose proof (Content_init_cases u a) as H.
    rewrite <- (first_bad_ext _ _ (fun f => content_declared_arg a f Hint)) in H.
    split.
    + intros Hall. apply first_bad_none in Hall. rewrite Hall in H.
      destruct H as (c & Hc & Hok). exists c. split; [exact Hc |].
      intros f. rewrite content_declared_attr; [apply Hok |].
      now rewrite (Content_init_sex u a c Hc).
    + intros f Hf.
      destruct (first_bad (fun f => Declared.content_arg_ok f a)) as [g |] eqn:E.
      * exists g. split; [reflexivity |]. split; [now apply first_bad_some in E |].
        rewrite <- subject_error_names.
        split; [exact H |]. intros c. rewrite H. discriminate.
      * rewrite first_bad_none in E. rewrite E in Hf. discriminate.
Qed.

Lemma constructors_validate_witness :
  (exists ag, Agent.__init__ "u-1" sample_agent_args = Ok ag /\
              forall f, Declared.agent_attr_ok f ag = true) /\
  (exists g, first_bad (fun f => Declared.agent_arg_ok f sample_agent_args_bad_age)
             = Some g /\
             Declared.agent_arg_ok g sample_agent_args_bad_age = false /\
             Agent.__init__ "u-1" sample_agent_args_bad_age
             = Raise (ValueError (Declared.error_names g)) /\
             forall ag, Agent.__init__ "u-1" sample_agent_args_bad_age <> Ok ag) /\
  (exists g, first_bad (fun f => Declared.agent_arg_ok f sample_agent_args_bad_cultural)
             = Some g /\
             Declared.agent_arg_ok g sample_agent_args_bad_cultural = false /\
             Agent.__init__ "u-1" sample_agent_args_bad_cultural
             = Raise (ValueError (Declared.error_names g)) /\
             forall ag, Agent.__init__ "u-1" sample_agent_args_bad_cultural <> Ok ag) /\
  (exists c, Content.__init__ "u-2" sample_content_args = Ok c /\
             forall f, Declared.content_attr_ok f c = true) /\
  (exists g, first_bad (fun f => Declared.content_arg_ok f sample_content_args_bad_sex)
             = Some g /\
             Declared.content_arg_ok g sample_content_args_bad_sex = false /\
             Content.__init__ "u-2" sample_content_args_bad_sex
             = Raise (ValueError (Declared.error_names g)) /\
             forall c, Content.__init__ "u-2" sample_content_args_bad_sex <> Ok c).
Proof.
  destruct constructors_validate as [HA HC].
  split; [| split; [| split; [| split]]].
  - apply (proj1 (HA "u-1" sample_agent_args eq_refl)).
    intros f; destruct f; reflexivity.
  - apply (proj2 (HA "u-1" sample_agent_args_bad_age eq_refl) F_sex). reflexivity.
  - apply (proj2 (HA "u-1" sample_agent_args_bad_cultural eq_refl) F_cultural).
    reflexivity.
  - apply (proj1 (HC "u-2" sample_content_args eq_refl)).
    intros f; destruct f; reflexivity.
  - apply (proj2 (HC "u-2" sample_content_args_bad_sex eq_refl) F_sex). reflexivity.
Defined.

(** The samples that fail: the age is reported although [sex] is out of
    bounds too, a content refuses the [sex] an agent accepts, and a string
    that is no tag is refused by the enum. *)
Example constructor_failures :
  Agent.__init__ "u-1" sample_agent_args_bad_age = Raise (ValueError "age") /\
  Content.__init__ "u-2" sample_content_args_bad_sex = Raise (ValueError "sex") /\
  Agent.__init__ "u-1" sample_agent_args_bad_cultural
  = Raise (ValueError "CulturalEnum") /\
  Agent.__init__ "u-1" sample_agent_args
  = Ok (Agent.mkAgent "a-1" (NInt 3) (NInt 50000) (NFloat (1 # 2)) (NInt (-1))
                      Agent.EASTERN (NInt 30) (NInt 2) (NFloat (1 # 4))
                      (NInt 1) (NInt 0) (NFloat (3 # 4)) (NFloat (1 # 2))).
Proof. repeat split. Qed.

(** C7 as stated fails twice: [sex = 1.0] is no integer and the agent is
    constructed, with that float as its [sex]; and the error for a
    [cultural] string that is no tag does not name the attribute. *)
Lemma float_sex_is_accepted :
  (Declared.agent_arg_ok F_sex sample_agent_args_float_sex = false /\
   exists ag, Agent.__init__ "u-1" sample_agent_args_float_sex = Ok ag /\
              Agent.sex ag = NFloat 1 /\
              Declared.agent_attr_ok F_sex ag = false) /\
  (Declared.agent_arg_ok F_cultural sample_agent_args_bad_cultural = false /\
   Agent.__init__ "u-1" sample_agent_args_bad_cultural
   = Raise (ValueError "CulturalEnum") /\
   Declared.field_name F_cultural = "cultural").
Proof.
  split.
  - split; [reflexivity |]. eexists. split; [reflexivity |]. split; reflexivity.
  - repeat split.
Qed.
(** ** Columns of a frame *)

Lemma select_assoc_get (n : string) (d : list (string * column)) :
  assoc_get n d = head (select n d).
Proof.
  induction d as [| [m c] d IH]; [reflexivity |].
  simpl. destruct (String.eqb m n); [reflexivity | exact IH].
Qed.

Lemma has_column_select (df : DataFrame) (n : string) :
  has_column df n = negb (Nat.eqb (List.length (select n (data df))) 0).
Proof.
  unfold has_column, columns. induction (data df) as [| [m c] d IH]; [reflexivity |].
  simpl. rewrite (String.eqb_sym n m). destruct (String.eqb m n); [reflexivity | exact IH].
Qed.

Lemma select_replace_all (n m : string) (c : column) (d : list (string * column)) :
  select n (replace_all m c d)
  = if String.eqb m n then repeat c (List.length (select n d)) else select n d.
Proof.
  unfold replace_all. induction d as [| [k x] d IH].
  - simpl. now destruct (String.eqb m n).
  - cbn [List.map fst snd select].
    destruct (String.eqb k m) eqn:Ekm.
    + apply String.eqb_eq in Ekm. subst k. cbn [fst select].
      destruct (String.eqb m n) eqn:Emn.
      * cbn [List.length repeat]. now rewrite IH.
      * exact IH.
    + cbn [select]. destruct (String.eqb m n) eqn:Emn.
      * apply String.eqb_eq in Emn. subst n. rewrite Ekm. exact IH.
      * destruct (String.eqb k n); [now rewrite IH | exact IH].
Qed.

Lemma select_app (n : string) (d d' : list (string * column)) :
  select n (d ++ d') = select n d ++ select n d'.
Proof.
  induction d as [| [k x] d IH]; [reflexivity |].
  simpl. destruct (String.eqb k n); simpl; now rewrite IH.
Qed.

(** The columns an assignment leaves under a label. *)
Lemma select_setitem (df : DataFrame) (n m : string) (c : column) :
  select n (data (setitem df m c))
  = if String.eqb m n
    then repeat c (Nat.max 1 (List.length (select n (data df))))
    else select n (data df).
Proof.
  unfold setitem. cbn [data]. rewrite has_column_select.
  destruct (String.eqb m n) eqn:E.
  - apply String.eqb_eq in E. subst m.
    destruct (List.length (select n (data df))) as [| k] eqn:L.
    + cbn [Nat.eqb negb]. rewrite select_app.
      apply length_zero_iff_nil in L. rewrite L. simpl.
      now rewrite String.eqb_refl.
    + cbn [Nat.eqb negb]. rewrite select_replace_all, String.eqb_refl, L.
      reflexivity.
  - destruct (negb _).
    + now rewrite select_replace_all, E.
    + rewrite select_app. simpl. rewrite E. apply app_nil_r.
Qed.

Lemma index_len_setitem (df : DataFrame) (m : string) (c : column) :
  index_len (setitem df m c) = index_len df.
Proof. reflexivity. Qed.

Lemma has_column_setitem (df : DataFrame) (n m : string) (c : column) :
  has_column (setitem df m c) n = String.eqb m n || has_column df n.
Proof.
  rewrite !has_column_select, select_setitem.
  destruct (String.eqb m n); [| reflexivity].
  rewrite repeat_length. now destruct (List.length _).
Qed.

Lemma getitem_setitem_other (df : DataFrame) (n m : string) (c : column) :
  String.eqb m n = false -> getitem (setitem df m c) n = getitem df n.
Proof. intros E. unfold getitem. now rewrite select_setitem, E. Qed.

Lemma assoc_get_setitem (df : DataFrame) (n m : string) (c : column) :
  assoc_get n (data (setitem df m c))
  = if String.eqb m n then Some c else assoc_get n (data df).
Proof.
  rewrite !select_assoc_get, select_setitem.
  destruct (String.eqb m n); [| reflexivity].
  now destruct (List.length _).
Qed.

Lemma cell_at_setitem (df : DataFrame) (n m : string) (c : column) (i : nat) :
  cell_at (setitem df m c) n i
  = if String.eqb m n then nth_error c i else cell_at df n i.
Proof.
  unfold cell_at. rewrite assoc_get_setitem. now destruct (String.eqb m n).
Qed.

Lemma well_formed_select (df : DataFrame) (n : string) (c : column) :
  well_formed df -> In c (select n (data df)) -> List.length c = index_len df.
Proof.
  unfold well_formed. generalize (index_len df) as k. intros k.
  induction (data df) as [| [m x] d IH]; intros Hwf Hin; [destruct Hin |].
  apply Forall_cons_1 in Hwf. destruct Hwf as [Hx Hd]. simpl in Hin, Hx.
  destruct (String.eqb m n).
  - destruct Hin as [<- | Hin]; [exact Hx | now apply IH].
  - now apply IH.
Qed.

Lemma well_formedb_spec (df : DataFrame) : well_formedb df = true <-> well_formed df.
Proof.
  unfold well_formedb, well_formed. rewrite forallb_forall, List.Forall_forall.
  split; intros H x Hx; specialize (H x Hx); now apply Nat.eqb_eq.
Qed.

Lemma well_formed_setitem (df : DataFrame) (m : string) (c : column) :
  well_formed df -> List.length c = index_len df -> well_formed (setitem df m c).
Proof.
  unfold well_formed, setitem. cbn [index_len data]. intros Hwf Hc.
  destruct (has_column df m).
  - unfold replace_all. rewrite List.Forall_forall in *. intros x Hx.
    apply in_map_iff in Hx. destruct Hx as ([k y] & <- & Hin).
    cbn [fst]. destruct (String.eqb k m); [exact Hc | exact (Hwf _ Hin)].
  - apply Forall_app. split; [exact Hwf |]. now constructor.
Qed.

(** ** Mapping a function that may raise *)

Lemma map_result_length {A B : Type} (f : A -> result B) (l : list A) (l' : list B) :
  map_result f l = Ok l' -> List.length l' = List.length l.
Proof.
  revert l'. induction l as [| x l IH]; intros l' H; simpl in H.
  - now injection H as <-.
  - destruct (f x) as [y | e]; [| discriminate]. cbn [rbind] in H.
    destruct (map_result f l) as [ys | e]; [| discriminate]. cbn [rbind] in H.
    injection H as <-. simpl. now rewrite (IH ys).
Qed.

Lemma map_result_nth {A B : Type} (f : A -> result B) (l : list A) (l' : list B)
      (i : nat) (x : A) :
  map_result f l = Ok l' -> nth_error l i = Some x ->
  exists y, f x = Ok y /\ nth_error l' i = Some y.
Proof.
  revert l' i. induction l as [| a l IH]; intros l' i H Hi; [now destruct i |].
  simpl in H. destruct (f a) as [y | e] eqn:Ea; [| discriminate]. cbn [rbind] in H.
  destruct (map_result f l) as [ys | e]; [| discriminate]. cbn [rbind] in H.
  injection H as <-. destruct i as [| i]; simpl in Hi |- *.
  - injection Hi as <-. eauto.
  - now apply IH.
Qed.

Lemma map_result_total {A B : Type} (f : A -> result B) (g : A -> B) (l : list A) :
  (forall x, In x l -> f x = Ok (g x)) -> map_result f l = Ok (List.map g l).
Proof.
  induction l as [| a l IH]; intros H; [reflexivity |].
  simpl. rewrite (H a) by now left. cbn [rbind].
  rewrite IH by (intros x Hx; apply H; now right). reflexivity.
Qed.

Lemma map_result_ext {A B : Type} (f g : A -> result B) (l : list A) :
  (forall x, In x l -> f x = g x) -> map_result f l = map_result g l.
Proof.
  induction l as [| a l IH]; intros H; [reflexivity |].
  simpl. rewrite (H a) by now left.
  rewrite IH by (intros x Hx; apply H; now right). reflexivity.
Qed.

Lemma map_const_repeat {A B : Type} (b : B) (l : list A) :
  List.map (fun _ => b) l = repeat b (List.length l).
Proof. induction l; simpl; congruence. Qed.

(** ** The scorer, block by block *)

Ltac literal_names :=
  repeat match goal with
         | |- context [?a +:+ ?b] =>
             let s := eval vm_compute in (a +:+ b) in
             change (a +:+ b) with s
         end.

Section Run.
Context {RT : Runtime}.

Lemma tiered_block_run (cd : gmap string value) (d : DataFrame) :
  Logic.tiered_block cd d
  = match tiered_diff_column cd d with
    | Ok col => (Ok tt, setitem d "diff_tiered_income" col)
    | Raise e => (Raise e, d)
    end.
Proof.
  unfold Logic.tiered_block, tiered_diff_column, bind, lift, df_has_column,
    df_getitem, df_setitem, df_setitem_scalar, setitem_scalar.
  destruct (has_column d "tiered_income"); [| reflexivity].
  destruct (except_ _ nan) as [c | e]; cbn [rbind]; [| reflexivity].
  destruct (negb (is_nan c)); [| reflexivity].
  destruct (getitem d "tiered_income") as [sel | e]; cbn [rbind]; [| reflexivity].
  destruct (Logic.to_numeric_series sel) as [xs | e]; reflexivity.
Qed.

Lemma numeric_body_run (cd : gmap string value) (attr : string) (d : DataFrame) :
  Logic.numeric_diff_body cd attr d
  = match numeric_diff_column cd d attr with
    | Ok col => (Ok tt, setitem d ("diff_" +:+ attr) col)
    | Raise e => (Raise e, d)
    end.
Proof.
  unfold Logic.numeric_diff_body, numeric_diff_column, bind, lift, df_has_column,
    df_getitem, df_index_len, df_setitem, df_setitem_scalar, setitem_scalar.
  destruct (has_column d attr); [| reflexivity].
  destruct (getitem d attr) as [sel | e]; cbn [rbind]; [| reflexivity].
  destruct (series_apply _ _ sel) as [col | e]; reflexivity.
Qed.

Lemma cultural_block_run (cd : gmap string value) (d : DataFrame) :
  Logic.cultural_block cd d
  = match cultural_diff_column cd d with
    | Ok col => (Ok tt, setitem d "diff_cultural" col)
    | Raise e => (Raise e, d)
    end.
Proof.
  unfold Logic.cultural_block, cultural_diff_column, bind, lift, df_getitem,
    df_index_len, df_setitem.
  destruct (getitem d "cultural") as [sel | e]; cbn [rbind]; [| reflexivity].
  destruct (series_apply _ _ sel) as [col | e]; reflexivity.
Qed.

Lemma base_score_block_run (d : DataFrame) :
  Logic.base_score_block d
  = match getitems d Rules.distance_columns with
    | Ok sub => (Ok tt, setitem d "base_score" (base_score_column (index_len d) sub))
    | Raise e => (Raise e, d)
    end.
Proof.
  unfold Logic.base_score_block, bind, df_getitems, df_index_len, df_setitem.
  change (List.map (fun a => "diff_" +:+ a) Logic.attrs) with Rules.distance_columns.
  destruct (getitems d Rules.distance_columns); reflexivity.
Qed.

(** An assignment to another label leaves the assigned columns as they
    were. *)
Lemma numeric_diff_column_setitem (cd : gmap string value) (d : DataFrame)
      (attr m : string) (c : column) :
  String.eqb m attr = false ->
  numeric_diff_column cd (setitem d m c) attr = numeric_diff_column cd d attr.
Proof.
  intros E. unfold numeric_diff_column.
  now rewrite has_column_setitem, E, getitem_setitem_other, index_len_setitem.
Qed.

Lemma cultural_diff_column_setitem (cd : gmap string value) (d : DataFrame)
      (m : string) (c : column) :
  String.eqb m "cultural" = false ->
  cultural_diff_column cd (setitem d m c) = cultural_diff_column cd d.
Proof.
  intros E. unfold cultural_diff_column.
  now rewrite getitem_setitem_other, index_len_setitem.
Qed.

(** [score] ends with the frame [scored] when no block raises, and raises
    what the first failing block raises. *)
Lemma score_scored (cd : gmap string value) (df : DataFrame) :
  match scored cd df with
  | Ok out => Logic.score cd df = (Ok tt, out)
  | Raise e => fst (Logic.score cd df) = Raise e
  end.
Proof.
  unfold Logic.score, scored, for_each, bind, ret.
  rewrite tiered_block_run.
  destruct (tiered_diff_column cd df) as [t | e]; cbn [rbind fst]; [| reflexivity].
  rewrite numeric_body_run. literal_names.
  rewrite numeric_diff_column_setitem by reflexivity.
  destruct (numeric_diff_column cd df "ethics") as [c1 | e]; cbn [rbind fst];
    [| reflexivity].
  rewrite numeric_body_run. literal_names.
  rewrite !numeric_diff_column_setitem by reflexivity.
  destruct (numeric_diff_column cd df "politics") as [c2 | e]; cbn [rbind fst];
    [| reflexivity].
  rewrite numeric_body_run. literal_names.
  rewrite !numeric_diff_column_setitem by reflexivity.
  destruct (numeric_diff_column cd df "age") as [c3 | e]; cbn [rbind fst];
    [| reflexivity].
  rewrite numeric_body_run. literal_names.
  rewrite !numeric_diff_column_setitem by reflexivity.
  destruct (numeric_diff_column cd df "sex") as [c4 | e]; cbn [rbind fst];
    [| reflexivity].
  rewrite cultural_block_run.
  rewrite !cultural_diff_column_setitem by reflexivity.
  destruct (cultural_diff_column cd df) as [c5 | e]; cbn [rbind fst];
    [| reflexivity].
  rewrite base_score_block_run.
  unfold assign_columns. cbn [fold_left fst snd].
  change (getitems ?d ["diff_tiered_income"; "diff_ethics"; "diff_politics";
                       "diff_cultural"; "diff_age"; "diff_sex"])
    with (getitems d Rules.distance_columns).
  rewrite !index_len_setitem.
  destruct (getitems _ Rules.distance_columns) as [sub | e]; reflexivity.
Qed.

Lemma content_mapping_as_dict (s : store) (content : Logic.content_arg) :
  Logic._as_dict content s
  = match Rules.content_mapping s content with
    | Some cd => (Ok cd, s)
    | None => (Raise Undetermined, s)
    end.
Proof.
  destruct content as [| l | d |]; reflexivity.
Qed.

Lemma nth_error_top (fs : list DataFrame) (d : DataFrame) :
  nth_error (fs ++ [d]) (List.length fs) = Some d.
Proof. rewrite nth_error_app2 by lia. now rewrite Nat.sub_diag. Qed.

Lemma insert_top (fs : list DataFrame) (d d' : DataFrame) :
  <[List.length fs := d']> (fs ++ [d]) = fs ++ [d'].
Proof. induction fs; simpl; congruence. Qed.

(** The whole call: the copy is allocated after the frames of the store
    and ends as [score] leaves it. *)
Lemma compute_run (s : store) (src : loc) (content : Logic.content_arg)
      (cd : gmap string value) (df : DataFrame) :
  nth_error (frames s) src = Some df ->
  Rules.content_mapping s content = Some cd ->
  Logic.compute_base_match_df src content s
  = (match fst (Logic.score cd df) with
     | Ok _ => Ok (List.length (frames s))
     | Raise e => Raise e
     end, top s (snd (Logic.score cd df))).
Proof.
  intros Hsrc Hcd.
  unfold Logic.compute_base_match_df, bind.
  rewrite content_mapping_as_dict, Hcd.
  unfold frame_copy. rewrite Hsrc.
  unfold with_frame. cbn [frames mappings]. rewrite nth_error_top.
  destruct (Logic.score cd df) as [[[] | e] d']; cbn [fst snd];
    unfold top, ret; now rewrite insert_top.
Qed.

(** A call returns the frame [scored], and only that one. *)
Lemma returns_scored (s : store) (src : loc) (content : Logic.content_arg)
      (cd : gmap string value) (df out : DataFrame) :
  nth_error (frames s) src = Some df ->
  Rules.content_mapping s content = Some cd ->
  returns s src content out <-> scored cd df = Ok out.
Proof.
  intros Hsrc Hcd. unfold returns.
  rewrite (compute_run s src content cd df Hsrc Hcd).
  pose proof (score_scored cd df) as H.
  destruct (scored cd df) as [o | e].
  - rewrite H. cbn [fst snd]. split.
    + intros (l & s' & [= <- <-] & Hout). unfold top in Hout. cbn [frames] in Hout.
      rewrite nth_error_top in Hout. congruence.
    + intros [= <-]. eexists _, _. split; [reflexivity |].
      unfold top. cbn [frames]. apply nth_error_top.
  - rewrite H. split; [| discriminate].
    now intros (l & s' & [=] & _).
Qed.

(** What a call raises is what the first failing block raises. *)
Lemma raises_scored (s : store) (src : loc) (content : Logic.content_arg)
      (cd : gmap string value) (df : DataFrame) (e : exn) :
  nth_error (frames s) src = Some df ->
  Rules.content_mapping s content = Some cd ->
  scored cd df = Raise e ->
  fst (Logic.compute_base_match_df src content s) = Raise e.
Proof.
  intros Hsrc Hcd Hs.
  rewrite (compute_run s src content cd df Hsrc Hcd).
  pose proof (score_scored cd df) as H. rewrite Hs in H. cbn [fst]. now rewrite H.
Qed.

End Run.

(** ** Trimming and lower-casing: the code against the rules *)








(** ** The categorical rule against the code *)

Section CategoricalRule.
Context {RT : Runtime}.



Lemma diff_cultural_none (x : value) : Logic._diff_cultural (Ok None) x = Ok VNaN.
Proof.
  unfold Logic._diff_cultural.
  now destruct (Logic._normalize_cultural x) as [[a |] | e].
Qed.

Lemma diff_cultural_cell (nc : result (option string)) (x v : value) :
  Logic._diff_cultural nc x = Ok v -> v = VNaN \/ v = VFloat 0 \/ v = VFloat 1.
Proof.
  unfold Logic._diff_cultural.
  destruct (either _ _ _ nc) as [[] | e]; cbn [rbind]; [| | discriminate].
  - intros [= <-]. now left.
  - destruct (Logic._normalize_cultural x) as [a | e]; [| discriminate].
    destruct nc as [b | e]; [| discriminate]. cbn [rbind].
    destruct (Logic.label_eqb a b); intros [= <-]; auto.
Qed.

End CategoricalRule.

(** ** The numeric distances *)

Section NumericCells.
Context {RT : Runtime}.

Lemma is_distance_of_float (f : float) : is_distance_cell (of_float f).
Proof.
  unfold of_float, is_distance_cell. destruct (is_nan f) eqn:E; [now left |].
  right. eauto.
Qed.

Lemma diff_numeric_cell (c : result number) (x v : value) :
  Logic._diff_numeric c x = Ok v -> is_distance_cell v.
Proof.
  unfold Logic._diff_numeric.
  destruct (either _ _ _ c) as [[] | e]; cbn [rbind]; [| | discriminate].
  - intros [= <-]. now left.
  - destruct (except_ _ _) as [xn | e]; [| discriminate].
    destruct c as [cn | e]; [| discriminate]. cbn [rbind].
    destruct (num_sub xn cn) as [d | e]; [| discriminate]. cbn [rbind].
    destruct (to_float _) as [f | e]; [| discriminate]. cbn [rbind].
    intros [= <-]. apply is_distance_of_float.
Qed.

(** Against a content value that is not a number every distance is
    undefined, whatever the cell. *)
Lemma diff_numeric_nan (c : number) (x : value) :
  number_isna c = true -> Logic._diff_numeric (Ok c) x = Ok VNaN.
Proof.
  intros Hc. unfold Logic._diff_numeric.
  destruct (except_ (Logic.to_numeric x) (PyFloat nan)) as [xn | e]; cbn [either];
    rewrite Hc; [now rewrite orb_true_r | reflexivity].
Qed.

(** A missing content value is no number and has no label. *)
Lemma missing_to_numeric (v : value) :
  Rules.missing v = true ->
  exists c, except_ (Logic.to_numeric v) (PyFloat nan) = Ok c /\ number_isna c = true.
Proof.
  destruct v as [| | z | f | t | t]; try discriminate; cbn; eauto.
Qed.

Lemma missing_content_tier (v : value) :
  Rules.missing v = true ->
  exists c, except_ (try n <- Logic.to_numeric v; to_float n) nan = Ok c /\
            is_nan c = true.
Proof.
  destruct v as [| | z | f | t | t]; try discriminate; cbn; eauto.
Qed.

Lemma missing_normalize (v : value) :
  Rules.missing v = true -> Logic._normalize_cultural v = Ok None.
Proof.
  intros H. unfold Logic._normalize_cultural.
  change (value_isna v) with (Rules.missing v). now rewrite H.
Qed.

End NumericCells.

(** ** The columns the scorer assigns *)

Ltac eqb_literals :=
  repeat match goal with
         | |- context [String.eqb ?a ?b] =>
             let v := eval vm_compute in (String.eqb a b) in
             match v with
             | true => change (String.eqb a b) with true
             | false => change (String.eqb a b) with false
             end
         end.

Lemma getitem_series (df : DataFrame) (n : string) (col : column) :
  getitem df n = Ok (Series col) -> select n (data df) = [col].
Proof.
  unfold getitem. destruct (select n (data df)) as [| c [| c' l]]; try discriminate.
  now intros [= <-].
Qed.

Lemma getitem_single (df : DataFrame) (n : string) :
  has_column df n = true -> single_label df n ->
  exists col, select n (data df) = [col] /\ getitem df n = Ok (Series col).
Proof.
  rewrite has_column_select. unfold single_label, getitem.
  destruct (select n (data df)) as [| c [| c' l]]; simpl; intros Hh Hs.
  - discriminate.
  - eauto.
  - lia.
Qed.

Lemma series_apply_inv (n : nat) (f : value -> result value) (sel : selection)
      (col' : column) :
  series_apply n f sel = Ok col' ->
  exists col, sel = Series col /\ map_result f col = Ok col'.
Proof.
  destruct sel as [col | cols]; simpl.
  - eauto.
  - destruct (Nat.eqb n 0); discriminate.
Qed.

Lemma is_distance_nan : is_distance_cell VNaN.
Proof. now left. Qed.

Lemma Forall_repeat_nan (n : nat) : Forall is_distance_cell (repeat VNaN n).
Proof. apply List.Forall_forall. intros v Hv. apply repeat_spec in Hv. subst. now left. Qed.

Lemma map_result_Forall {A B : Type} (f : A -> result B) (P : B -> Prop)
      (l : list A) (l' : list B) :
  (forall x y, f x = Ok y -> P y) -> map_result f l = Ok l' -> Forall P l'.
Proof.
  intros Hf. revert l'. induction l as [| a l IH]; intros l' H; simpl in H.
  - injection H as <-. constructor.
  - destruct (f a) as [y | e] eqn:Ea; [| discriminate]. cbn [rbind] in H.
    destruct (map_result f l) as [ys | e]; [| discriminate]. cbn [rbind] in H.
    injection H as <-. constructor; [now apply (Hf a) | now apply IH].
Qed.

Section AssignedColumns.
Context {RT : Runtime}.
Variables (cd : gmap string value) (df : DataFrame).

Lemma tiered_column_inv (t : column) :
  tiered_diff_column cd df = Ok t ->
  (has_column df "tiered_income" = false /\ t = repeat VNaN (index_len df))
  \/ (exists c,
        except_ (try n <- Logic.to_numeric (Logic.cval cd "tiered_income"); to_float n)
                nan = Ok c /\
        is_nan c = true /\ t = repeat VNaN (index_len df))
  \/ exists col xs c,
       select "tiered_income" (data df) = [col] /\
       map_result Logic.series_element col = Ok xs /\
       except_ (try n <- Logic.to_numeric (Logic.cval cd "tiered_income"); to_float n)
               nan = Ok c /\
       is_nan c = false /\
       t = List.map (fun x => of_float (abs (x - c))) xs.
Proof.
  unfold tiered_diff_column.
  destruct (has_column df "tiered_income"); [| intros [= <-]; now left].
  destruct (except_ _ nan) as [c | e]; cbn [rbind]; [| discriminate].
  destruct (is_nan c) eqn:Ec; cbn [negb];
    [intros [= <-]; right; left; now exists c |].
  destruct (getitem df "tiered_income") as [sel | e] eqn:Eg; cbn [rbind];
    [| discriminate].
  destruct sel as [col | cols]; cbn [Logic.to_numeric_series]; [| discriminate].
  destruct (map_result Logic.series_element col) as [xs | e] eqn:Ex; cbn [rbind];
    [| discriminate].
  intros [= <-]. right. right. exists col, xs, c.
  repeat split; try assumption; try reflexivity. now apply getitem_series.
Qed.

Lemma numeric_column_inv (attr : string) (col' : column) :
  numeric_diff_column cd df attr = Ok col' ->
  (has_column df attr = false /\ col' = repeat VNaN (index_len df))
  \/ exists col,
       select attr (data df) = [col] /\
       map_result
         (Logic._diff_numeric
            (except_ (Logic.to_numeric (Logic.cval cd attr)) (PyFloat nan))) col
       = Ok col'.
Proof.
  unfold numeric_diff_column.
  destruct (has_column df attr); [| intros [= <-]; now left].
  destruct (getitem df attr) as [sel | e] eqn:Eg; cbn [rbind]; [| discriminate].
  intros H. apply series_apply_inv in H. destruct H as (col & -> & H).
  right. exists col. split; [now apply getitem_series | exact H].
Qed.

Lemma cultural_column_inv (col' : column) :
  cultural_diff_column cd df = Ok col' ->
  exists col,
    select "cultural" (data df) = [col] /\
    map_result
      (Logic._diff_cultural (Logic._normalize_cultural (Logic.cval cd "cultural")))
      col = Ok col'.
Proof.
  unfold cultural_diff_column.
  destruct (getitem df "cultural") as [sel | e] eqn:Eg; cbn [rbind]; [| discriminate].
  intros H. apply series_apply_inv in H. destruct H as (col & -> & H).
  exists col. split; [now apply getitem_series | exact H].
Qed.

Lemma select_single_length (n : string) (col : column) :
  well_formed df -> select n (data df) = [col] -> List.length col = index_len df.
Proof.
  intros Hwf E. apply (well_formed_select df n col Hwf). rewrite E. now left.
Qed.

Lemma tiered_column_length (t : column) :
  well_formed df -> tiered_diff_column cd df = Ok t ->
  List.length t = index_len df.
Proof.
  intros Hwf H. apply tiered_column_inv in H.
  destruct H as [[_ ->] | [(c & _ & _ & ->) | (col & xs & c & Hsel & Hxs & _ & _ & ->)]].
  - apply repeat_length.
  - apply repeat_length.
  - rewrite length_map, (map_result_length _ _ _ Hxs).
    now apply (select_single_length "tiered_income").
Qed.

Lemma numeric_column_length (attr : string) (col' : column) :
  well_formed df -> numeric_diff_column cd df attr = Ok col' ->
  List.length col' = index_len df.
Proof.
  intros Hwf H. apply numeric_column_inv in H.
  destruct H as [[_ ->] | (col & Hsel & Hmap)].
  - apply repeat_length.
  - rewrite (map_result_length _ _ _ Hmap). now apply (select_single_length attr).
Qed.

Lemma cultural_column_length (col' : column) :
  well_formed df -> cultural_diff_column cd df = Ok col' ->
  List.length col' = index_len df.
Proof.
  intros Hwf H. apply cultural_column_inv in H. destruct H as (col & Hsel & Hmap).
  rewrite (map_result_length _ _ _ Hmap). now apply (select_single_length "cultural").
Qed.

Lemma tiered_column_cells (t : column) :
  tiered_diff_column cd df = Ok t -> Forall is_distance_cell t.
Proof.
  intros H. apply tiered_column_inv in H.
  destruct H as [[_ ->] | [(c & _ & _ & ->) | (col & xs & c & _ & _ & _ & _ & ->)]].
  - apply Forall_repeat_nan.
  - apply Forall_repeat_nan.
  - apply List.Forall_forall. intros v Hv. apply in_map_iff in Hv.
    destruct Hv as (x & <- & _). apply is_distance_of_float.
Qed.

Lemma numeric_column_cells (attr : string) (col' : column) :
  numeric_diff_column cd df attr = Ok col' -> Forall is_distance_cell col'.
Proof.
  intros H. apply numeric_column_inv in H.
  destruct H as [[_ ->] | (col & _ & Hmap)].
  - apply Forall_repeat_nan.
  - revert Hmap. apply map_result_Forall. intros x y. apply diff_numeric_cell.
Qed.

Lemma cultural_column_cells (col' : column) :
  cultural_diff_column cd df = Ok col' -> Forall is_distance_cell col'.
Proof.
  intros H. apply cultural_column_inv in H. destruct H as (col & _ & Hmap).
  revert Hmap. apply map_result_Forall. intros x y Hy.
  apply diff_cultural_cell in Hy. destruct Hy as [-> | [-> | ->]].
  - now left.
  - right. now exists 0%float.
  - right. now exists 1%float.
Qed.

(** *** Attributes the content does not have *)

Lemma tiered_column_nan (t : column) :
  Rules.missing (default VNone (cd !! "tiered_income")) = true ->
  tiered_diff_column cd df = Ok t -> t = repeat VNaN (index_len df).
Proof.
  intros Hc. unfold tiered_diff_column, Logic.cval.
  destruct (missing_content_tier _ Hc) as (c & -> & Hnan). cbn [rbind].
  rewrite Hnan. cbn [negb].
  destruct (has_column df "tiered_income"); now intros [= <-].
Qed.

Lemma numeric_column_nan (attr : string) (col' : column) :
  well_formed df -> Rules.missing (default VNone (cd !! attr)) = true ->
  numeric_diff_column cd df attr = Ok col' -> col' = repeat VNaN (index_len df).
Proof.
  intros Hwf Hc H. apply numeric_column_inv in H.
  destruct H as [[_ ->] | (col & Hsel & Hmap)]; [reflexivity |].
  unfold Logic.cval in Hmap.
  destruct (missing_to_numeric _ Hc) as (c & Ec & Hnan). rewrite Ec in Hmap.
  rewrite (map_result_total _ (fun _ => VNaN)) in Hmap
    by (intros x _; now apply diff_numeric_nan).
  injection Hmap as <-. rewrite map_const_repeat.
  now rewrite (select_single_length attr col).
Qed.

Lemma cultural_column_nan (col' : column) :
  well_formed df -> Rules.missing (default VNone (cd !! "cultural")) = true ->
  cultural_diff_column cd df = Ok col' -> col' = repeat VNaN (index_len df).
Proof.
  intros Hwf Hc H. apply cultural_column_inv in H.
  destruct H as (col & Hsel & Hmap).
  unfold Logic.cval in Hmap. rewrite (missing_normalize _ Hc) in Hmap.
  rewrite (map_result_total _ (fun _ => VNaN)) in Hmap
    by (intros x _; apply diff_cultural_none).
  injection Hmap as <-. rewrite map_const_repeat.
  now rewrite (select_single_length "cultural" col).
Qed.

(** *** The frame [scored] *)

(** The frame before the base score is assigned. *)
Lemma scored_inv (out : DataFrame) :
  scored cd df = Ok out ->
  exists t e p a x c sub,
    tiered_diff_column cd df = Ok t /\
    numeric_diff_column cd df "ethics" = Ok e /\
    numeric_diff_column cd df "politics" = Ok p /\
    numeric_diff_column cd df "age" = Ok a /\
    numeric_diff_column cd df "sex" = Ok x /\
    cultural_diff_column cd df = Ok c /\
    getitems (assign_columns df
                [("diff_tiered_income", t); ("diff_ethics", e); ("diff_politics", p);
                 ("diff_age", a); ("diff_sex", x); ("diff_cultural", c)])
             Rules.distance_columns = Ok sub /\
    out = setitem
            (assign_columns df
               [("diff_tiered_income", t); ("diff_ethics", e); ("diff_politics", p);
                ("diff_age", a); ("diff_sex", x); ("diff_cultural", c)])
            "base_score" (base_score_column (index_len df) sub).
Proof.
  unfold scored.
  destruct (tiered_diff_column cd df) as [t | ?]; [| discriminate].
  destruct (numeric_diff_column cd df "ethics") as [e | ?]; [| discriminate].
  destruct (numeric_diff_column cd df "politics") as [p | ?]; [| discriminate].
  destruct (numeric_diff_column cd df "age") as [a | ?]; [| discriminate].
  destruct (numeric_diff_column cd df "sex") as [x | ?]; [| discriminate].
  destruct (cultural_diff_column cd df) as [c | ?]; [| discriminate].
  cbn [rbind].
  change (getitems ?d ["diff_tiered_income"; "diff_ethics"; "diff_politics";
                       "diff_cultural"; "diff_age"; "diff_sex"])
    with (getitems d Rules.distance_columns).
  destruct (getitems _ Rules.distance_columns) as [sub | ?] eqn:Es; [| discriminate].
  cbn [rbind]. intros [= <-]. exists t, e, p, a, x, c, sub.
  repeat split; try reflexivity. exact Es.
Qed.

End AssignedColumns.

(** ** The base score *)

Lemma available_defined (ds : list value) :
  Forall is_distance_cell ds -> available (List.map cell_float ds) = Rules.defined ds.
Proof.
  unfold available. induction 1 as [| v ds Hv _ IH]; [reflexivity |].
  destruct Hv as [-> | (f & -> & Hf)]; cbn [List.map cell_float List.filter Rules.defined].
  - exact IH.
  - rewrite Hf. cbn [negb]. now rewrite IH.
Qed.

Lemma one_minus_mean_rule (ds : list value) :
  Forall is_distance_cell ds ->
  of_float (1 - mean_skipna (List.map cell_float ds)) = Rules.base_score ds.
Proof.
  intros H. unfold mean_skipna, Rules.base_score.
  rewrite (available_defined ds H).
  destruct (Rules.defined ds); reflexivity.
Qed.

Lemma base_score_all_nan (ds : list value) :
  Forall (eq VNaN) ds -> Rules.base_score ds = VNaN.
Proof.
  intros H. unfold Rules.base_score.
  replace (Rules.defined ds) with (@nil float); [reflexivity |].
  induction H as [| v ds <- _ IH]; [reflexivity | exact IH].
Qed.

Lemma defined_others (f : string -> value) (a : string) (among : list string) :
  f a = VNaN ->
  Rules.defined (List.map f among) = Rules.defined (List.map f (others a among)).
Proof.
  intros Ha. unfold others. induction among as [| b l IH]; [reflexivity |].
  cbn [List.map List.filter]. destruct (String.eqb b a) eqn:E; cbn [negb].
  - apply String.eqb_eq in E. subst b. rewrite Ha. exact IH.
  - cbn [List.map Rules.defined]. now rewrite IH.
Qed.

Lemma base_score_column_cell (n : nat) (cols : list column) (i : nat) :
  (i < n)%nat ->
  nth_error (base_score_column n cols) i
  = Some (of_float (1 - mean_skipna (List.map (fun c => cell_float (nth i c VNaN)) cols))).
Proof.
  intros Hi. unfold base_score_column, mean_axis1.
  rewrite !nth_error_map, nth_error_seq.
  destruct (Nat.ltb_spec i n); [reflexivity | lia].
Qed.

Lemma nth_distance_cell (col : column) (i : nat) :
  Forall is_distance_cell col -> is_distance_cell (nth i col VNaN).
Proof.
  intros H. destruct (Nat.lt_ge_cases i (List.length col)) as [Hi | Hi].
  - rewrite List.Forall_forall in H. apply H. now apply nth_In.
  - rewrite nth_overflow by exact Hi. now left.
Qed.

Lemma nth_error_default (col : column) (i : nat) :
  (i < List.length col)%nat -> nth_error col i = Some (nth i col VNaN).
Proof. intros Hi. now apply nth_error_nth'. Qed.

Lemma max_one (k : nat) : (k <= 1)%nat -> Nat.max 1 k = 1%nat.
Proof. lia. Qed.

Lemma repeat_max_one {A : Type} (c : A) (k : nat) :
  repeat c (Nat.max 1 k) = c :: repeat c (k - 1).
Proof. destruct k as [| k]; simpl; [reflexivity |]. now rewrite Nat.sub_0_r. Qed.

Ltac setitem_simpl :=
  unfold assign_columns; cbn [fold_left fst snd];
  rewrite ?select_setitem, ?cell_at_setitem, ?assoc_get_setitem, ?index_len_setitem;
  eqb_literals; cbv beta iota.

Section ScoredFrame.
Context {RT : Runtime}.
Variables (cd : gmap string value) (df : DataFrame).

(** With each distance label carried by at most one column of the input,
    the base score is computed from the six assigned columns. *)
Lemma scored_single (out : DataFrame) :
  Forall (single_label df) Rules.distance_columns ->
  scored cd df = Ok out ->
  exists t e p a x c,
    tiered_diff_column cd df = Ok t /\
    numeric_diff_column cd df "ethics" = Ok e /\
    numeric_diff_column cd df "politics" = Ok p /\
    numeric_diff_column cd df "age" = Ok a /\
    numeric_diff_column cd df "sex" = Ok x /\
    cultural_diff_column cd df = Ok c /\
    out = setitem
            (assign_columns df
               [("diff_tiered_income", t); ("diff_ethics", e); ("diff_politics", p);
                ("diff_age", a); ("diff_sex", x); ("diff_cultural", c)])
            "base_score" (base_score_column (index_len df) [t; e; p; c; a; x]).
Proof.
  intros Hs H. apply scored_inv in H.
  destruct H as (t & e & p & a & x & c & sub & Ht & He & Hp & Ha & Hx & Hc & Hsub & ->).
  exists t, e, p, a, x, c. repeat (split; [assumption |]).
  do 2 f_equal.
  unfold Rules.distance_columns in Hs.
  repeat match goal with
         | H : Forall _ (_ :: _) |- _ =>
             apply Forall_cons_1 in H; let H1 := fresh "S" in destruct H as [H1 H]
         end.
  unfold single_label in *.
  revert Hsub. unfold getitems, Rules.distance_columns. setitem_simpl.
  rewrite !max_one by assumption. cbn [repeat rbind app].
  now intros [= <-].
Qed.

End ScoredFrame.

Section BaseScoreClaim.
Context {RT : Runtime}.

Lemma scored_base_score_cell (cd : gmap string value) (df out : DataFrame) (i : nat) :
  well_formed df ->
  Forall (single_label df) Rules.distance_columns ->
  scored cd df = Ok out ->
  (i < index_len df)%nat ->
  cell_at out "base_score" i
  = Some (Rules.base_score (row_cells out Rules.distance_columns i)).
Proof.
  intros Hwf Hs H Hi. apply scored_single in H; [| exact Hs].
  destruct H as (t & e & p & a & x & c & Ht & He & Hp & Ha & Hx & Hc & ->).
  pose proof (tiered_column_length cd df t Hwf Ht) as Lt.
  pose proof (numeric_column_length cd df _ e Hwf He) as Le.
  pose proof (numeric_column_length cd df _ p Hwf Hp) as Lp.
  pose proof (numeric_column_length cd df _ a Hwf Ha) as La.
  pose proof (numeric_column_length cd df _ x Hwf Hx) as Lx.
  pose proof (cultural_column_length cd df c Hwf Hc) as Lc.
  unfold row_cells, Rules.distance_columns. cbn [List.map]. setitem_simpl.
  rewrite (base_score_column_cell _ _ _ Hi).
  rewrite !nth_error_default by lia. cbn [default List.map]. f_equal.
  apply (one_minus_mean_rule
           [nth i t VNaN; nth i e VNaN; nth i p VNaN; nth i c VNaN; nth i a VNaN;
            nth i x VNaN]).
  repeat apply List.Forall_cons; try apply List.Forall_nil; apply nth_distance_cell.
  - exact (tiered_column_cells cd df t Ht).
  - exact (numeric_column_cells cd df _ e He).
  - exact (numeric_column_cells cd df _ p Hp).
  - exact (cultural_column_cells cd df c Hc).
  - exact (numeric_column_cells cd df _ a Ha).
  - exact (numeric_column_cells cd df _ x Hx).
Qed.

(** The distance column of an attribute that the content lacks. *)
Lemma scored_missing_attribute (cd : gmap string value) (df out : DataFrame)
      (a : string) (i : nat) :
  well_formed df ->
  scored cd df = Ok out ->
  In a Rules.tracked -> Rules.missing (default VNone (cd !! a)) = true ->
  (i < index_len df)%nat ->
  cell_at out ("diff_" +:+ a) i = Some VNaN.
Proof.
  intros Hwf H Ha Hc Hi. apply scored_inv in H.
  destruct H as (t & e & p & g & x & c & sub & Ht & He & Hp & Hg & Hx & Hcu & _ & ->).
  assert (Hnan : nth_error (repeat VNaN (index_len df)) i = Some VNaN).
  { rewrite nth_error_default by (now rewrite repeat_length). f_equal.
    destruct (nth_in_or_default i (repeat VNaN (index_len df)) VNaN) as [Hin | ->];
      [now apply repeat_spec in Hin | reflexivity]. }
  unfold Rules.tracked in Ha. cbn [In] in Ha.
  destruct Ha as [<- | [<- | [<- | [<- | [<- | [<- | []]]]]]]; literal_names;
    setitem_simpl.
  - now rewrite (tiered_column_nan cd df t Hc Ht).
  - now rewrite (numeric_column_nan cd df _ e Hwf Hc He).
  - now rewrite (numeric_column_nan cd df _ p Hwf Hc Hp).
  - now rewrite (cultural_column_nan cd df c Hwf Hc Hcu).
  - now rewrite (numeric_column_nan cd df _ g Hwf Hc Hg).
  - now rewrite (numeric_column_nan cd df _ x Hwf Hc Hx).
Qed.

End BaseScoreClaim.

(** C1. For an agent table in which none of the six labels [diff_<attr>] is
    carried by more than one column, and a call that returns: in every row
    [base_score] is one minus the arithmetic mean of the defined ones among
    the six distances of the row, the row's cells in [diff_tiered_income],
    [diff_ethics], [diff_politics], [diff_cultural], [diff_age] and
    [diff_sex]; it is not-a-number when all six are; and for an attribute
    that the content lacks, the distance is not-a-number in every row and
    the score is the score over the five other distances. *)
Theorem base_score_rule {RT : Runtime} (s : store) (src : loc)
        (content : Logic.content_arg) (cd : gmap string value) (df out : DataFrame) :
  nth_error (frames s) src = Some df ->
  well_formed df ->
  Forall (single_label df) Rules.distance_columns ->
  Rules.content_mapping s content = Some cd ->
  returns s src content out ->
  (forall i, (i < index_len df)%nat ->
     cell_at out "base_score" i
     = Some (Rules.base_score (row_cells out Rules.distance_columns i))) /\
  (forall i, (i < index_len df)%nat ->
     Forall (eq VNaN) (row_cells out Rules.distance_columns i) ->
     cell_at out "base_score" i = Some VNaN) /\
  (forall a, In a Rules.tracked -> cd !! a = None ->
     forall i, (i < index_len df)%nat ->
       cell_at out ("diff_" +:+ a) i = Some VNaN /\
       cell_at out "base_score" i
       = Some (Rules.base_score
                 (row_cells out (others ("diff_" +:+ a) Rules.distance_columns) i))).
Proof.
  intros Hsrc Hwf Hs Hcd Hret.
  apply (returns_scored s src content cd df out Hsrc Hcd) in Hret.
  assert (H1 : forall i, (i < index_len df)%nat ->
                 cell_at out "base_score" i
                 = Some (Rules.base_score (row_cells out Rules.distance_columns i)))
    by (intros i Hi; now apply (scored_base_score_cell cd df)).
  split; [exact H1 |]. split.
  - intros i Hi Hall. rewrite (H1 i Hi). f_equal. now apply base_score_all_nan.
  - intros a Ha Hc i Hi.
    assert (Hm : Rules.missing (default VNone (cd !! a)) = true) by now rewrite Hc.
    pose proof (scored_missing_attribute cd df out a i Hwf Hret Ha Hm Hi) as Hnan.
    split; [exact Hnan |]. rewrite (H1 i Hi). f_equal.
    unfold Rules.base_score, row_cells.
    rewrite (defined_others (fun n => default VNaN (cell_at out n i)) ("diff_" +:+ a));
      [reflexivity |].
    now rewrite Hnan.
Qed.

Lemma base_score_rule_witness :
  exists out,
    @returns decimal_runtime partial_store 0%nat (Logic.CMapping 0%nat) out /\
    cell_at out "base_score" 0 = Some (VFloat (-2)) /\
    cell_at out "base_score" 1 = Some VNaN /\
    cell_at out "diff_politics" 0 = Some VNaN /\
    cell_at out "base_score" 0
    = Some (Rules.base_score
              (row_cells out ["diff_tiered_income"; "diff_ethics"; "diff_cultural";
                              "diff_age"; "diff_sex"] 0)).
Proof.
  eexists. split.
  { eexists _, _. split; [vm_compute; reflexivity | reflexivity]. }
  match goal with
  | |- cell_at ?o _ _ = _ /\ _ =>
      assert (Hrule :=
        fun Hret => @base_score_rule decimal_runtime partial_store 0%nat
                      (Logic.CMapping 0%nat) partial_content partial_frame o
                      eq_refl
                      (proj1 (well_formedb_spec partial_frame) eq_refl)
                      ltac:(repeat constructor; unfold single_label; simpl; lia)
                      eq_refl Hret)
  end.
  specialize (Hrule ltac:(eexists _, _; split; [vm_compute; reflexivity | reflexivity])).
  destruct Hrule as (H1 & H2 & H3).
  split; [| split; [| split]].
  - rewrite (H1 0%nat) by (simpl; lia). reflexivity.
  - apply (H2 1%nat); [simpl; lia |]. vm_compute. repeat constructor.
  - apply (H3 "politics"); [simpl; tauto | reflexivity | simpl; lia].
  - apply (H3 "politics"); [simpl; tauto | reflexivity | simpl; lia].
Defined.

(** With two columns labelled [diff_age] the score averages seven
    distances: the claim as stated fails there. *)
Lemma repeated_labels_average_seven :
  exists out,
    @returns decimal_runtime repeated_diff_store 0%nat (Logic.CMapping 0%nat) out /\
    row_cells out Rules.distance_columns 0
    = [VNaN; VNaN; VNaN; VFloat 0; VFloat 6; VNaN] /\
    Rules.base_score (row_cells out Rules.distance_columns 0) = VFloat (-2) /\
    cell_at out "base_score" 0 = Some (VFloat (-3)).
Proof.
  eexists. split.
  { eexists _, _. split; [vm_compute; reflexivity | reflexivity]. }
  repeat split.
Qed.

(** ** The categorical distance *)




(** Labels ignore case and the blanks around the text, among them the
    no-break space; a blank inside the text counts. *)
Example cultural_labels :
  @Rules.categorical_distance decimal_runtime (VStr "  WESTERN ") (VTag "western")
  = Ok (VFloat 0) /\
  @Rules.categorical_distance decimal_runtime
    (VStr (String (ascii_of_nat 160) "Western")) (VStr "western") = Ok (VFloat 0) /\
  @Rules.categorical_distance decimal_runtime (VStr "wes tern") (VStr "western")
  = Ok (VFloat 1) /\
  @Rules.categorical_distance decimal_runtime (VInt 7) (VStr "7 ") = Ok (VFloat 0) /\
  @Rules.categorical_distance decimal_runtime VNone (VStr "western") = Ok VNaN /\
  @Logic._diff_cultural decimal_runtime
    (@Logic._normalize_cultural decimal_runtime (VTag "western")) (VStr "  WESTERN ")
  = Ok (VFloat 0).
Proof. repeat split. Qed.

(** ** The content argument and the empty content *)

Lemma nth_error_repeat_nan (n i : nat) :
  (i < n)%nat -> nth_error (repeat VNaN n) i = Some VNaN.
Proof.
  intros Hi. rewrite nth_error_default by (now rewrite repeat_length). f_equal.
  destruct (nth_in_or_default i (repeat VNaN n) VNaN) as [Hin | ->];
    [now apply repeat_spec in Hin | reflexivity].
Qed.

Lemma base_score_column_nan (n : nat) (sub : list column) :
  Forall (eq (repeat VNaN n)) sub -> base_score_column n sub = repeat VNaN n.
Proof.
  intros H. unfold base_score_column, mean_axis1. rewrite List.map_map.
  rewrite <- (length_seq n 0) at 2. rewrite <- map_const_repeat.
  apply map_ext_in. intros i Hi. apply in_seq in Hi.
  replace (List.map (fun c => cell_float (nth i c VNaN)) sub)
    with (repeat nan (List.length sub)).
  { unfold mean_skipna.
    replace (available (repeat nan (List.length sub))) with (@nil float);
      [reflexivity |].
    induction (List.length sub) as [| k IH]; [reflexivity | exact IH]. }
  induction H as [| c l <- _ IH]; [reflexivity |].
  cbn [List.length repeat List.map]. rewrite <- IH. f_equal.
  destruct (nth_in_or_default i (repeat VNaN n) VNaN) as [Hin | ->];
    [apply repeat_spec in Hin; now rewrite Hin | reflexivity].
Qed.

Section EmptyContent.
Context {RT : Runtime}.
Variables (cd : gmap string value) (df : DataFrame).
Hypothesis Hwf : well_formed df.

Lemma tiered_column_lacking :
  cd !! "tiered_income" = None ->
  tiered_diff_column cd df = Ok (repeat VNaN (index_len df)).
Proof.
  intros Hc. unfold tiered_diff_column, Logic.cval. rewrite Hc.
  cbn [default Logic.to_numeric rbind to_float except_].
  now destruct (has_column df "tiered_income").
Qed.

Lemma diff_numeric_none (x : value) :
  Logic._diff_numeric (Ok (PyFloat nan)) x = Ok VNaN.
Proof. now apply diff_numeric_nan. Qed.

Lemma numeric_column_lacking (attr : string) :
  cd !! attr = None -> single_label df attr ->
  numeric_diff_column cd df attr = Ok (repeat VNaN (index_len df)).
Proof.
  intros Hc Hs. unfold numeric_diff_column, Logic.cval. rewrite Hc.
  cbn [default Logic.to_numeric except_].
  destruct (has_column df attr) eqn:Eh; [| reflexivity].
  destruct (getitem_single df attr Eh Hs) as (col & Hsel & ->). cbn [rbind series_apply].
  rewrite (map_result_total _ (fun _ => VNaN)) by (intros x _; apply diff_numeric_none).
  rewrite map_const_repeat. now rewrite (select_single_length df attr col).
Qed.

Lemma cultural_column_lacking :
  cd !! "cultural" = None -> has_column df "cultural" = true ->
  single_label df "cultural" ->
  cultural_diff_column cd df = Ok (repeat VNaN (index_len df)).
Proof.
  intros Hc Eh Hs. unfold cultural_diff_column, Logic.cval. rewrite Hc.
  cbn [default Logic._normalize_cultural value_isna].
  destruct (getitem_single df "cultural" Eh Hs) as (col & Hsel & ->).
  cbn [rbind series_apply].
  rewrite (map_result_total _ (fun _ => VNaN)) by (intros x _; apply diff_cultural_none).
  rewrite map_const_repeat. now rewrite (select_single_length df "cultural" col).
Qed.

(** Against a content that has none of the six keys the call returns a
    table whose seven assigned columns are not-a-number throughout. *)
Lemma scored_nothing :
  (forall a, In a Rules.tracked -> cd !! a = None) ->
  has_column df "cultural" = true ->
  Forall (single_label df) ["ethics"; "politics"; "cultural"; "age"; "sex"] ->
  exists out,
    scored cd df = Ok out /\
    forall n i, In n (Rules.distance_columns ++ ["base_score"]) ->
                (i < index_len df)%nat -> cell_at out n i = Some VNaN.
Proof.
  intros Hnone Eh Hs.
  repeat match goal with
         | H : Forall _ (_ :: _) |- _ =>
             apply Forall_cons_1 in H; let H1 := fresh "S" in destruct H as [H1 H]
         end.
  unfold scored.
  rewrite tiered_column_lacking by (apply Hnone; simpl; tauto).
  rewrite !numeric_column_lacking by (try assumption; apply Hnone; simpl; tauto).
  rewrite cultural_column_lacking by (try assumption; apply Hnone; simpl; tauto).
  cbn [rbind]. set (nans := repeat VNaN (index_len df)).
  unfold getitems. setitem_simpl. rewrite !repeat_max_one. cbn [rbind].
  eexists. split; [reflexivity |].
  intros n i Hn Hi.
  rewrite base_score_column_nan.
  - unfold Rules.distance_columns in Hn. cbn [app In] in Hn.
    destruct Hn as [<- | [<- | [<- | [<- | [<- | [<- | [<- | []]]]]]]];
      setitem_simpl; now apply nth_error_repeat_nan.
  - repeat (cbn [app]; first [apply List.Forall_cons; [reflexivity |]
                             | apply Forall_app; split
                             | apply List.Forall_nil]);
      apply List.Forall_forall; intros c Hc; apply repeat_spec in Hc; now subst.
Qed.

End EmptyContent.

(** C6. [_as_dict] takes a mapping as it is (a copy of it), an object with
    a dictionary projection by that projection, and [None] (like an object
    without a projection) as the empty mapping; and for a content that
    stands for the empty mapping, and an agent table with a [cultural]
    column in which none of the labels [ethics], [politics], [cultural],
    [age] and [sex] is carried by more than one column, the call returns a
    table in which the six distance columns and [base_score] are
    not-a-number in every row. *)
Theorem content_normalization :
  (forall s, Logic._as_dict Logic.CNone s = (Ok ∅, s)) /\
  (forall s l d, nth_error (mappings s) l = Some d ->
                 Logic._as_dict (Logic.CMapping l) s = (Ok d, s)) /\
  (forall s d, Logic._as_dict (Logic.CToDict d) s = (Ok d, s)) /\
  (forall s, Logic._as_dict Logic.COther s = (Ok ∅, s)) /\
  (forall (RT : Runtime) s src content df,
      nth_error (frames s) src = Some df ->
      well_formed df ->
      has_column df "cultural" = true ->
      Forall (single_label df) ["ethics"; "politics"; "cultural"; "age"; "sex"] ->
      Rules.content_mapping s content = Some ∅ ->
      exists out,
        returns s src content out /\
        forall n i,
          In n ["diff_tiered_income"; "diff_ethics"; "diff_politics"; "diff_cultural";
                "diff_age"; "diff_sex"; "base_score"] ->
          (i < index_len df)%nat -> cell_at out n i = Some VNaN).
Proof.
  split; [reflexivity |]. split.
  { intros s l d H. unfold Logic._as_dict. now rewrite H. }
  split; [reflexivity |]. split; [reflexivity |].
  intros RT s src content df Hsrc Hwf Eh Hs Hcd.
  destruct (scored_nothing ∅ df Hwf (fun a _ => lookup_empty a) Eh Hs)
    as (out & Hout & Hcells).
  exists out. split; [| exact Hcells].
  now apply (returns_scored s src content ∅ df out Hsrc Hcd).
Qed.

Lemma content_normalization_witness :
  exists out,
    @returns decimal_runtime sample_store 0%nat Logic.CNone out /\
    cell_at out "diff_age" 0 = Some VNaN /\
    cell_at out "diff_cultural" 2 = Some VNaN /\
    cell_at out "base_score" 1 = Some VNaN.
Proof.
  destruct content_normalization as (_ & _ & _ & _ & H).
  destruct (H decimal_runtime sample_store 0%nat Logic.CNone sample_frame eq_refl
              (proj1 (well_formedb_spec sample_frame) eq_refl) eq_refl
              ltac:(repeat constructor; unfold single_label; simpl; lia) eq_refl)
    as (out & Hret & Hcells).
  exists out. split; [exact Hret |].
  split; [| split]; apply Hcells; simpl; tauto || lia.
Defined.

(** With two columns labelled [ethics] the call raises, also for the empty
    content. *)
Lemma repeated_label_raises :
  fst (@Logic.compute_base_match_df decimal_runtime 0%nat Logic.CNone
         repeated_ethics_store) = Raise (ValueError "Series") /\
  Rules.content_mapping repeated_ethics_store Logic.CNone = Some ∅ /\
  has_column repeated_ethics_frame "cultural" = true /\
  forall out, ~ @returns decimal_runtime repeated_ethics_store 0%nat Logic.CNone out.
Proof.
  split; [reflexivity |]. split; [reflexivity |]. split; [reflexivity |].
  intros out (l & s' & H & _). vm_compute in H. discriminate.
Qed.

(** ** Inputs on which the scorer departs from its contract *)

(** C2. At a table whose first agent has the age [10**400]: the
    subtraction is exact and [float(...)] of its result, which no handler
    surrounds, raises [OverflowError]; the call returns no table, although
    the second agent has the distance 10.0 to the content. *)
Theorem huge_int_aborts_scoring :
  fst (@Logic.compute_base_match_df decimal_runtime 0%nat (Logic.CMapping 0%nat)
         huge_age_store) = Raise OverflowError /\
  (forall out, ~ @returns decimal_runtime huge_age_store 0%nat
                          (Logic.CMapping 0%nat) out) /\
  cell_at huge_age_frame "age" 0 = Some (VInt (10 ^ 400)) /\
  @Logic._diff_numeric decimal_runtime (Ok (PyInt 40)) (VInt (10 ^ 400))
  = Raise OverflowError /\
  @Logic._diff_numeric decimal_runtime (Ok (PyInt 40)) (VInt 30) = Ok (VFloat 10).
Proof.
  split; [vm_compute; reflexivity |]. split.
  - intros out (l & s' & H & _).
    assert (E : fst (@Logic.compute_base_match_df decimal_runtime 0%nat
                       (Logic.CMapping 0%nat) huge_age_store) = Ok l)
      by now rewrite H.
    vm_compute in E. discriminate E.
  - split; [reflexivity |]. split; vm_compute; reflexivity.
Qed.

(** C4. At the income [2**53 + 1] against the income 1: the column is
    converted to floats before the subtraction, which rounds the income to
    [2**53] and gives the distance [2**53 - 1]; the rule applied to the
    row, as the other numeric attributes apply it, subtracts the integers
    and gives [2**53]. *)
Theorem vectorized_income_rounds_first :
  exists out,
    @returns decimal_runtime large_income_store 0%nat (Logic.CMapping 0%nat) out /\
    cell_at large_income_frame "tiered_income" 0 = Some (VInt (2 ^ 53 + 1)) /\
    cell_at out "diff_tiered_income" 0 = Some (VFloat 9007199254740991) /\
    @Logic._diff_numeric decimal_runtime (Ok (PyInt 1)) (VInt (2 ^ 53 + 1))
    = Ok (VFloat 9007199254740992) /\
    Z.abs (2 ^ 53 + 1 - 1) = 9007199254740992.
Proof.
  eexists. split.
  { eexists _, _. split; [vm_compute; reflexivity | reflexivity]. }
  split; [reflexivity |]. split; [reflexivity |]. split; [| reflexivity].
  vm_compute. reflexivity.
Qed.

(** C9. At a table that already has a [base_score] column: the call
    returns a table in which that column no longer holds what it held, and
    which has no second column of that name. *)
Theorem rescoring_replaces_column :
  exists out,
    @returns decimal_runtime rescored_store 0%nat Logic.CNone out /\
    cell_at rescored_frame "base_score" 0 = Some (VFloat 1) /\
    cell_at out "base_score" 0 = Some VNaN /\
    columns out
    = ["cultural"; "base_score"; "diff_tiered_income"; "diff_ethics"; "diff_politics";
       "diff_age"; "diff_sex"; "diff_cultural"].
Proof.
  eexists. split.
  { eexists _, _. split; [vm_compute; reflexivity | reflexivity]. }
  split; [reflexivity |]. split; reflexivity.
Qed.

(** C10. At an age given as the text of the largest [int64] against the
    age -1: the text is read as an [int64], the subtraction wraps around to
    the least [int64], whose absolute value is itself; the distance is
    negative and the score exceeds 1. *)
Theorem wrapped_distance_is_negative :
  exists out,
    @returns decimal_runtime wrapping_age_store 0%nat (Logic.CMapping 0%nat) out /\
    cell_at wrapping_age_frame "age" 0 = Some (VStr "9223372036854775807") /\
    cell_at out "diff_age" 0 = Some (VFloat (-9223372036854775808)) /\
    cell_at out "base_score" 0 = Some (VFloat 9223372036854775808) /\
    PrimFloat.ltb (-9223372036854775808) 0 = true /\
    PrimFloat.ltb 1 9223372036854775808 = true.
Proof.
  eexists. split.
  { eexists _, _. split; [vm_compute; reflexivity | reflexivity]. }
  split; [reflexivity |]. split; [reflexivity |]. split; [reflexivity |].
  split; reflexivity.
Qed.

(** C5, at a table without a [cultural] column: the lookup [df["cultural"]]
    raises [KeyError]; the numeric blocks before it did fill their columns in
    the copy, which nobody gets. *)
Theorem missing_cultural_column_raises :
  fst (@Logic.compute_base_match_df decimal_runtime 0%nat (Logic.CMapping 0%nat)
         store_without_cultural)
  = Raise (KeyError "cultural") /\
  has_column frame_without_cultural "cultural" = false /\
  forall out, ~ @returns decimal_runtime store_without_cultural 0%nat
                         (Logic.CMapping 0%nat) out.
Proof.
  split; [vm_compute; reflexivity |]. split; [reflexivity |].
  intros out (l & s' & H & _).
  assert (E : fst (@Logic.compute_base_match_df decimal_runtime 0%nat
                     (Logic.CMapping 0%nat) store_without_cultural) = Ok l)
    by now rewrite H.
  vm_compute in E. discriminate E.
Qed.

(** The sample call, cell by cell: distances between floats are rounded
    as floats are (0.6 - 0.4 is not 0.2), a text that is no number and a
    missing value give not-a-number, and texts that are numbers count. *)
Example sample_call :
  exists out,
    @returns decimal_runtime sample_store 0%nat (Logic.CMapping 0%nat) out /\
    assoc_get "diff_tiered_income" (data out) = Some [VFloat 0; VNaN; VFloat 2] /\
    assoc_get "diff_ethics" (data out)
    = Some [VFloat 0x1.9999999999998p-3; VNaN; VFloat 0] /\
    assoc_get "diff_politics" (data out) = Some [VFloat 0; VFloat 1; VFloat 0] /\
    assoc_get "diff_age" (data out) = Some [VFloat 10; VFloat 1; VFloat 0] /\
    assoc_get "diff_sex" (data out) = Some [VFloat 1; VNaN; VFloat 0] /\
    assoc_get "diff_cultural" (data out) = Some [VFloat 0; VNaN; VFloat 0] /\
    cell_at out "base_score" 1 = Some (VFloat 0) /\
    assoc_get "name" (data out) = Some [VStr "ana"; VStr "bo"; VStr "cy"].
Proof.
  eexists. split.
  { eexists _, _. split; [vm_compute; reflexivity | reflexivity]. }
  repeat split.
Qed.

(** The least integer that [float] refuses, and the rounding of integers
    to floats. *)
Example float_of_int_bounds :
  float_of_int (float_overflow - 1) = Ok 0x1.fffffffffffffp+1023%float /\
  is_infinity (float_of_Z float_overflow) = true /\
  float_of_int float_overflow = Raise OverflowError /\
  float_of_int (- float_overflow) = Raise OverflowError /\
  float_of_Z (2 ^ 53 + 1) = 9007199254740992%float /\
  float_of_Z (2 ^ 53 + 3) = 9007199254740996%float.
Proof. repeat split; vm_compute; reflexivity. Qed.
(** * Further properties of the code *)

(** ** What the constructors store *)

Lemma validate_range_keeps (v r : num) (name : string) :
  Agent._validate_range v 0 1 name = Ok r -> r = v.
Proof.
  rewrite Agent_validate_range_spec. destruct (between 0 1 v); congruence.
Qed.

Lemma Agent_enum_of_value_tag (x : string) (c : Agent.CulturalEnum) :
  Agent.enum_of_value x = Ok c -> Agent.enum_value c = x.
Proof.
  unfold Agent.enum_of_value.
  destruct (List.find _ Agent.members) as [m |] eqn:E; [| discriminate].
  intros [= <-]. apply find_some in E. destruct E as [_ E].
  now apply String.eqb_eq in E.
Qed.

Lemma Agent_enum_of_value_member (c : Agent.CulturalEnum) :
  Agent.enum_of_value (Agent.enum_value c) = Ok c.
Proof. destruct c; reflexivity. Qed.

(** X1. A constructed agent holds every argument as it was given, with
    three exceptions only: the income, stored rounded to a multiple of
    5000; a [cultural] given as a string, stored as the member that has this
    tag; and the identifier, drawn afresh when none (or an empty one) was
    given. *)
Theorem agent_keeps_arguments (u : string) (a : Agent.args) (ag : Agent.Agent) :
  Agent.__init__ u a = Ok ag ->
  Agent.education ag = Agent.arg_education a /\
  Agent.ethics ag = Agent.arg_ethics a /\
  Agent.politics ag = Agent.arg_politics a /\
  Agent.age ag = Agent.arg_age a /\
  Agent.sex ag = Agent.arg_sex a /\
  Agent.novelty ag = Agent.arg_novelty a /\
  Agent.conscientiousness ag = Agent.arg_conscientiousness a /\
  Agent.impulsivity ag = Agent.arg_impulsivity a /\
  Agent.tech_affinity ag = Agent.arg_tech_affinity a /\
  Agent.social_trust ag = Agent.arg_social_trust a /\
  match Agent.arg_cultural a with
  | Agent.Member c => Agent.cultural ag = c
  | Agent.Plain x => Agent.enum_value (Agent.cultural ag) = x
  end /\
  Agent.agent_id ag
  = match Agent.arg_agent_id a with
    | Some id => if String.eqb id "" then u else id
    | None => u
    end /\
  exists v, num_val (Agent.arg_economic_status a) = Some v /\
            Agent.economic_status ag = NInt (py_round (v / 5000) * 5000).
Proof.
  intros Hinit.
  assert (Hid : Agent.agent_id ag
                = match Agent.arg_agent_id a with
                  | Some id => if String.eqb id "" then u else id
                  | None => u
                  end).
  { revert Hinit. unfold Agent.__init__, rbind.
    repeat match goal with
           | |- match ?r with Ok _ => _ | Raise _ => _ end = _ -> _ =>
               destruct r; [| discriminate]
           end.
    now intros [= <-]. }
  apply Agent_init_inv in Hinit.
  destruct Hinit as (He & Hec & Het & Hp & Hc & Hage & Hs & Hn & Hco & Hi & Ht & Hso).
  rewrite Agent_validate_education_spec in He.
  rewrite Agent_validate_politics_spec in Hp.
  rewrite Agent_validate_age_spec in Hage.
  rewrite Agent_validate_sex_spec in Hs.
  rewrite Agent_validate_economic_status_spec in Hec.
  apply validate_range_keeps in Het, Hn, Hco, Hi, Ht, Hso.
  assert (E1 : Agent.education ag = Agent.arg_education a)
    by (destruct (int_in 1 5 _); congruence).
  assert (E2 : Agent.politics ag = Agent.arg_politics a)
    by (destruct (int_in (-2) 2 _); congruence).
  assert (E3 : Agent.age ag = Agent.arg_age a)
    by (destruct (int_in 5 90 _); congruence).
  assert (E4 : Agent.sex ag = Agent.arg_sex a)
    by (destruct (AgentBounds.sex_ok _); congruence).
  assert (E5 : match Agent.arg_cultural a with
               | Agent.Member c => Agent.cultural ag = c
               | Agent.Plain x => Agent.enum_value (Agent.cultural ag) = x
               end).
  { destruct (Agent.arg_cultural a) as [c | x]; [congruence |].
    now apply Agent_enum_of_value_tag. }
  repeat (split; [assumption |]).
  destruct (between 10000 500000 _); [| discriminate].
  destruct (num_val _) as [v |]; [| discriminate].
  exists v. split; [reflexivity | congruence].
Qed.

(** ** Constructing again from a constructed agent *)

Lemma py_round_int (x : Q) (k : Z) : (x == inject_Z k)%Q -> py_round x = k.
Proof.
  intros Hx. unfold py_round.
  assert (Hf : Qfloor x = k) by (rewrite (Qfloor_comp _ _ Hx); apply Qfloor_Z).
  rewrite Hf.
  replace (x - inject_Z k ?= 1 # 2)%Q with Lt; [reflexivity |].
  symmetry. apply (proj1 (Qlt_alt _ _)). lra.
Qed.

(** A stored income passes the validator unchanged. *)
Lemma income_stored_fixed (n : num) :
  income_stored n = true -> Agent._validate_economic_status n = Ok n.
Proof.
  unfold income_stored. destruct n as [z | q |]; try discriminate.
  intros H. apply andb_true_iff in H. destruct H as [Hb Hm].
  apply Z.eqb_eq in Hm.
  rewrite Agent_validate_economic_status_spec, Hb. cbn [num_val].
  rewrite (py_round_int _ (z / 5000)).
  - do 2 f_equal. rewrite (Z.div_mod z 5000) at 2 by lia. lia.
  - rewrite (Z.div_mod z 5000) at 1 by lia. rewrite Hm, Z.add_0_r.
    rewrite inject_Z_mult. change (inject_Z 5000) with 5000%Q.
    field.
Qed.

(** X2. Validation is idempotent: handing the attributes of a constructed
    agent to the constructor again (the culture as the member or as its tag)
    constructs the same agent, whatever identifier would be drawn. *)
Theorem agent_reconstruction (u u' : string) (a : Agent.args) (ag : Agent.Agent)
        (c : Agent.cultural_arg) :
  Agent.__init__ u a = Ok ag ->
  Agent.agent_id ag <> "" ->
  c = Agent.Member (Agent.cultural ag)
  \/ c = Agent.Plain (Agent.enum_value (Agent.cultural ag)) ->
  Agent.__init__ u' (agent_attributes_as_args ag c) = Ok ag.
Proof.
  intros Hinit Hid Hc.
  assert (Hok : forall f, AgentBounds.attr_ok f ag = true).
  { pose proof (Agent_init_cases u a) as H.
    destruct (first_bad _); [congruence |].
    destruct H as (ag' & H & Hall). rewrite Hinit in H. now injection H as <-. }
  pose proof (Hok F_education) as H1. pose proof (Hok F_economic_status) as H2.
  pose proof (Hok F_ethics) as H3. pose proof (Hok F_politics) as H4.
  pose proof (Hok F_age) as H6. pose proof (Hok F_sex) as H7.
  pose proof (Hok F_novelty) as H8. pose proof (Hok F_conscientiousness) as H9.
  pose proof (Hok F_impulsivity) as H10. pose proof (Hok F_tech_affinity) as H11.
  pose proof (Hok F_social_trust) as H12.
  cbn [AgentBounds.attr_ok] in *.
  unfold Agent.__init__, agent_attributes_as_args.
  cbn [Agent.arg_agent_id Agent.arg_education Agent.arg_economic_status
       Agent.arg_ethics Agent.arg_politics Agent.arg_cultural Agent.arg_age
       Agent.arg_sex Agent.arg_novelty Agent.arg_conscientiousness
       Agent.arg_impulsivity Agent.arg_tech_affinity Agent.arg_social_trust].
  rewrite (income_stored_fixed _ H2).
  rewrite Agent_validate_education_spec, Agent_validate_politics_spec,
    Agent_validate_age_spec, Agent_validate_sex_spec, !Agent_validate_range_spec.
  rewrite H1, H3, H4, H6, H7, H8, H9, H10, H11, H12. cbn [rbind].
  assert (Hcult : match c with
                  | Agent.Member m => Ok m
                  | Agent.Plain x => Agent.enum_of_value x
                  end = Ok (Agent.cultural ag)).
  { destruct Hc as [-> | ->]; [reflexivity | apply Agent_enum_of_value_member]. }
  rewrite Hcult. cbn [rbind].
  apply String.eqb_neq in Hid. rewrite Hid.
  now destruct ag.
Qed.

Lemma agent_reconstruction_witness :
  Agent.__init__ "u-9" (agent_attributes_as_args sample_agent (Agent.Plain "eastern"))
  = Ok sample_agent.
Proof.
  apply (agent_reconstruction "u-1" "u-9" sample_agent_args sample_agent
           (Agent.Plain "eastern")).
  - reflexivity.
  - discriminate.
  - right. reflexivity.
Defined.

Lemma agent_keeps_arguments_witness :
  Agent.education sample_agent = Agent.arg_education sample_agent_args /\
  Agent.ethics sample_agent = Agent.arg_ethics sample_agent_args /\
  Agent.politics sample_agent = Agent.arg_politics sample_agent_args /\
  Agent.age sample_agent = Agent.arg_age sample_agent_args /\
  Agent.sex sample_agent = Agent.arg_sex sample_agent_args /\
  Agent.novelty sample_agent = Agent.arg_novelty sample_agent_args /\
  Agent.conscientiousness sample_agent = Agent.arg_conscientiousness sample_agent_args /\
  Agent.impulsivity sample_agent = Agent.arg_impulsivity sample_agent_args /\
  Agent.tech_affinity sample_agent = Agent.arg_tech_affinity sample_agent_args /\
  Agent.social_trust sample_agent = Agent.arg_social_trust sample_agent_args /\
  match Agent.arg_cultural sample_agent_args with
  | Agent.Member c => Agent.cultural sample_agent = c
  | Agent.Plain x => Agent.enum_value (Agent.cultural sample_agent) = x
  end /\
  Agent.agent_id sample_agent
  = match Agent.arg_agent_id sample_agent_args with
    | Some id => if String.eqb id "" then "u-1" else id
    | None => "u-1"
    end /\
  exists v, num_val (Agent.arg_economic_status sample_agent_args) = Some v /\
            Agent.economic_status sample_agent = NInt (py_round (v / 5000) * 5000).
Proof.
  apply (agent_keeps_arguments "u-1" sample_agent_args sample_agent).
  reflexivity.
Defined.

(** ** Order of the rounded incomes, defaults, and the two sets of validators *)

Lemma py_round_monotone (x y : Q) : (x <= y)%Q -> py_round x <= py_round y.
Proof.
  intros Hxy.
  pose proof (Qfloor_resp_le _ _ Hxy) as Hf.
  unfold py_round.
  destruct (Z.eq_dec (Qfloor x) (Qfloor y)) as [E | NE].
  - rewrite E.
    destruct (x - inject_Z (Qfloor y) ?= 1 # 2)%Q eqn:Cx;
      destruct (y - inject_Z (Qfloor y) ?= 1 # 2)%Q eqn:Cy;
      try (destruct (Z.even (Qfloor y)); lia); try lia.
    + apply Qeq_alt in Cx. apply Qlt_alt in Cy. lra.
    + apply Qgt_alt in Cx. apply Qeq_alt in Cy. lra.
    + apply Qgt_alt in Cx. apply Qlt_alt in Cy. lra.
  - destruct (x - inject_Z (Qfloor x) ?= 1 # 2)%Q;
      destruct (y - inject_Z (Qfloor y) ?= 1 # 2)%Q;
      try (destruct (Z.even (Qfloor x))); try (destruct (Z.even (Qfloor y))); lia.
Qed.

(** X3. Rounding keeps the order of incomes: of two accepted incomes, the
    smaller is stored as the smaller (or the same) multiple of 5000. *)
Theorem rounding_preserves_order (a b x y : num) (va vb : Q) :
  num_val a = Some va -> num_val b = Some vb -> (va <= vb)%Q ->
  Agent._validate_economic_status a = Ok x ->
  Agent._validate_economic_status b = Ok y ->
  exists zx zy, x = NInt zx /\ y = NInt zy /\ zx <= zy.
Proof.
  intros Ha Hb Hle Hx Hy.
  rewrite Agent_validate_economic_status_spec, Ha in Hx.
  rewrite Agent_validate_economic_status_spec, Hb in Hy.
  destruct (between 10000 500000 a); [| discriminate].
  destruct (between 10000 500000 b); [| discriminate].
  injection Hx as <-. injection Hy as <-.
  eexists _, _. split; [reflexivity |]. split; [reflexivity |].
  apply Z.mul_le_mono_nonneg_r; [lia |].
  apply py_round_monotone.
  apply Qmult_le_compat_r; [exact Hle |]. unfold Qinv; simpl. discriminate.
Qed.

Lemma rounding_preserves_order_witness :
  exists zx zy, NInt 10000 = NInt zx /\ NInt 15000 = NInt zy /\ zx <= zy.
Proof.
  apply (rounding_preserves_order (NInt 12500) (NFloat (12501 # 1))
           (NInt 10000) (NInt 15000) 12500 (12501 # 1)).
  - reflexivity.
  - reflexivity.
  - vm_compute. discriminate.
  - reflexivity.
  - reflexivity.
Defined.

(** X4. An agent cannot be constructed with the default income: whatever
    the other arguments, leaving [economic_status] at its default 0.5 makes
    [__init__] raise, and with all defaults the error is the one of the
    income; a content with all defaults (every attribute absent) is
    constructed. *)
Theorem default_income_is_refused (u : string) (a : Agent.args) :
  Agent.arg_economic_status a = Agent.arg_economic_status Agent.defaults ->
  (exists e, Agent.__init__ u a = Raise e) /\
  Agent.__init__ u Agent.defaults = Raise (ValueError "economic_status") /\
  exists c, Content.__init__ u Content.defaults = Ok c /\
            Content.economic_status c = None /\ Content.sex c = None.
Proof.
  intros Hdef. split; [| split].
  - destruct (Agent.__init__ u a) as [ag | e] eqn:E; [| eauto].
    apply Agent_init_inv in E. destruct E as (_ & E & _).
    rewrite Hdef in E. discriminate E.
  - reflexivity.
  - eexists. split; [reflexivity |]. split; reflexivity.
Qed.

Lemma default_income_is_refused_witness :
  (exists e, Agent.__init__ "u-1" Agent.defaults = Raise e) /\
  Agent.__init__ "u-1" Agent.defaults = Raise (ValueError "economic_status") /\
  exists c, Content.__init__ "u-1" Content.defaults = Ok c /\
            Content.economic_status c = None /\ Content.sex c = None.
Proof.
  apply (default_income_is_refused "u-1" Agent.defaults). reflexivity.
Defined.

Lemma num_eqb_zero_one_not_two (v : num) :
  num_eqb v (NInt 0) || num_eqb v (NInt 1) = true -> num_eqb v (NInt 2) = false.
Proof.
  unfold num_eqb. destruct (num_val v) as [q |]; [| reflexivity].
  cbn [num_val]. intros H. apply orb_true_iff in H.
  destruct (Qeq_bool q (inject_Z 2)) eqn:E2; [| reflexivity].
  apply Qeq_bool_iff in E2.
  destruct H as [H | H]; apply Qeq_bool_iff in H; rewrite H in E2; discriminate E2.
Qed.

(** X5. On a present value the validators of [Content] other than
    [_validate_sex] return what the validators of [Agent] return for the
    same attribute: the same value, or the error with the same message.
    [_validate_sex] accepts the values that [Agent] accepts and that are
    not equal to 2, and like [Agent] it returns an accepted value as it
    is. *)
Theorem content_validators_follow_agent (v : num) :
  Content._validate_education (Some v) = as_present (Agent._validate_education v) /\
  Content._validate_economic_status (Some v)
  = as_present (Agent._validate_economic_status v) /\
  Content._validate_politics (Some v) = as_present (Agent._validate_politics v) /\
  Content._validate_age (Some v) = as_present (Agent._validate_age v) /\
  (forall name, Content._validate_range (Some v) 0 1 name
                = as_present (Agent._validate_range v 0 1 name)) /\
  (Content._validate_sex (Some v) = Ok (Some v)
   <-> Agent._validate_sex v = Ok v /\ num_eqb v (NInt 2) = false) /\
  (forall r, Content._validate_sex (Some v) = Ok r -> r = Some v) /\
  (forall r, Agent._validate_sex v = Ok r -> r = v).
Proof.
  split; [| split; [| split; [| split; [| split; [| split; [| split]]]]]].
  - unfold Content._validate_education, Agent._validate_education.
    now destruct (negb (is_int v) || negb (between 1 5 v)).
  - unfold Content._validate_economic_status, Agent._validate_economic_status.
    destruct (negb (between 10000 500000 v)); [reflexivity |].
    now destruct (num_val v).
  - unfold Content._validate_politics, Agent._validate_politics.
    now destruct (negb (is_int v) || negb (between (-2) 2 v)).
  - unfold Content._validate_age, Agent._validate_age.
    now destruct (negb (is_int v) || negb (between 5 90 v)).
  - intros name. unfold Content._validate_range, Agent._validate_range.
    now destruct (negb (between 0 1 v)).
  - unfold Content._validate_sex, Agent._validate_sex. cbn [existsb].
    rewrite !orb_false_r.
    destruct (num_eqb v (NInt 0) || num_eqb v (NInt 1)) eqn:E01.
    + rewrite (num_eqb_zero_one_not_two v E01).
      apply orb_true_iff in E01.
      destruct E01 as [-> | ->]; cbn [orb negb]; [tauto |].
      rewrite orb_true_r. cbn [negb]. tauto.
    + apply orb_false_iff in E01. destruct E01 as [-> ->]. cbn [orb negb].
      destruct (num_eqb v (NInt 2)); cbn [negb]; split;
        try discriminate; intros [H1 H2]; discriminate.
  - intros r. unfold Content._validate_sex.
    destruct (negb _); [discriminate | now intros [= <-]].
  - intros r. unfold Agent._validate_sex.
    destruct (negb _); [discriminate | now intros [= <-]].
Qed.

Lemma content_validators_follow_agent_witness :
  Content._validate_sex (Some (NInt 1)) = Ok (Some (NInt 1)) /\
  Agent._validate_sex (NInt 2) = Ok (NInt 2) /\
  Content._validate_sex (Some (NInt 2)) <> Ok (Some (NInt 2)).
Proof.
  split; [| split].
  - apply (proj2 (proj1 (proj2 (proj2 (proj2 (proj2 (proj2
             (content_validators_follow_agent (NInt 1))))))))).
    split; reflexivity.
  - reflexivity.
  - intros H.
    apply (proj1 (proj1 (proj2 (proj2 (proj2 (proj2 (proj2
             (content_validators_follow_agent (NInt 2))))))))) in H.
    destruct H as [_ H]. discriminate H.
Defined.

(** ** What a content stores *)

Lemma Content_enum_of_value_tag (x : string) (c : Content.CulturalEnum) :
  Content.enum_of_value x = Ok c -> Content.enum_value c = x.
Proof.
  unfold Content.enum_of_value.
  destruct (List.find _ Content.members) as [m |] eqn:E; [| discriminate].
  intros [= <-]. apply find_some in E. destruct E as [_ E].
  now apply String.eqb_eq in E.
Qed.

(** X6. A constructed content holds every argument as it was given, an
    absent attribute staying absent (no default stands in for it); the only
    changes are the income, when present, rounded to a multiple of 5000, a
    [cultural] given as a string, stored as the member with this tag, and
    the identifier drawn when none was given. *)
Theorem content_keeps_arguments (u : string) (a : Content.args) (c : Content.Content) :
  Content.__init__ u a = Ok c ->
  Content.education c = Content.arg_education a /\
  Content.ethics c = Content.arg_ethics a /\
  Content.politics c = Content.arg_politics a /\
  Content.age c = Content.arg_age a /\
  Content.sex c = Content.arg_sex a /\
  Content.novelty c = Content.arg_novelty a /\
  Content.conscientiousness c = Content.arg_conscientiousness a /\
  Content.impulsivity c = Content.arg_impulsivity a /\
  Content.tech_affinity c = Content.arg_tech_affinity a /\
  Content.social_trust c = Content.arg_social_trust a /\
  match Content.arg_cultural a with
  | None => Content.cultural c = None
  | Some (Content.Member m) => Content.cultural c = Some m
  | Some (Content.Plain x) =>
      exists m, Content.cultural c = Some m /\ Content.enum_value m = x
  end /\
  match Content.arg_economic_status a with
  | None => Content.economic_status c = None
  | Some n =>
      exists v, num_val n = Some v /\
                Content.economic_status c = Some (NInt (py_round (v / 5000) * 5000))
  end /\
  Content.content_id c
  = match Content.arg_content_id a with
    | Some id => if String.eqb id "" then u else id
    | None => u
    end.
Proof.
  intros H. unfold Content.__init__ in H.
  rewrite Content_validate_education_spec, Content_validate_economic_status_spec,
    Content_validate_politics_spec, Content_validate_age_spec,
    Content_validate_sex_spec, !Content_validate_range_spec in H.
  repeat match type of H with
         | rbind ?r _ = _ =>
             let E := fresh "E" in
             destruct r eqn:E; cbn [rbind] in H; [| discriminate H]
         end.
  injection H as <-. cbn.
  repeat match goal with
         | E : (if ?b then Ok ?x else Raise _) = Ok _ |- _ =>
             destruct b; [injection E as <- | discriminate E]
         end.
  repeat (split; [reflexivity |]).
  split; [| split; [| reflexivity]].
  - destruct (Content.arg_cultural a) as [[m | x] |].
    + now match goal with E : Ok (Some m) = Ok _ |- _ => injection E as <- end.
    + match goal with
      | E : rbind (Content.enum_of_value x) _ = Ok _ |- _ =>
          destruct (Content.enum_of_value x) as [m |] eqn:Ex; cbn [rbind] in E;
          [injection E as <- | discriminate E]
      end.
      exists m. split; [reflexivity | now apply Content_enum_of_value_tag].
    + now match goal with E : Ok None = Ok _ |- _ => injection E as <- end.
  - match goal with
    | E : (if ?b then _ else _) = Ok _ |- _ => destruct b; [| discriminate E]
    end.
    destruct (Content.arg_economic_status a) as [n |].
    + destruct (num_val n) as [v |]; [| discriminate].
      exists v. split; [reflexivity |].
      now match goal with E : Ok _ = Ok _ |- _ => injection E as <- end.
    + now match goal with E : Ok None = Ok _ |- _ => injection E as <- end.
Qed.

Lemma content_keeps_arguments_witness :
  let c := sample_content_object in
  let a := sample_content_args in
  Content.education c = Content.arg_education a /\
  Content.ethics c = Content.arg_ethics a /\
  Content.politics c = Content.arg_politics a /\
  Content.age c = Content.arg_age a /\
  Content.sex c = Content.arg_sex a /\
  Content.novelty c = Content.arg_novelty a /\
  Content.conscientiousness c = Content.arg_conscientiousness a /\
  Content.impulsivity c = Content.arg_impulsivity a /\
  Content.tech_affinity c = Content.arg_tech_affinity a /\
  Content.social_trust c = Content.arg_social_trust a /\
  match Content.arg_cultural a with
  | None => Content.cultural c = None
  | Some (Content.Member m) => Content.cultural c = Some m
  | Some (Content.Plain x) =>
      exists m, Content.cultural c = Some m /\ Content.enum_value m = x
  end /\
  match Content.arg_economic_status a with
  | None => Content.economic_status c = None
  | Some n =>
      exists v, num_val n = Some v /\
                Content.economic_status c = Some (NInt (py_round (v / 5000) * 5000))
  end /\
  Content.content_id c
  = match Content.arg_content_id a with
    | Some id => if String.eqb id "" then "u-2" else id
    | None => "u-2"
    end.
Proof.
  apply (content_keeps_arguments "u-2" sample_content_args sample_content_object).
  reflexivity.
Defined.

(** ** Scoring against an object with [to_dict] *)



Section AgainstObjects.
Context {RT : Runtime}.





End AgainstObjects.



(** ** Only the tracked columns and keys matter *)

Section Noninterference.
Context {RT : Runtime}.

Lemma has_column_ext (d d' : DataFrame) (a : string) :
  select a (data d) = select a (data d') -> has_column d a = has_column d' a.
Proof. intros E. now rewrite !has_column_select, E. Qed.

Lemma getitem_ext (d d' : DataFrame) (a : string) :
  select a (data d) = select a (data d') -> getitem d a = getitem d' a.
Proof. intros E. unfold getitem. now rewrite E. Qed.

Lemma tiered_diff_column_ext (cd cd' : gmap string value) (d d' : DataFrame) :
  index_len d = index_len d' ->
  select "tiered_income" (data d) = select "tiered_income" (data d') ->
  cd !! "tiered_income" = cd' !! "tiered_income" ->
  tiered_diff_column cd d = tiered_diff_column cd' d'.
Proof.
  intros Hn Hs Hc. unfold tiered_diff_column, Logic.cval.
  now rewrite (has_column_ext d d' _ Hs), (getitem_ext d d' _ Hs), Hn, Hc.
Qed.

Lemma numeric_diff_column_ext (cd cd' : gmap string value) (d d' : DataFrame)
      (attr : string) :
  index_len d = index_len d' ->
  select attr (data d) = select attr (data d') ->
  cd !! attr = cd' !! attr ->
  numeric_diff_column cd d attr = numeric_diff_column cd' d' attr.
Proof.
  intros Hn Hs Hc. unfold numeric_diff_column, Logic.cval.
  now rewrite (has_column_ext d d' _ Hs), (getitem_ext d d' _ Hs), Hn, Hc.
Qed.

Lemma cultural_diff_column_ext (cd cd' : gmap string value) (d d' : DataFrame) :
  index_len d = index_len d' ->
  select "cultural" (data d) = select "cultural" (data d') ->
  cd !! "cultural" = cd' !! "cultural" ->
  cultural_diff_column cd d = cultural_diff_column cd' d'.
Proof.
  intros Hn Hs Hc. unfold cultural_diff_column, Logic.cval.
  now rewrite (getitem_ext d d' _ Hs), Hn, Hc.
Qed.

(** The frame [scored] from its six columns, for a table that carries each
    distance label at most once. *)
Lemma scored_single_intro (cd : gmap string value) (df : DataFrame)
      (t e p a x c : column) :
  Forall (single_label df) Rules.distance_columns ->
  tiered_diff_column cd df = Ok t ->
  numeric_diff_column cd df "ethics" = Ok e ->
  numeric_diff_column cd df "politics" = Ok p ->
  numeric_diff_column cd df "age" = Ok a ->
  numeric_diff_column cd df "sex" = Ok x ->
  cultural_diff_column cd df = Ok c ->
  scored cd df
  = Ok (setitem
          (assign_columns df
             [("diff_tiered_income", t); ("diff_ethics", e); ("diff_politics", p);
              ("diff_age", a); ("diff_sex", x); ("diff_cultural", c)])
          "base_score" (base_score_column (index_len df) [t; e; p; c; a; x])).
Proof.
  intros Hs Ht He Hp Ha Hx Hc.
  unfold scored. rewrite Ht, He, Hp, Ha, Hx, Hc. cbn [rbind].
  unfold Rules.distance_columns in Hs.
  repeat match goal with
         | H : Forall _ (_ :: _) |- _ =>
             apply Forall_cons_1 in H; let H1 := fresh "S" in destruct H as [H1 H]
         end.
  unfold single_label in *.
  unfold getitems. setitem_simpl.
  rewrite !max_one by assumption. reflexivity.
Qed.

(** The seven assigned columns are functions of the index length, the
    tracked columns and the tracked keys. *)
Lemma scored_outputs_ext (cd cd' : gmap string value) (df df' out : DataFrame) :
  index_len df = index_len df' ->
  (forall a, In a Rules.tracked -> select a (data df) = select a (data df')) ->
  (forall a, In a Rules.tracked -> cd !! a = cd' !! a) ->
  Forall (single_label df) Rules.distance_columns ->
  Forall (single_label df') Rules.distance_columns ->
  scored cd df = Ok out ->
  exists out',
    scored cd' df' = Ok out' /\
    forall n, In n (Rules.distance_columns ++ ["base_score"]) ->
              assoc_get n (data out) = assoc_get n (data out').
Proof.
  intros Hlen Hcols Hkeys Hs Hs' H.
  apply scored_single in H; [| exact Hs].
  destruct H as (t & e & p & a & x & c & Ht & He & Hp & Ha & Hx & Hc & ->).
  rewrite (tiered_diff_column_ext cd cd' df df') in Ht
    by (try apply Hcols; try apply Hkeys; simpl; tauto).
  rewrite (numeric_diff_column_ext cd cd' df df' "ethics") in He
    by (try apply Hcols; try apply Hkeys; simpl; tauto).
  rewrite (numeric_diff_column_ext cd cd' df df' "politics") in Hp
    by (try apply Hcols; try apply Hkeys; simpl; tauto).
  rewrite (numeric_diff_column_ext cd cd' df df' "age") in Ha
    by (try apply Hcols; try apply Hkeys; simpl; tauto).
  rewrite (numeric_diff_column_ext cd cd' df df' "sex") in Hx
    by (try apply Hcols; try apply Hkeys; simpl; tauto).
  rewrite (cultural_diff_column_ext cd cd' df df') in Hc
    by (try apply Hcols; try apply Hkeys; simpl; tauto).
  eexists. split; [apply scored_single_intro; [exact Hs' | | | | | | ]; eassumption |].
  intros n Hn. rewrite Hlen. unfold Rules.distance_columns in Hn. cbn [app In] in Hn.
  destruct Hn as [<- | [<- | [<- | [<- | [<- | [<- | [<- | []]]]]]]];
    setitem_simpl; reflexivity.
Qed.

(** X9. The seven columns the scorer assigns depend only on the row
    count, the columns of the table that carry the six tracked labels and
    the six tracked keys of the content: when two tables (each carrying
    every distance label at most once) and two contents agree on these and
    the call on the first returns, the call on the second returns the same
    seven columns, whatever other columns and keys there are. *)
Theorem scores_ignore_other_columns (s : store) (src src' : loc)
        (content content' : Logic.content_arg) (cd cd' : gmap string value)
        (df df' out : DataFrame) :
  nth_error (frames s) src = Some df ->
  nth_error (frames s) src' = Some df' ->
  Rules.content_mapping s content = Some cd ->
  Rules.content_mapping s content' = Some cd' ->
  index_len df = index_len df' ->
  (forall a, In a Rules.tracked -> select a (data df) = select a (data df')) ->
  (forall a, In a Rules.tracked -> cd !! a = cd' !! a) ->
  Forall (single_label df) Rules.distance_columns ->
  Forall (single_label df') Rules.distance_columns ->
  returns s src content out ->
  exists out',
    returns s src' content' out' /\
    forall n,
      In n ["diff_tiered_income"; "diff_ethics"; "diff_politics"; "diff_cultural";
            "diff_age"; "diff_sex"; "base_score"] ->
      assoc_get n (data out) = assoc_get n (data out').
Proof.
  intros Hsrc Hsrc' Hcd Hcd' Hlen Hcols Hkeys Hs Hs' Hret.
  apply (returns_scored s src content cd df out Hsrc Hcd) in Hret.
  destruct (scored_outputs_ext cd cd' df df' out Hlen Hcols Hkeys Hs Hs' Hret)
    as (out' & Hout' & Hsame).
  exists out'. split; [| exact Hsame].
  now apply (returns_scored s src' content' cd' df' out' Hsrc' Hcd').
Qed.

End Noninterference.

Lemma scores_ignore_other_columns_witness :
  exists out out',
    @returns decimal_runtime two_tables_store 0%nat (Logic.CMapping 0%nat) out /\
    @returns decimal_runtime two_tables_store 1%nat (Logic.CMapping 1%nat) out' /\
    assoc_get "diff_age" (data out') = Some [VFloat 10; VFloat 1; VFloat 0] /\
    forall n,
      In n ["diff_tiered_income"; "diff_ethics"; "diff_politics"; "diff_cultural";
            "diff_age"; "diff_sex"; "base_score"] ->
      assoc_get n (data out) = assoc_get n (data out').
Proof.
  eexists.
  assert (Hret : forall o,
             @returns decimal_runtime two_tables_store 0%nat (Logic.CMapping 0%nat) o ->
             exists out',
               @returns decimal_runtime two_tables_store 1%nat (Logic.CMapping 1%nat)
                 out' /\
               forall n,
                 In n ["diff_tiered_income"; "diff_ethics"; "diff_politics";
                       "diff_cultural"; "diff_age"; "diff_sex"; "base_score"] ->
                 assoc_get n (data o) = assoc_get n (data out')).
  { intros o.
    apply (@scores_ignore_other_columns decimal_runtime two_tables_store 0%nat 1%nat
             (Logic.CMapping 0%nat) (Logic.CMapping 1%nat) sample_content
             sample_content_extra sample_frame sample_frame_bare o);
      try reflexivity.
    - intros a Ha. simpl in Ha.
      destruct Ha as [<- | [<- | [<- | [<- | [<- | [<- | []]]]]]]; reflexivity.
    - intros a Ha. simpl in Ha.
      destruct Ha as [<- | [<- | [<- | [<- | [<- | [<- | []]]]]]]; reflexivity.
    - repeat constructor; unfold single_label; simpl; lia.
    - repeat constructor; unfold single_label; simpl; lia. }
  match goal with
  | |- exists out', returns _ _ _ ?o /\ _ =>
      assert (Ho : @returns decimal_runtime two_tables_store 0%nat
                     (Logic.CMapping 0%nat) o)
        by (eexists _, _; split; [vm_compute; reflexivity | reflexivity]);
      destruct (Hret o Ho) as (out' & Hret' & Hsame);
      exists out'; split; [exact Ho |]; split; [exact Hret' |]; split; [| exact Hsame]
  end.
  rewrite <- Hsame by (simpl; tauto). reflexivity.
Defined.

(** ** Scoring a scored table *)

Lemma columns_setitem (df : DataFrame) (m : string) (c : column) :
  columns (setitem df m c)
  = if has_column df m then columns df else columns df ++ [m].
Proof.
  unfold setitem, columns. cbn [data]. destruct (has_column df m).
  - unfold replace_all. rewrite List.map_map. apply map_ext.
    intros [k x]. cbn [fst]. now destruct (String.eqb k m).
  - now rewrite map_app.
Qed.

Lemma columns_setitem_eq (d d' : DataFrame) (m : string) (c c' : column) :
  columns d = columns d' -> columns (setitem d m c) = columns (setitem d' m c').
Proof. intros E. rewrite !columns_setitem. unfold has_column. now rewrite E. Qed.

Lemma has_column_false_not_in (df : DataFrame) (n : string) :
  has_column df n = false -> ~ In n (columns df).
Proof.
  unfold has_column. intros H Hin.
  assert (E : existsb (String.eqb n) (columns df) = true).
  { apply List.existsb_exists. exists n. split; [exact Hin | apply String.eqb_refl]. }
  congruence.
Qed.

Lemma NoDup_columns_setitem (df : DataFrame) (m : string) (c : column) :
  List.NoDup (columns df) -> List.NoDup (columns (setitem df m c)).
Proof.
  intros Hnd. rewrite columns_setitem. destruct (has_column df m) eqn:E; [exact Hnd |].
  apply has_column_false_not_in in E.
  apply List.NoDup_app; [exact Hnd | repeat constructor; now simpl |].
  intros x Hx [<- | []]. contradiction.
Qed.

Lemma select_not_in (n : string) (d : list (string * column)) :
  ~ In n (List.map fst d) -> select n d = [].
Proof.
  induction d as [| [k c] d IH]; simpl; [reflexivity |].
  intros H. destruct (String.eqb k n) eqn:E.
  - apply String.eqb_eq in E. tauto.
  - apply IH. tauto.
Qed.

Lemma single_label_NoDup (df : DataFrame) (n : string) :
  List.NoDup (columns df) -> single_label df n.
Proof.
  unfold single_label, columns. induction (data df) as [| [k c] d IH]; simpl;
    intros Hnd; [lia |].
  apply List.NoDup_cons_iff in Hnd. destruct Hnd as [Hk Hnd].
  destruct (String.eqb k n) eqn:E; [| now apply IH].
  apply String.eqb_eq in E. subst k. rewrite (select_not_in n d Hk). simpl. lia.
Qed.

Lemma assoc_get_not_in (n : string) (d : list (string * column)) :
  ~ In n (List.map fst d) -> assoc_get n d = None.
Proof. intros H. now rewrite select_assoc_get, (select_not_in n d H). Qed.

(** Association lists with the same distinct keys, in the same order, and
    the same lookups are equal. *)
Lemma assoc_ext (d1 d2 : list (string * column)) :
  List.NoDup (List.map fst d1) ->
  List.map fst d1 = List.map fst d2 ->
  (forall n, assoc_get n d1 = assoc_get n d2) ->
  d1 = d2.
Proof.
  revert d2. induction d1 as [| [k c] d1 IH]; intros [| [k' c'] d2] Hnd Hkeys Hget;
    try discriminate; [reflexivity |].
  simpl in Hkeys. injection Hkeys as <- Hkeys.
  simpl in Hnd. apply List.NoDup_cons_iff in Hnd. destruct Hnd as [Hk Hnd].
  pose proof (Hget k) as Hkk. simpl in Hkk. rewrite String.eqb_refl in Hkk.
  injection Hkk as <-.
  f_equal. apply IH; auto.
  intros n. specialize (Hget n). simpl in Hget.
  destruct (String.eqb k n) eqn:E; [| exact Hget].
  apply String.eqb_eq in E. subst n.
  rewrite !assoc_get_not_in; auto. now rewrite <- Hkeys.
Qed.

Lemma frame_ext (a b : DataFrame) :
  index_len a = index_len b -> data a = data b -> a = b.
Proof. destruct a, b. simpl. congruence. Qed.

Lemma assoc_get_setitem_other (df : DataFrame) (n m : string) (c : column) :
  m <> n -> assoc_get n (data (setitem df m c)) = assoc_get n (data df).
Proof.
  intros H. rewrite assoc_get_setitem.
  destruct (String.eqb m n) eqn:E; [| reflexivity].
  apply String.eqb_eq in E. contradiction.
Qed.

Ltac has_column_simpl :=
  unfold assign_columns; cbn [fold_left fst snd];
  rewrite ?has_column_setitem; eqb_literals; cbn [orb]; rewrite ?orb_true_r.

Section Rescoring.
Context {RT : Runtime}.

(** Scoring the scored table gives the table that scoring the original
    gives. *)
Lemma scored_scored (cd1 cd2 : gmap string value) (df out1 out2 : DataFrame) :
  List.NoDup (columns df) ->
  scored cd1 df = Ok out1 ->
  scored cd2 df = Ok out2 ->
  scored cd2 out1 = Ok out2.
Proof.
  intros Hnd H1 H2.
  assert (Hs : Forall (single_label df) Rules.distance_columns)
    by (apply List.Forall_forall; intros n _; now apply single_label_NoDup).
  apply scored_single in H1; [| exact Hs].
  destruct H1 as (t1 & e1 & p1 & a1 & x1 & c1 & _ & _ & _ & _ & _ & _ & ->).
  apply scored_single in H2; [| exact Hs].
  destruct H2 as (t & e & p & a & x & c & Ht & He & Hp & Ha & Hx & Hc & ->).
  set (out1 := setitem _ "base_score" (base_score_column _ [t1; e1; p1; c1; a1; x1])).
  assert (Hnd1 : List.NoDup (columns out1)).
  { unfold out1, assign_columns. cbn [fold_left fst snd].
    repeat apply NoDup_columns_setitem. exact Hnd. }
  assert (Hs1 : Forall (single_label out1) Rules.distance_columns)
    by (apply List.Forall_forall; intros n _; now apply single_label_NoDup).
  assert (Hsel : forall n, In n Rules.tracked ->
                           select n (data out1) = select n (data df)).
  { intros n Hn. unfold Rules.tracked in Hn. cbn [In] in Hn. unfold out1.
    destruct Hn as [<- | [<- | [<- | [<- | [<- | [<- | []]]]]]];
      setitem_simpl; reflexivity. }
  rewrite (scored_single_intro cd2 out1 t e p a x c Hs1).
  - f_equal. apply frame_ext; [reflexivity |].
    apply assoc_ext.
    + unfold assign_columns. cbn [fold_left fst snd].
      do 7 apply NoDup_columns_setitem. exact Hnd1.
    + change (columns (setitem
                (assign_columns out1
                   [("diff_tiered_income", t); ("diff_ethics", e); ("diff_politics", p);
                    ("diff_age", a); ("diff_sex", x); ("diff_cultural", c)])
                "base_score" (base_score_column (index_len out1) [t; e; p; c; a; x]))
              = columns (setitem
                (assign_columns df
                   [("diff_tiered_income", t); ("diff_ethics", e); ("diff_politics", p);
                    ("diff_age", a); ("diff_sex", x); ("diff_cultural", c)])
                "base_score" (base_score_column (index_len df) [t; e; p; c; a; x]))).
      transitivity (columns out1).
      * unfold assign_columns. cbn [fold_left fst snd].
        rewrite !columns_setitem. unfold out1. has_column_simpl. reflexivity.
      * unfold out1, assign_columns. cbn [fold_left fst snd].
        repeat apply columns_setitem_eq. reflexivity.
    + intros n.
      destruct (in_dec string_dec n (Rules.distance_columns ++ ["base_score"]))
        as [Hin | Hout].
      * unfold Rules.distance_columns in Hin. cbn [app In] in Hin. unfold out1.
        destruct Hin as [<- | [<- | [<- | [<- | [<- | [<- | [<- | []]]]]]]];
          setitem_simpl; reflexivity.
      * unfold Rules.distance_columns in Hout. cbn [app In] in Hout.
        unfold out1, assign_columns. cbn [fold_left fst snd].
        rewrite !assoc_get_setitem_other by (intros <-; tauto). reflexivity.
  - rewrite <- Ht. apply tiered_diff_column_ext; [reflexivity | | reflexivity].
    apply Hsel. simpl. tauto.
  - rewrite <- He. apply numeric_diff_column_ext; [reflexivity | | reflexivity].
    apply Hsel. simpl. tauto.
  - rewrite <- Hp. apply numeric_diff_column_ext; [reflexivity | | reflexivity].
    apply Hsel. simpl. tauto.
  - rewrite <- Ha. apply numeric_diff_column_ext; [reflexivity | | reflexivity].
    apply Hsel. simpl. tauto.
  - rewrite <- Hx. apply numeric_diff_column_ext; [reflexivity | | reflexivity].
    apply Hsel. simpl. tauto.
  - rewrite <- Hc. apply cultural_diff_column_ext; [reflexivity | | reflexivity].
    apply Hsel. simpl. tauto.
Qed.

Lemma content_mapping_mappings (s s' : store) (content : Logic.content_arg) :
  mappings s' = mappings s ->
  Rules.content_mapping s' content = Rules.content_mapping s content.
Proof. intros E. destruct content; simpl; now rewrite ?E. Qed.

(** X10. For a table with distinct column labels: scoring a table that
    the scorer returned, against any content, returns exactly the table
    that scoring the original table against that content returns (when it
    does): the earlier distances and score are replaced in place and
    nothing accumulates; in particular scoring it again against the same
    content returns an identical table. *)
Theorem rescoring_uses_last_content (s : store) (src : loc)
        (c1 c2 : Logic.content_arg) (cd1 cd2 : gmap string value)
        (df out1 out2 : DataFrame) :
  nth_error (frames s) src = Some df ->
  List.NoDup (columns df) ->
  Rules.content_mapping s c1 = Some cd1 ->
  Rules.content_mapping s c2 = Some cd2 ->
  returns s src c1 out1 ->
  returns s src c2 out2 ->
  forall (s' : store) (src' : loc),
    nth_error (frames s') src' = Some out1 ->
    mappings s' = mappings s ->
    returns s' src' c2 out2 /\ returns s' src' c1 out1.
Proof.
  intros Hsrc Hnd Hcd1 Hcd2 Hret1 Hret2 s' src' Hsrc' Hmap.
  apply (returns_scored s src c1 cd1 df out1 Hsrc Hcd1) in Hret1.
  apply (returns_scored s src c2 cd2 df out2 Hsrc Hcd2) in Hret2.
  split.
  - apply (returns_scored s' src' c2 cd2 out1 out2 Hsrc').
    + now rewrite (content_mapping_mappings s s' c2 Hmap).
    + now apply (scored_scored cd1 cd2 df).
  - apply (returns_scored s' src' c1 cd1 out1 out1 Hsrc').
    + now rewrite (content_mapping_mappings s s' c1 Hmap).
    + now apply (scored_scored cd1 cd1 df).
Qed.

End Rescoring.

Lemma rescoring_uses_last_content_witness :
  exists out1 out2,
    @returns decimal_runtime sample_store 0%nat Logic.CNone out1 /\
    @returns decimal_runtime sample_store 0%nat (Logic.CMapping 0%nat) out2 /\
    cell_at out1 "diff_age" 0 = Some VNaN /\
    cell_at out2 "diff_age" 0 = Some (VFloat 10) /\
    @returns decimal_runtime (top sample_store out1) 1%nat (Logic.CMapping 0%nat) out2 /\
    @returns decimal_runtime (top sample_store out1) 1%nat Logic.CNone out1.
Proof.
  eexists _, _.
  split; [eexists _, _; split; [vm_compute; reflexivity | reflexivity] |].
  split; [eexists _, _; split; [vm_compute; reflexivity | reflexivity] |].
  split; [reflexivity |]. split; [reflexivity |].
  apply (@rescoring_uses_last_content decimal_runtime sample_store 0%nat
           Logic.CNone (Logic.CMapping 0%nat) ∅ sample_content sample_frame);
    try reflexivity.
  - unfold columns, sample_frame. simpl.
    repeat (apply List.NoDup_cons; [simpl; intuition discriminate |]).
    apply List.NoDup_nil.
  - eexists _, _; split; [vm_compute; reflexivity | reflexivity].
  - eexists _, _; split; [vm_compute; reflexivity | reflexivity].
Defined.

(** ** Columns the table lacks *)

Section MissingColumns.
Context {RT : Runtime}.

(** X13. The numeric blocks guard the lookup: when the table lacks the
    column of a numeric attribute and the call returns, the distance column
    of that attribute is not-a-number in every row. *)
Lemma missing_numeric_column_nan (s : store) (src : loc) (content : Logic.content_arg)
      (cd : gmap string value) (df out : DataFrame) (attr : string) :
  nth_error (frames s) src = Some df ->
  Rules.content_mapping s content = Some cd ->
  In attr ["tiered_income"; "ethics"; "politics"; "age"; "sex"] ->
  has_column df attr = false ->
  returns s src content out ->
  assoc_get ("diff_" +:+ attr) (data out) = Some (repeat VNaN (index_len df)).
Proof.
  intros Hsrc Hcd Hattr Hno Hret.
  apply (returns_scored s src content cd df out Hsrc Hcd) in Hret.
  apply scored_inv in Hret.
  destruct Hret as (t & e & p & a & x & c & sub & Ht & He & Hp & Ha & Hx & _ & _ & ->).
  cbn [In] in Hattr.
  destruct Hattr as [<- | [<- | [<- | [<- | [<- | []]]]]]; literal_names; setitem_simpl.
  - unfold tiered_diff_column in Ht. rewrite Hno in Ht. cbv zeta in Ht.
    now injection Ht as <-.
  - unfold numeric_diff_column in He. rewrite Hno in He. cbv zeta in He.
    now injection He as <-.
  - unfold numeric_diff_column in Hp. rewrite Hno in Hp. cbv zeta in Hp.
    now injection Hp as <-.
  - unfold numeric_diff_column in Ha. rewrite Hno in Ha. cbv zeta in Ha.
    now injection Ha as <-.
  - unfold numeric_diff_column in Hx. rewrite Hno in Hx. cbv zeta in Hx.
    now injection Hx as <-.
Qed.

(** X14. The cultural block does not guard it: on a table without a
    [cultural] column no call returns, whatever the content; and when the
    blocks before it raise nothing (as for a content without the five
    numeric keys, the labels [ethics], [politics], [age] and [sex] being
    carried by at most one column each), what the call raises is
    [KeyError] for that label. *)
Lemma no_cultural_column_raises (s : store) (src : loc) (content : Logic.content_arg)
      (cd : gmap string value) (df : DataFrame) :
  nth_error (frames s) src = Some df ->
  Rules.content_mapping s content = Some cd ->
  has_column df "cultural" = false ->
  (forall out, ~ returns s src content out) /\
  (well_formed df ->
   (forall a, In a ["tiered_income"; "ethics"; "politics"; "age"; "sex"] ->
              cd !! a = None) ->
   Forall (single_label df) ["ethics"; "politics"; "age"; "sex"] ->
   fst (Logic.compute_base_match_df src content s) = Raise (KeyError "cultural")).
Proof.
  intros Hsrc Hcd Hno.
  assert (Hget : getitem df "cultural" = Raise (KeyError "cultural")).
  { unfold getitem. rewrite has_column_select in Hno.
    now destruct (select "cultural" (data df)). }
  split.
  - intros out Hret.
    apply (returns_scored s src content cd df out Hsrc Hcd) in Hret.
    apply scored_inv in Hret.
    destruct Hret as (t & e & p & a & x & c & sub & _ & _ & _ & _ & _ & Hc & _).
    unfold cultural_diff_column in Hc. rewrite Hget in Hc. discriminate Hc.
  - intros Hwf Hnone Hs.
    apply (raises_scored s src content cd df _ Hsrc Hcd).
    repeat match goal with
           | H : Forall _ (_ :: _) |- _ =>
               apply Forall_cons_1 in H; let H1 := fresh "S" in destruct H as [H1 H]
           end.
    unfold scored.
    rewrite (tiered_column_lacking cd df) by (apply Hnone; simpl; tauto).
    rewrite !(numeric_column_lacking cd df Hwf)
      by (try assumption; apply Hnone; simpl; tauto).
    cbn [rbind]. unfold cultural_diff_column. now rewrite Hget.
Qed.

End MissingColumns.

Lemma missing_numeric_column_nan_witness :
  exists out,
    @returns decimal_runtime store_without_ethics 0%nat (Logic.CMapping 0%nat) out /\
    assoc_get "diff_ethics" (data out) = Some [VNaN; VNaN] /\
    assoc_get "diff_age" (data out) = Some [VFloat 10; VFloat 10].
Proof.
  eexists. split.
  { eexists _, _. split; [vm_compute; reflexivity | reflexivity]. }
  split; [| reflexivity].
  apply (@missing_numeric_column_nan decimal_runtime store_without_ethics 0%nat
           (Logic.CMapping 0%nat) sample_content frame_without_ethics _ "ethics");
    try reflexivity.
  - simpl. tauto.
  - eexists _, _. split; [vm_compute; reflexivity | reflexivity].
Defined.

Lemma no_cultural_column_raises_witness :
  (forall out, ~ @returns decimal_runtime store_without_cultural 0%nat
                          (Logic.CMapping 0%nat) out) /\
  fst (@Logic.compute_base_match_df decimal_runtime 0%nat Logic.CNone
         store_without_cultural)
  = Raise (KeyError "cultural").
Proof.
  split.
  - apply (@no_cultural_column_raises decimal_runtime store_without_cultural 0%nat
             (Logic.CMapping 0%nat) sample_content frame_without_cultural);
      reflexivity.
  - apply (@no_cultural_column_raises decimal_runtime store_without_cultural 0%nat
             Logic.CNone ∅ frame_without_cultural); try reflexivity.
    + apply well_formedb_spec. reflexivity.
    + repeat constructor; unfold single_label; simpl; lia.
Defined.

(** ** Rows are scored one by one *)

Lemma cell_at_single (df : DataFrame) (a : string) (col : column) (i : nat) :
  select a (data df) = [col] -> cell_at df a i = nth_error col i.
Proof. intros H. unfold cell_at. now rewrite select_assoc_get, H. Qed.

Lemma cell_at_absent (df : DataFrame) (a : string) (i : nat) :
  has_column df a = false -> cell_at df a i = None.
Proof.
  rewrite has_column_select. unfold cell_at. rewrite select_assoc_get.
  now destruct (select a (data df)).
Qed.

Lemma absent_or_single (df df' : DataFrame) (a : string) (col : column) (i : nat) :
  well_formed df' -> (i < index_len df')%nat ->
  has_column df a = false -> select a (data df') = [col] ->
  cell_at df a i <> cell_at df' a i.
Proof.
  intros Hwf Hi Hh Hsel.
  rewrite (cell_at_absent df a i Hh), (cell_at_single df' a col i Hsel).
  pose proof (select_single_length df' a col Hwf Hsel) as Hlen.
  intros E. symmetry in E. apply nth_error_None in E. lia.
Qed.

Lemma mapped_cell_agree {A B : Type} (f : A -> result B) (col col' : list A)
      (ys ys' : list B) (i : nat) :
  map_result f col = Ok ys -> map_result f col' = Ok ys' ->
  nth_error col i = nth_error col' i ->
  nth_error ys i = nth_error ys' i.
Proof.
  intros H H' E. destruct (nth_error col i) as [x |] eqn:Ex.
  - symmetry in E.
    destruct (map_result_nth f col ys i x H Ex) as (y & Hy & ->).
    destruct (map_result_nth f col' ys' i x H' E) as (y' & Hy' & ->).
    congruence.
  - symmetry in E. apply nth_error_None in Ex, E.
    rewrite <- (map_result_length _ _ _ H) in Ex.
    rewrite <- (map_result_length _ _ _ H') in E.
    apply nth_error_None in Ex, E. congruence.
Qed.

Section Rows.
Context {RT : Runtime}.
Variables (cd : gmap string value) (df df' : DataFrame) (i : nat).
Hypotheses (Hwf : well_formed df) (Hwf' : well_formed df').
Hypotheses (Hi : (i < index_len df)%nat) (Hi' : (i < index_len df')%nat).

Lemma tiered_cell_agree (t t' : column) :
  cell_at df "tiered_income" i = cell_at df' "tiered_income" i ->
  tiered_diff_column cd df = Ok t -> tiered_diff_column cd df' = Ok t' ->
  nth_error t i = nth_error t' i.
Proof.
  intros Hcell Ht Ht'. apply tiered_column_inv in Ht, Ht'.
  destruct Ht as [[Hh ->] | [(c & Hc & Hn & ->) |
                             (col & xs & c & Hsel & Hxs & Hc & Hn & ->)]];
    destruct Ht' as [[Hh' ->] | [(c' & Hc' & Hn' & ->) |
                                 (col' & xs' & c' & Hsel' & Hxs' & Hc' & Hn' & ->)]];
    try (rewrite !nth_error_repeat_nan by assumption; reflexivity);
    try (exfalso; congruence).
  - exfalso. now apply (absent_or_single df df' "tiered_income" col' i).
  - exfalso. symmetry in Hcell.
    now apply (absent_or_single df' df "tiered_income" col i).
  - assert (c = c') as <- by congruence.
    rewrite !nth_error_map. f_equal.
    apply (mapped_cell_agree Logic.series_element col col'); try assumption.
    now rewrite <- (cell_at_single df _ col i Hsel),
                <- (cell_at_single df' _ col' i Hsel').
Qed.

Lemma numeric_cell_agree (attr : string) (e e' : column) :
  cell_at df attr i = cell_at df' attr i ->
  numeric_diff_column cd df attr = Ok e -> numeric_diff_column cd df' attr = Ok e' ->
  nth_error e i = nth_error e' i.
Proof.
  intros Hcell He He'. apply numeric_column_inv in He, He'.
  destruct He as [[Hh ->] | (col & Hsel & Hmap)];
    destruct He' as [[Hh' ->] | (col' & Hsel' & Hmap')].
  - rewrite !nth_error_repeat_nan by assumption. reflexivity.
  - exfalso. now apply (absent_or_single df df' attr col' i).
  - exfalso. symmetry in Hcell. now apply (absent_or_single df' df attr col i).
  - apply (mapped_cell_agree _ col col' e e' i Hmap Hmap').
    now rewrite <- (cell_at_single df _ col i Hsel),
                <- (cell_at_single df' _ col' i Hsel').
Qed.

Lemma cultural_cell_agree (c c' : column) :
  cell_at df "cultural" i = cell_at df' "cultural" i ->
  cultural_diff_column cd df = Ok c -> cultural_diff_column cd df' = Ok c' ->
  nth_error c i = nth_error c' i.
Proof.
  intros Hcell Hc Hc'. apply cultural_column_inv in Hc, Hc'.
  destruct Hc as (col & Hsel & Hmap). destruct Hc' as (col' & Hsel' & Hmap').
  apply (mapped_cell_agree _ col col' c c' i Hmap Hmap').
  now rewrite <- (cell_at_single df _ col i Hsel),
              <- (cell_at_single df' _ col' i Hsel').
Qed.

Lemma scored_row_agree (out out' : DataFrame) :
  Forall (single_label df) Rules.distance_columns ->
  Forall (single_label df') Rules.distance_columns ->
  (forall a, In a Rules.tracked -> cell_at df a i = cell_at df' a i) ->
  scored cd df = Ok out -> scored cd df' = Ok out' ->
  forall n, In n (Rules.distance_columns ++ ["base_score"]) ->
            cell_at out n i = cell_at out' n i.
Proof.
  intros Hs Hs' Hrow H H'.
  assert (Hdist : forall n, In n Rules.distance_columns ->
                            cell_at out n i = cell_at out' n i).
  { pose proof H as Hsc. pose proof H' as Hsc'.
    apply scored_single in Hsc; [| exact Hs]. apply scored_single in Hsc'; [| exact Hs'].
    destruct Hsc as (t & e & p & a & x & c & Ht & He & Hp & Ha & Hx & Hc & ->).
    destruct Hsc' as (t' & e' & p' & a' & x' & c' & Ht' & He' & Hp' & Ha' & Hx' & Hc' & ->).
    intros n Hn. unfold Rules.distance_columns in Hn. cbn [In] in Hn.
    destruct Hn as [<- | [<- | [<- | [<- | [<- | [<- | []]]]]]]; setitem_simpl.
    - apply tiered_cell_agree; try assumption. apply Hrow. simpl. tauto.
    - apply (numeric_cell_agree "ethics"); try assumption. apply Hrow. simpl. tauto.
    - apply (numeric_cell_agree "politics"); try assumption. apply Hrow. simpl. tauto.
    - apply cultural_cell_agree; try assumption. apply Hrow. simpl. tauto.
    - apply (numeric_cell_agree "age"); try assumption. apply Hrow. simpl. tauto.
    - apply (numeric_cell_agree "sex"); try assumption. apply Hrow. simpl. tauto. }
  intros n Hn. apply in_app_or in Hn. destruct Hn as [Hn | [<- | []]]; [now apply Hdist |].
  rewrite (scored_base_score_cell cd df out i Hwf Hs H Hi).
  rewrite (scored_base_score_cell cd df' out' i Hwf' Hs' H' Hi').
  do 2 f_equal. unfold row_cells. apply map_ext_in. intros n Hn. now rewrite Hdist.
Qed.

End Rows.

(** X15. Rows are scored one by one: when two tables (each carrying every
    distance label at most once) agree at row [i] on the cells of the six
    tracked columns and the scorer returns for both against the same
    content, the seven cells the scorer writes at row [i] are the same in
    the two results, whatever the other rows hold. *)
Theorem rows_scored_independently {RT : Runtime} (s : store) (src src' : loc)
        (content : Logic.content_arg) (cd : gmap string value)
        (df df' out out' : DataFrame) (i : nat) :
  nth_error (frames s) src = Some df ->
  nth_error (frames s) src' = Some df' ->
  well_formed df -> well_formed df' ->
  Forall (single_label df) Rules.distance_columns ->
  Forall (single_label df') Rules.distance_columns ->
  Rules.content_mapping s content = Some cd ->
  (i < index_len df)%nat -> (i < index_len df')%nat ->
  (forall a, In a Rules.tracked -> cell_at df a i = cell_at df' a i) ->
  returns s src content out ->
  returns s src' content out' ->
  forall n,
    In n ["diff_tiered_income"; "diff_ethics"; "diff_politics"; "diff_cultural";
          "diff_age"; "diff_sex"; "base_score"] ->
    cell_at out n i = cell_at out' n i.
Proof.
  intros Hsrc Hsrc' Hwf Hwf' Hs Hs' Hcd Hi Hi' Hrow Hret Hret'.
  apply (returns_scored s src content cd df out Hsrc Hcd) in Hret.
  apply (returns_scored s src' content cd df' out' Hsrc' Hcd) in Hret'.
  exact (scored_row_agree cd df df' i Hwf Hwf' Hi Hi' out out' Hs Hs' Hrow Hret Hret').
Qed.

Lemma rows_scored_independently_witness :
  exists out out',
    @returns decimal_runtime row_tables_store 0%nat (Logic.CMapping 0%nat) out /\
    @returns decimal_runtime row_tables_store 1%nat (Logic.CMapping 0%nat) out' /\
    cell_at out "diff_age" 0 = Some (VFloat 10) /\
    cell_at out "diff_age" 1 <> cell_at out' "diff_age" 1 /\
    forall n,
      In n ["diff_tiered_income"; "diff_ethics"; "diff_politics"; "diff_cultural";
            "diff_age"; "diff_sex"; "base_score"] ->
      cell_at out n 0 = cell_at out' n 0.
Proof.
  eexists _, _.
  split; [eexists _, _; split; [vm_compute; reflexivity | reflexivity] |].
  split; [eexists _, _; split; [vm_compute; reflexivity | reflexivity] |].
  split; [reflexivity |]. split; [discriminate |].
  apply (@rows_scored_independently decimal_runtime row_tables_store 0%nat 1%nat
           (Logic.CMapping 0%nat) sample_content sample_frame sample_frame_other_rows);
    try reflexivity.
  - now apply well_formedb_spec.
  - now apply well_formedb_spec.
  - repeat constructor; unfold single_label; simpl; lia.
  - repeat constructor; unfold single_label; simpl; lia.
  - simpl. lia.
  - simpl. lia.
  - intros a Ha. simpl in Ha.
    destruct Ha as [<- | [<- | [<- | [<- | [<- | [<- | []]]]]]]; reflexivity.
  - eexists _, _; split; [vm_compute; reflexivity | reflexivity].
  - eexists _, _; split; [vm_compute; reflexivity | reflexivity].
Defined.
